(** * Snowflake queries extractor: audit-log parser and enriched audit query

    A shallow embedding of
    [metadata-ingestion/src/datahub/ingestion/source/snowflake/snowflake_queries.py]:

    - [_parse_audit_log_row] and [fetch_audit_log] of
      [SnowflakeQueriesExtractor], over dynamically typed Python values,
      with exceptions as a result type and the structured report threaded
      as explicit state;
    - [_build_enriched_audit_log_query], both as the SQL text the function
      returns and as the relational meaning of each of its common table
      expressions.

    Python dictionaries that are only read by key are [gmap]s, sets are
    [gset]s; the row handed over by the cursor and decoded JSON objects keep
    their insertion order as association lists. *)

From Stdlib Require Import ZArith String Ascii List Bool Lia DecimalString.
From stdpp Require Import base option list strings gmap.

Set Warnings "-register-all".
Local Open Scope string_scope.
Local Open Scope list_scope.
Local Open Scope Z_scope.

(** ** Python values *)

(** A timezone-aware [datetime]: the instant in microseconds since the epoch
    and the UTC offset (in minutes) it is displayed in. *)
Record datetime := mk_datetime { dt_instant : Z; dt_utcoffset : Z }.

(** [timestamp.astimezone(timezone.utc)]: same instant, offset zero. *)
Definition astimezone_utc (t : datetime) : datetime :=
  {| dt_instant := dt_instant t; dt_utcoffset := 0 |}.

(** The values a cursor row ([Dict[str, Any]]) and [json.loads] can hold. *)
Inductive pyval :=
| PyNone
| PyBool (b : bool)
| PyInt (n : Z)
| PyStr (s : string)
| PyDatetime (t : datetime)
| PyList (xs : list pyval)
| PyDict (kvs : list (string * pyval)).

(** A row as the cursor returns it: keys in column order. *)
Abbreviation Row := (list (string * pyval)).

Inductive exn :=
| KeyError (key : string)
| TypeError
| AttributeError
| JSONDecodeError
| AssertionError
| InvalidUrnError.

(** ** Exceptions and the report as effects *)

Inductive result (A : Type) :=
| Return (a : A)
| Raise (e : exn).
Arguments Return {A} a.
Arguments Raise {A} e.

Definition bindR {A B} (m : result A) (k : A -> result B) : result B :=
  match m with
  | Return a => k a
  | Raise e => Raise e
  end.

Notation "x <- m ;; k" := (bindR m (fun x => k))
  (at level 100, m at next level, right associativity).

(** One call of [structured_reporter.warning] / [report_warning]. The
    context is [f"{row}"], which the row determines; the row itself is
    recorded. *)
Record StructuredWarning := mk_warning {
  w_message : string;
  w_context : Row;
  w_exc : option exn }.

(** The report is modelled as the log of warning calls, oldest first. *)
Record SourceReport := mk_report { warnings : list StructuredWarning }.

Definition report_warning (message : string) (context : Row)
    (exc : option exn) (rep : SourceReport) : SourceReport :=
  {| warnings := warnings rep ++ [mk_warning message context exc] |}.

Definition add_warnings (rep : SourceReport) (ws : list StructuredWarning)
    : SourceReport :=
  {| warnings := warnings rep ++ ws |}.

Definition empty_report : SourceReport := mk_report [].

(** Warnings that carry no exception. *)
Definition exception_free (ws : list StructuredWarning) : Prop :=
  Forall (fun w => w_exc w = None) ws.

(** Code that may both report and raise. *)
Definition M (A : Type) : Type := SourceReport -> SourceReport * result A.

Definition retM {A} (a : A) : M A := fun rep => (rep, Return a).

Definition bindM {A B} (m : M A) (k : A -> M B) : M B :=
  fun rep =>
    match m rep with
    | (rep', Return a) => k a rep'
    | (rep', Raise e) => (rep', Raise e)
    end.

Definition lift {A} (m : result A) : M A := fun rep => (rep, m).

Definition warn (message : string) (context : Row) (exc : option exn) : M unit :=
  fun rep => (report_warning message context exc rep, Return tt).

Notation "x <~ m ;; k" := (bindM m (fun x => k))
  (at level 100, m at next level, right associativity).

(** A computation that only appends to the report and behaves the same
    whatever the report holds. *)
Definition appends {A} (m : M A) : Prop :=
  ∀ rep, m rep = (add_warnings rep (warnings (fst (m empty_report))),
                  snd (m empty_report)).

(** ... and whose own warnings carry no exception. *)
Definition quiet {A} (m : M A) : Prop :=
  appends m ∧ exception_free (warnings (fst (m empty_report))).

(** ** Python operations on values *)

(** Truth value of an object, as [if value:] tests it. *)
Definition truthy (v : pyval) : bool :=
  match v with
  | PyNone => false
  | PyBool b => b
  | PyInt n => negb (n =? 0)
  | PyStr s => negb (String.eqb s "")
  | PyDatetime _ => true
  | PyList xs => negb (Nat.eqb (length xs) 0)
  | PyDict kvs => negb (Nat.eqb (length kvs) 0)
  end.

(** [if downstream:] on an [Optional[str]]. *)
Definition truthy_opt_str (o : option string) : bool :=
  match o with
  | None => false
  | Some s => negb (String.eqb s "")
  end.

Fixpoint chars (s : string) : list pyval :=
  match s with
  | EmptyString => []
  | String c rest => PyStr (String c EmptyString) :: chars rest
  end.

(** The elements a [for x in v] loop visits; not every value is iterable. *)
Definition py_iter (v : pyval) : result (list pyval) :=
  match v with
  | PyList xs => Return xs
  | PyDict kvs => Return (map (fun kv => PyStr (fst kv)) kvs)
  | PyStr s => Return (chars s)
  | PyNone | PyBool _ | PyInt _ | PyDatetime _ => Raise TypeError
  end.

Fixpoint assoc (key : string) (kvs : list (string * pyval)) : option pyval :=
  match kvs with
  | [] => None
  | (k, v) :: rest => if String.eqb k key then Some v else assoc key rest
  end.

(** [obj[key]] with a string key: only a dict can be indexed this way. *)
Definition py_getitem (obj : pyval) (key : string) : result pyval :=
  match obj with
  | PyDict kvs =>
      match assoc key kvs with
      | Some v => Return v
      | None => Raise (KeyError key)
      end
  | _ => Raise TypeError
  end.

(** [res[key]] on the dict of lower-cased columns. *)
Definition dict_getitem (res : gmap string pyval) (key : string) : result pyval :=
  match res !! key with
  | Some v => Return v
  | None => Raise (KeyError key)
  end.

(** The collaborators below are typed [str -> ...]; handing them anything
    else fails inside them. *)
Definition as_str (v : pyval) : result string :=
  match v with
  | PyStr s => Return s
  | _ => Raise TypeError
  end.

(** [v in S] for a set of strings: unhashable values raise, other
    non-strings are simply not members. *)
Definition py_in (v : pyval) (S : gset string) : result bool :=
  match v with
  | PyStr s => Return (bool_decide (s ∈ S))
  | PyList _ | PyDict _ => Raise TypeError
  | _ => Return false
  end.

(** [str.lower()] and [str.upper()] on ASCII letters. The parser applies
    [lower] to the column names of a cursor row; the case mapping of
    arbitrary text is [str_upper] below. *)
Definition ascii_lower (c : ascii) : ascii :=
  let n := nat_of_ascii c in
  if (Nat.leb 65 n && Nat.leb n 90)%bool then ascii_of_nat (n + 32) else c.

Definition ascii_upper (c : ascii) : ascii :=
  let n := nat_of_ascii c in
  if (Nat.leb 97 n && Nat.leb n 122)%bool then ascii_of_nat (n - 32) else c.

Fixpoint lower (s : string) : string :=
  match s with
  | EmptyString => EmptyString
  | String c rest => String (ascii_lower c) (lower rest)
  end.

Fixpoint upper (s : string) : string :=
  match s with
  | EmptyString => EmptyString
  | String c rest => String (ascii_upper c) (upper rest)
  end.

(** Whether a text holds ASCII characters only. *)
Fixpoint is_ascii (s : string) : bool :=
  match s with
  | EmptyString => true
  | String c rest => Nat.ltb (nat_of_ascii c) 128 && is_ascii rest
  end.

(** ** Collaborators that live outside this module *)

(** [SnowflakeIdentifierMixin]: identifier normalisation and urn building
    (spec section 6, identifier resolver). *)
Class SnowflakeIdentifierMixin := {
  snowflake_identifier : string -> string;
  cleanup_qualified_name : string -> string;
  gen_dataset_urn : string -> string }.

(** Two constants of [SnowflakeQuery], declared in [snowflake_query.py]
    and taken as parameters here: the set of table-or-view object domains,
    and the same set written as a SQL list. *)
Class SnowflakeQuery := {
  ACCESS_HISTORY_TABLE_VIEW_DOMAINS : gset string;
  ACCESS_HISTORY_TABLE_VIEW_DOMAINS_FILTER : string }.

(** What the module takes from the Python runtime and its libraries:
    [json.loads] on a [str] ([None]: the text is not JSON); the
    [CorpUserUrn] constructor, which validates the user name; [str.upper()],
    the case mapping of Unicode, which on text made of ASCII characters
    only is [upper]; [pathlib.Path.is_dir()] and the directory that
    [tempfile.mkdtemp()] creates. *)
Class Runtime := {
  json_decode : string -> option pyval;
  CorpUserUrn : string -> result string;
  str_upper : string -> string;
  str_upper_ascii : ∀ s, is_ascii s = true -> str_upper s = upper s;
  is_dir : string -> bool;
  mkdtemp : string }.

(** Whether an access-history object is of a table-or-view domain. This is
    the SQL lambda [o -> o:objectDomain IN ('Table', ...)], for which a
    missing or non-text domain compares as NULL and the element is not kept,
    and the value of [o["objectDomain"] in ACCESS_HISTORY_TABLE_VIEW_DOMAINS]
    whenever that expression does not raise. *)
Definition table_view_domain `{!SnowflakeQuery} (o : pyval) : bool :=
  match py_getitem o "objectDomain" with
  | Return (PyStr domain) => bool_decide (domain ∈ ACCESS_HISTORY_TABLE_VIEW_DOMAINS)
  | _ => false
  end.

(** ** The normalised record *)

(** Modelled from the spec: [QueryType] is declared in
    [sql_parsing_common.py]; its members are those of spec section 4.3,
    which are also the ones the mapping below names. *)
Module QueryType.
Inductive t :=
| INSERT | UPDATE | DELETE | CREATE_OTHER | CREATE_DDL | CREATE_VIEW
| CREATE_TABLE_AS_SELECT | MERGE | UNKNOWN.
End QueryType.

Definition SNOWFLAKE_QUERY_TYPE_MAPPING : list (string * QueryType.t) :=
  [ ("INSERT", QueryType.INSERT);
    ("UPDATE", QueryType.UPDATE);
    ("DELETE", QueryType.DELETE);
    ("CREATE", QueryType.CREATE_OTHER);
    ("CREATE_TABLE", QueryType.CREATE_DDL);
    ("CREATE_VIEW", QueryType.CREATE_VIEW);
    ("CREATE_TABLE_AS_SELECT", QueryType.CREATE_TABLE_AS_SELECT);
    ("MERGE", QueryType.MERGE);
    ("COPY", QueryType.UNKNOWN);
    ("TRUNCATE_TABLE", QueryType.UNKNOWN) ].

Fixpoint mapping_lookup (key : string) (m : list (string * QueryType.t))
    : option QueryType.t :=
  match m with
  | [] => None
  | (k, q) :: rest => if String.eqb k key then Some q else mapping_lookup key rest
  end.

(** [SNOWFLAKE_QUERY_TYPE_MAPPING.get(key, QueryType.UNKNOWN)]. *)
Definition query_type_get (key : pyval) : result QueryType.t :=
  match key with
  | PyStr s =>
      Return (default QueryType.UNKNOWN (mapping_lookup s SNOWFLAKE_QUERY_TYPE_MAPPING))
  | PyList _ | PyDict _ => Raise TypeError
  | _ => Return QueryType.UNKNOWN
  end.

(** The records of [sqlglot_lineage] and [sql_parsing_aggregator] the parser
    builds, with the fields it sets ([inferred_schema] is always [None] and
    is left out). *)
Record ColumnRef := mk_ColumnRef { cr_table : string; cr_column : string }.

Record DownstreamColumnRef := mk_DownstreamColumnRef {
  dcr_dataset : option string;
  dcr_column : string }.

Record ColumnLineageInfo := mk_ColumnLineageInfo {
  cli_downstream : DownstreamColumnRef;
  cli_upstreams : list ColumnRef }.

Record PreparsedQuery := mk_PreparsedQuery {
  query_id : pyval;
  query_text : pyval;
  upstreams : list string;
  downstream : option string;
  column_lineage : option (list ColumnLineageInfo);
  column_usage : gmap string (gset string);
  confidence_score : Z;
  query_count : pyval;
  user : string;
  timestamp : datetime;
  session_id : pyval;
  query_type : QueryType.t }.

(** ** The row parser *)

Section Parser.
Context `{!SnowflakeIdentifierMixin, !SnowflakeQuery, !Runtime}.

(** [json.loads(value)]: text only. *)
Definition json_loads (value : pyval) : result pyval :=
  match value with
  | PyStr s =>
      match json_decode s with
      | Some v => Return v
      | None => Raise JSONDecodeError
      end
  | _ => Raise TypeError
  end.

Definition json_fields : gset string :=
  {[ "DIRECT_OBJECTS_ACCESSED"; "OBJECTS_MODIFIED" ]}.

(** The first loop of [_parse_audit_log_row]: decode the two JSON columns
    when they hold something truthy, lower-case every key. *)
Fixpoint normalize_row (items : Row) (res : gmap string pyval)
    : result (gmap string pyval) :=
  match items with
  | [] => Return res
  | (key, value) :: rest =>
      value <- (if (bool_decide (key ∈ json_fields) && truthy value)%bool
                then json_loads value else Return value) ;;
      normalize_row rest (<[lower key := value]> res)
  end.

Definition get_dataset_identifier_from_qualified_name (qualified_name : string)
    : string :=
  snowflake_identifier (cleanup_qualified_name qualified_name).

(** [self.gen_dataset_urn(self.get_dataset_identifier_from_qualified_name(v))]. *)
Definition dataset_urn_of (v : pyval) : result string :=
  qualified_name <- as_str v ;;
  Return (gen_dataset_urn (get_dataset_identifier_from_qualified_name qualified_name)).

(** [self.snowflake_identifier(v)]. *)
Definition column_identifier_of (v : pyval) : result string :=
  name <- as_str v ;;
  Return (snowflake_identifier name).

(** [for modified_column in obj["columns"]: columns.add(...)]. *)
Fixpoint accessed_columns_loop (cols : list pyval) (columns : gset string)
    : result (gset string) :=
  match cols with
  | [] => Return columns
  | modified_column :: rest =>
      name <- py_getitem modified_column "columnName" ;;
      column <- column_identifier_of name ;;
      accessed_columns_loop rest (columns ∪ {[ column ]})
  end.

(** [for obj in direct_objects_accessed: ...]. *)
Fixpoint accessed_loop (objs : list pyval) (upstreams : list string)
    (column_usage : gmap string (gset string))
    : result (list string * gmap string (gset string)) :=
  match objs with
  | [] => Return (upstreams, column_usage)
  | obj :: rest =>
      name <- py_getitem obj "objectName" ;;
      dataset <- dataset_urn_of name ;;
      cols <- py_getitem obj "columns" ;;
      cols <- py_iter cols ;;
      columns <- accessed_columns_loop cols ∅ ;;
      accessed_loop rest (upstreams ++ [dataset]) (<[dataset := columns]> column_usage)
  end.

(** The list comprehension building [upstreams] of one lineage edge: the
    condition is evaluated first, the element only when it holds. *)
Fixpoint direct_sources_refs (sources : list pyval) : result (list ColumnRef) :=
  match sources with
  | [] => Return []
  | upstream :: rest =>
      domain <- py_getitem upstream "objectDomain" ;;
      keep <- py_in domain ACCESS_HISTORY_TABLE_VIEW_DOMAINS ;;
      if keep : bool then
        name <- py_getitem upstream "objectName" ;;
        table <- dataset_urn_of name ;;
        column <- py_getitem upstream "columnName" ;;
        column <- column_identifier_of column ;;
        refs <- direct_sources_refs rest ;;
        Return (mk_ColumnRef table column :: refs)
      else direct_sources_refs rest
  end.

(** [for modified_column in obj["columns"]: column_lineage.append(...)]. *)
Fixpoint modified_columns_loop (downstream : string) (cols : list pyval)
    (column_lineage : list ColumnLineageInfo) : result (list ColumnLineageInfo) :=
  match cols with
  | [] => Return column_lineage
  | modified_column :: rest =>
      name <- py_getitem modified_column "columnName" ;;
      column <- column_identifier_of name ;;
      sources <- py_getitem modified_column "directSources" ;;
      sources <- py_iter sources ;;
      refs <- direct_sources_refs sources ;;
      modified_columns_loop downstream rest
        (column_lineage ++
         [mk_ColumnLineageInfo (mk_DownstreamColumnRef (Some downstream) column) refs])
  end.

Definition multiple_downstream_message : string :=
  "Unexpectedly got multiple downstream entities from the Snowflake audit log.".

(** [for obj in objects_modified: ...], carrying [downstream] and
    [column_lineage] from one iteration to the next. *)
Fixpoint modified_loop (row : Row) (objs : list pyval)
    (downstream : option string) (column_lineage : option (list ColumnLineageInfo))
    : M (option string * option (list ColumnLineageInfo)) :=
  match objs with
  | [] => retM (downstream, column_lineage)
  | obj :: rest =>
      _ <~ (if truthy_opt_str downstream
            then warn multiple_downstream_message row None
            else retM tt) ;;
      name <~ lift (py_getitem obj "objectName") ;;
      downstream <~ lift (dataset_urn_of name) ;;
      cols <~ lift (py_getitem obj "columns") ;;
      cols <~ lift (py_iter cols) ;;
      column_lineage <~ lift (modified_columns_loop downstream cols []) ;;
      modified_loop row rest (Some downstream) (Some column_lineage)
  end.

Definition _parse_audit_log_row (row : Row) : M PreparsedQuery :=
  res <~ lift (normalize_row row ∅) ;;
  direct_objects_accessed <~ lift (dict_getitem res "direct_objects_accessed") ;;
  objects_modified <~ lift (dict_getitem res "objects_modified") ;;
  accessed <~ lift (py_iter direct_objects_accessed) ;;
  read <~ lift (accessed_loop accessed [] ∅) ;;
  let '(upstreams, column_usage) := read in
  modified <~ lift (py_iter objects_modified) ;;
  written <~ modified_loop row modified None None ;;
  let '(downstream, column_lineage) := written in
  user_name <~ lift (dict_getitem res "user_name") ;;
  user_name <~ lift (as_str user_name) ;;
  user <~ lift (CorpUserUrn user_name) ;;
  timestamp <~ lift (dict_getitem res "query_start_time") ;;
  timestamp <~ lift (match timestamp with
                     | PyDatetime t => Return (astimezone_utc t)
                     | _ => Raise AttributeError
                     end) ;;
  query_type <~ lift (dict_getitem res "query_type") ;;
  query_type <~ lift (query_type_get query_type) ;;
  query_fingerprint <~ lift (dict_getitem res "query_fingerprint") ;;
  query_text <~ lift (dict_getitem res "query_text") ;;
  query_count <~ lift (dict_getitem res "query_count") ;;
  session_id <~ lift (dict_getitem res "session_id") ;;
  retM {| query_id := query_fingerprint;
          query_text := query_text;
          upstreams := upstreams;
          downstream := downstream;
          column_lineage := column_lineage;
          column_usage := column_usage;
          confidence_score := 1;
          query_count := query_count;
          user := user;
          timestamp := timestamp;
          session_id := session_id;
          query_type := query_type |}.

End Parser.

(** ** The enriched audit query: SQL text *)

(** Modelled from the spec: [BucketDuration] is declared in
    [time_window_config.py]; its values are the three granularities the
    builder accepts. *)
Module BucketDuration.
Inductive t := HOUR | DAY | MONTH.
Definition value (b : t) : string :=
  match b with
  | HOUR => "HOUR"
  | DAY => "DAY"
  | MONTH => "MONTH"
  end.
End BucketDuration.

(** Make sure we don't try to generate too much info for a single query. *)
Definition _MAX_TABLES_PER_QUERY : Z := 20.

(** [f"{n}"] for an integer. *)
Definition string_of_Z (n : Z) : string := NilZero.string_of_int (Z.to_int n).

Definition dquote : string := String (ascii_of_nat 34) EmptyString.
Definition newline : string := String (ascii_of_nat 10) EmptyString.

(** Every line of the text, each ended by a line feed. *)
Definition unlines (ls : list string) : string :=
  String.concat "" (map (fun l => l +:+ newline) ls).

(** [a or b] on strings. *)
Definition py_or (a b : string) : string := if String.eqb a "" then b else a.

(** *** Doubles

    [datetime.timestamp()] and its product by 1000 are computed in IEEE 754
    binary64, every operation rounded to nearest, ties to even. A
    [datetime] lies within 2^58 microseconds of the epoch, so the doubles
    met here are zero or normal: [mantissa * 2 ^ exponent] with
    [|mantissa| < 2 ^ 53]. *)
Record binary64 := mk_binary64 { mantissa : Z; exponent : Z }.

(** The integer nearest to [n / d], ties to even, for [d > 0]. *)
Definition round_half_even (n d : Z) : Z :=
  let q := n / d in
  let r := n mod d in
  if 2 * r <? d then q
  else if d <? 2 * r then q + 1
  else if Z.even q then q else q + 1.

(** The double nearest to [n / d], for [d > 0]: [int / int]. *)
Definition binary64_of_ratio (n d : Z) : binary64 :=
  if n =? 0 then mk_binary64 0 0 else
  let a := Z.abs n in
  let k := Z.log2 a - Z.log2 d in
  let below := if 0 <=? k then a <? d * 2 ^ k else a * 2 ^ (- k) <? d in
  let e := (if below then k - 1 else k) - 52 in
  let m := if 0 <=? e then round_half_even a (d * 2 ^ e)
           else round_half_even (a * 2 ^ (- e)) d in
  if m =? 2 ^ 53 then mk_binary64 (Z.sgn n * 2 ^ 52) (e + 1)
  else mk_binary64 (Z.sgn n * m) e.

(** [x * k] for a double [x] and a small integer [k]. *)
Definition binary64_mul_int (x : binary64) (k : Z) : binary64 :=
  let n := mantissa x * k in
  if 0 <=? exponent x then binary64_of_ratio (n * 2 ^ exponent x) 1
  else binary64_of_ratio n (2 ^ (- exponent x)).

(** [int(x)]: truncation towards zero. *)
Definition binary64_to_int (x : binary64) : Z :=
  if 0 <=? exponent x then mantissa x * 2 ^ exponent x
  else Z.quot (mantissa x) (2 ^ (- exponent x)).

(** [t.timestamp()] of an aware [datetime]:
    [(t - epoch).total_seconds()], the microseconds divided by [10**6]. *)
Definition datetime_timestamp (t : datetime) : binary64 :=
  binary64_of_ratio (dt_instant t) 1000000.

(** [int(t.timestamp() * 1000)]. *)
Definition timestamp_millis (t : datetime) : Z :=
  binary64_to_int (binary64_mul_int (datetime_timestamp t) 1000).

(** The [users_filter] variable: empty unless the denylist is non-empty.
    Each entry is put between single quotes as [user.upper()] gives it. *)
Definition users_filter_clause `{!Runtime}
    (deny_usernames : option (list string)) : string :=
  match deny_usernames with
  | Some ((_ :: _) as users) =>
      let user_not_in :=
        String.concat ","
          (map (fun user => "'" +:+ str_upper user +:+ "'") users) in
      "user_name NOT IN (" +:+ user_not_in +:+ ")"
  | _ => ""
  end.

Section QueryText.
Context `{!SnowflakeQuery}.
Variables (start_time_millis end_time_millis : Z)
          (users_filter time_bucket_size : string).

Definition fingerprinted_queries_sql : list string := [
    "fingerprinted_queries as (";
    "    SELECT *,";
    "        -- TODO: Generate better fingerprints for each query by pushing down regex logic.";
    "        query_history.query_parameterized_hash as query_fingerprint";
    "    FROM";
    "        snowflake.account_usage.query_history";
    "    WHERE";
    "        query_history.start_time >= to_timestamp_ltz(" +:+ string_of_Z start_time_millis +:+ ", 3)";
    "        AND query_history.start_time < to_timestamp_ltz(" +:+ string_of_Z end_time_millis +:+ ", 3)";
    "        AND execution_status = 'SUCCESS'";
    "        AND " +:+ py_or users_filter "TRUE";
    ")" ].

Definition deduplicated_queries_sql : list string := [
    ", deduplicated_queries as (";
    "    SELECT";
    "        *,";
    "        DATE_TRUNC(";
    "            " +:+ time_bucket_size +:+ ",";
    "            CONVERT_TIMEZONE('UTC', start_time)";
    "        ) AS bucket_start_time,";
    "        COUNT(*) OVER (PARTITION BY bucket_start_time, query_fingerprint) AS query_count,";
    "    FROM";
    "        fingerprinted_queries";
    "    QUALIFY";
    "        ROW_NUMBER() OVER (PARTITION BY bucket_start_time, query_fingerprint ORDER BY start_time DESC) = 1";
    ")" ].

Definition raw_access_history_sql : list string := [
    ", raw_access_history AS (";
    "    SELECT";
    "        query_id,";
    "        query_start_time,";
    "        user_name,";
    "        direct_objects_accessed,";
    "        objects_modified,";
    "    FROM";
    "        snowflake.account_usage.access_history";
    "    WHERE";
    "        query_start_time >= to_timestamp_ltz(" +:+ string_of_Z start_time_millis +:+ ", 3)";
    "        AND query_start_time < to_timestamp_ltz(" +:+ string_of_Z end_time_millis +:+ ", 3)";
    "        AND " +:+ py_or users_filter "TRUE";
    "        AND query_id IN (";
    "            SELECT query_id FROM deduplicated_queries";
    "        )";
    ")" ].

Definition filtered_access_history_sql : list string := [
    ", filtered_access_history AS (";
    "    -- TODO: Add table filter clause.";
    "    SELECT";
    "        query_id,";
    "        query_start_time,";
    "        ARRAY_SLICE(";
    "            FILTER(direct_objects_accessed, o -> o:objectDomain IN " +:+ ACCESS_HISTORY_TABLE_VIEW_DOMAINS_FILTER +:+ "),";
    "            0, " +:+ string_of_Z _MAX_TABLES_PER_QUERY;
    "        ) as direct_objects_accessed,";
    "        -- TODO: Drop the columns.baseSources subfield.";
    "        FILTER(objects_modified, o -> o:objectDomain IN " +:+ ACCESS_HISTORY_TABLE_VIEW_DOMAINS_FILTER +:+ ") as objects_modified,";
    "    FROM raw_access_history";
    "    WHERE ( array_size(direct_objects_accessed) > 0 or array_size(objects_modified) > 0 )";
    ")" ].

Definition query_access_history_sql : list string := [
    ", query_access_history AS (";
    "    SELECT";
    "        q.bucket_start_time,";
    "        q.query_id,";
    "        q.query_fingerprint,";
    "        q.query_count,";
    "        q.session_id AS " +:+ dquote +:+ "SESSION_ID" +:+ dquote +:+ ",";
    "        q.start_time AS " +:+ dquote +:+ "QUERY_START_TIME" +:+ dquote +:+ ",";
    "        q.total_elapsed_time AS " +:+ dquote +:+ "QUERY_DURATION" +:+ dquote +:+ ",";
    "        q.query_text AS " +:+ dquote +:+ "QUERY_TEXT" +:+ dquote +:+ ",";
    "        q.query_type AS " +:+ dquote +:+ "QUERY_TYPE" +:+ dquote +:+ ",";
    "        q.database_name as " +:+ dquote +:+ "DEFAULT_DB" +:+ dquote +:+ ",";
    "        q.schema_name as " +:+ dquote +:+ "DEFAULT_SCHEMA" +:+ dquote +:+ ",";
    "        q.rows_inserted AS " +:+ dquote +:+ "ROWS_INSERTED" +:+ dquote +:+ ",";
    "        q.rows_updated AS " +:+ dquote +:+ "ROWS_UPDATED" +:+ dquote +:+ ",";
    "        q.rows_deleted AS " +:+ dquote +:+ "ROWS_DELETED" +:+ dquote +:+ ",";
    "        q.user_name AS " +:+ dquote +:+ "USER_NAME" +:+ dquote +:+ ",";
    "        q.role_name AS " +:+ dquote +:+ "ROLE_NAME" +:+ dquote +:+ ",";
    "        a.direct_objects_accessed,";
    "        a.objects_modified,";
    "    FROM deduplicated_queries q";
    "    JOIN filtered_access_history a USING (query_id)";
    ")" ].

(** The lines of the returned f-string, in order. *)
Definition audit_query_lines : list string :=
  ["WITH"] ++ fingerprinted_queries_sql ++ deduplicated_queries_sql
  ++ raw_access_history_sql ++ filtered_access_history_sql
  ++ query_access_history_sql ++ ["SELECT * FROM query_access_history"].

End QueryText.

Definition _build_enriched_audit_log_query `{!SnowflakeQuery, !Runtime}
    (start_time end_time : datetime) (bucket_duration : BucketDuration.t)
    (deny_usernames : option (list string)) : result string :=
  let start_time_millis := timestamp_millis start_time in
  let end_time_millis := timestamp_millis end_time in
  let users_filter := users_filter_clause deny_usernames in
  let time_bucket_size := BucketDuration.value bucket_duration in
  if bool_decide (time_bucket_size ∈ ["HOUR"; "DAY"; "MONTH"]) then
    Return (unlines (audit_query_lines start_time_millis end_time_millis
                       users_filter time_bucket_size))
  else Raise AssertionError.

(** ** The enriched audit query: what the SQL computes

    Each common table expression of the text above as a function on tables.
    Timestamps are epoch milliseconds; the columns the query tests are taken
    to be non-NULL; array elements are JSON objects. *)

(** [DATE_TRUNC(part, CONVERT_TIMEZONE('UTC', ts))], a warehouse builtin. *)
Class Warehouse := {
  date_trunc_utc : BucketDuration.t -> Z -> Z }.

Module AuditQuery.

(** [snowflake.account_usage.query_history]. *)
Record query_history_row := mk_query_history_row {
  qh_query_id : string;
  qh_start_time : Z;
  qh_execution_status : string;
  qh_user_name : string;
  qh_query_parameterized_hash : string;
  qh_session_id : Z;
  qh_total_elapsed_time : Z;
  qh_query_text : string;
  qh_query_type : string;
  qh_database_name : option string;
  qh_schema_name : option string;
  qh_rows_inserted : option Z;
  qh_rows_updated : option Z;
  qh_rows_deleted : option Z;
  qh_role_name : string }.

(** [snowflake.account_usage.access_history]. *)
Record access_history_row := mk_access_history_row {
  ah_query_id : string;
  ah_query_start_time : Z;
  ah_user_name : string;
  ah_direct_objects_accessed : list pyval;
  ah_objects_modified : list pyval }.

(** A [query_history] row with its [query_fingerprint]. *)
Record fingerprinted_row := mk_fingerprinted_row {
  fq_source : query_history_row;
  fq_query_fingerprint : string }.

(** The columns [deduplicated_queries] adds: [bucket_start_time] and the
    partition-wide [query_count]. *)
Record deduplicated_row := mk_deduplicated_row {
  dq_query : fingerprinted_row;
  dq_bucket_start_time : Z;
  dq_query_count : nat }.

Record filtered_access_row := mk_filtered_access_row {
  fa_query_id : string;
  fa_query_start_time : Z;
  fa_direct_objects_accessed : list pyval;
  fa_objects_modified : list pyval }.

(** A row of the final [SELECT * FROM query_access_history]. *)
Record output_row := mk_output_row {
  BUCKET_START_TIME : Z;
  QUERY_ID : string;
  QUERY_FINGERPRINT : string;
  QUERY_COUNT : nat;
  SESSION_ID : Z;
  QUERY_START_TIME : Z;
  QUERY_DURATION : Z;
  QUERY_TEXT : string;
  QUERY_TYPE : string;
  DEFAULT_DB : option string;
  DEFAULT_SCHEMA : option string;
  ROWS_INSERTED : option Z;
  ROWS_UPDATED : option Z;
  ROWS_DELETED : option Z;
  USER_NAME : string;
  ROLE_NAME : string;
  DIRECT_OBJECTS_ACCESSED : list pyval;
  OBJECTS_MODIFIED : list pyval }.

(** A text that, put between single quotes, is the string constant
    denoting it: it holds no single quote and no backslash. *)
Fixpoint plain_literal (s : string) : bool :=
  match s with
  | EmptyString => true
  | String c rest =>
      negb (Ascii.eqb c "'") && negb (Ascii.eqb c (ascii_of_nat 92))
      && plain_literal rest
  end.

(** The denylists whose clause is a list of string constants: the entries
    are spliced as they are, so the reading [users_filter] below is the
    meaning of the text for these denylists, and for these only. *)
Definition plain_denylist `{!Runtime} (deny_usernames : option (list string))
    : bool :=
  match deny_usernames with
  | Some users => forallb (fun user => plain_literal (str_upper user)) users
  | None => true
  end.

Section Semantics.
Context `{!SnowflakeQuery, !Warehouse, !Runtime}.
Variables (start_time_millis end_time_millis : Z)
          (bucket_duration : BucketDuration.t)
          (deny_usernames : option (list string)).

(** [{users_filter or 'TRUE'}]: [user_name NOT IN ('A','B',...)] compares
    the column with the upper-cased entries as they are. *)
Definition users_filter (user_name : string) : bool :=
  match deny_usernames with
  | Some ((_ :: _) as users) =>
      negb (bool_decide (user_name ∈ map str_upper users))
  | _ => true
  end.

Definition in_window (t : Z) : bool :=
  (start_time_millis <=? t) && (t <? end_time_millis).

Definition fingerprinted_queries (query_history : list query_history_row)
    : list fingerprinted_row :=
  map (fun r => mk_fingerprinted_row r (qh_query_parameterized_hash r))
    (List.filter
       (fun r => in_window (qh_start_time r)
                 && String.eqb (qh_execution_status r) "SUCCESS"
                 && users_filter (qh_user_name r))
       query_history).

Definition fq_start_time (r : fingerprinted_row) : Z := qh_start_time (fq_source r).

Definition bucket_of (r : fingerprinted_row) : Z :=
  date_trunc_utc bucket_duration (fq_start_time r).

(** [PARTITION BY bucket_start_time, query_fingerprint]. *)
Definition partition_key (r : fingerprinted_row) : Z * string :=
  (bucket_of r, fq_query_fingerprint r).

Definition in_partition (k : Z * string) (r : fingerprinted_row) : bool :=
  bool_decide (partition_key r = k).

(** One pass over the rows; [before] holds the rows already scanned. A row
    is numbered within its partition by descending [start_time]; among equal
    start times the warehouse may pick any order, the model takes scan
    order. [QUALIFY ... = 1] keeps the row numbered one. *)
Fixpoint deduplicate (before after : list fingerprinted_row)
    : list deduplicated_row :=
  match after with
  | [] => []
  | r :: rest =>
      let earlier := List.filter (in_partition (partition_key r)) before in
      let later := List.filter (in_partition (partition_key r)) rest in
      let ahead_earlier :=
        List.filter (fun r' => fq_start_time r <=? fq_start_time r') earlier in
      let ahead_later :=
        List.filter (fun r' => fq_start_time r <? fq_start_time r') later in
      let row_number := (1 + length ahead_earlier + length ahead_later)%nat in
      let query_count := (length earlier + 1 + length later)%nat in
      (if Nat.eqb row_number 1
       then [mk_deduplicated_row r (bucket_of r) query_count] else [])
      ++ deduplicate (before ++ [r]) rest
  end.

Definition deduplicated_queries (fingerprinted : list fingerprinted_row)
    : list deduplicated_row :=
  deduplicate [] fingerprinted.

Definition dq_query_id (q : deduplicated_row) : string :=
  qh_query_id (fq_source (dq_query q)).

Definition raw_access_history (access_history : list access_history_row)
    (deduplicated : list deduplicated_row) : list access_history_row :=
  List.filter
    (fun a => in_window (ah_query_start_time a)
              && users_filter (ah_user_name a)
              && bool_decide (ah_query_id a ∈ map dq_query_id deduplicated))
    access_history.

(** [ARRAY_SLICE(a, 0, n)]: the elements at positions [0 .. n-1]. *)
Definition array_slice_from_0 (a : list pyval) (n : Z) : list pyval :=
  firstn (Z.to_nat n) a.

(** The [SELECT] list of [filtered_access_history]. *)
Definition filtered_select (a : access_history_row) : filtered_access_row :=
  mk_filtered_access_row (ah_query_id a) (ah_query_start_time a)
    (array_slice_from_0
       (List.filter table_view_domain (ah_direct_objects_accessed a))
       _MAX_TABLES_PER_QUERY)
    (List.filter table_view_domain (ah_objects_modified a)).

(** Its [WHERE] clause. It is evaluated on the rows of
    [raw_access_history]: there [direct_objects_accessed] and
    [objects_modified] name the columns of that table, which take precedence
    over the aliases of the same name introduced in the [SELECT] list. *)
Definition filtered_where (a : access_history_row) : bool :=
  Nat.ltb 0 (length (ah_direct_objects_accessed a))
  || Nat.ltb 0 (length (ah_objects_modified a)).

Definition filtered_access_history (raw : list access_history_row)
    : list filtered_access_row :=
  map filtered_select (List.filter filtered_where raw).

Definition join_row (q : deduplicated_row) (a : filtered_access_row) : output_row :=
  let h := fq_source (dq_query q) in
  {| BUCKET_START_TIME := dq_bucket_start_time q;
     QUERY_ID := qh_query_id h;
     QUERY_FINGERPRINT := fq_query_fingerprint (dq_query q);
     QUERY_COUNT := dq_query_count q;
     SESSION_ID := qh_session_id h;
     QUERY_START_TIME := qh_start_time h;
     QUERY_DURATION := qh_total_elapsed_time h;
     QUERY_TEXT := qh_query_text h;
     QUERY_TYPE := qh_query_type h;
     DEFAULT_DB := qh_database_name h;
     DEFAULT_SCHEMA := qh_schema_name h;
     ROWS_INSERTED := qh_rows_inserted h;
     ROWS_UPDATED := qh_rows_updated h;
     ROWS_DELETED := qh_rows_deleted h;
     USER_NAME := qh_user_name h;
     ROLE_NAME := qh_role_name h;
     DIRECT_OBJECTS_ACCESSED := fa_direct_objects_accessed a;
     OBJECTS_MODIFIED := fa_objects_modified a |}.

(** [FROM deduplicated_queries q JOIN filtered_access_history a USING (query_id)]. *)
Definition query_access_history (deduplicated : list deduplicated_row)
    (filtered : list filtered_access_row) : list output_row :=
  flat_map
    (fun q =>
       map (join_row q)
         (List.filter (fun a => String.eqb (fa_query_id a) (dq_query_id q)) filtered))
    deduplicated.

(** The whole statement. *)
Definition enriched_audit_log (query_history : list query_history_row)
    (access_history : list access_history_row) : list output_row :=
  let deduplicated := deduplicated_queries (fingerprinted_queries query_history) in
  let raw := raw_access_history access_history deduplicated in
  query_access_history deduplicated (filtered_access_history raw).

End Semantics.

(** Executing the text built for a window and a denylist. *)
Definition run_enriched_audit_log_query `{!SnowflakeQuery, !Warehouse, !Runtime}
    (start_time end_time : datetime) (bucket_duration : BucketDuration.t)
    (deny_usernames : option (list string))
    (query_history : list query_history_row)
    (access_history : list access_history_row) : list output_row :=
  enriched_audit_log (timestamp_millis start_time) (timestamp_millis end_time)
    bucket_duration deny_usernames query_history access_history.

End AuditQuery.

(** ** The extraction driver *)

Record BaseTimeWindowConfig := mk_window {
  window_start_time : datetime;
  window_end_time : datetime;
  window_bucket_duration : BucketDuration.t }.

Record SnowflakeQueriesExtractorConfig := mk_config {
  window : BaseTimeWindowConfig;
  deny_usernames : list string;
  config_local_temp_path : option string }.

(** [self.connection.query(sql)]: the rows the cursor hands over. *)
Class SnowflakeConnection := {
  connection_query : string -> list Row }.

Section Driver.
Context `{!SnowflakeIdentifierMixin, !SnowflakeQuery, !Runtime, !SnowflakeConnection}.

Definition parse_error_message : string := "Error parsing audit log row".

(** The [for i, row in enumerate(resp)] loop of [fetch_audit_log], run to
    the end: the entries yielded, in order, and the report afterwards. *)
Fixpoint fetch_rows (resp : list Row) (rep : SourceReport)
    : SourceReport * list PreparsedQuery :=
  match resp with
  | [] => (rep, [])
  | row :: rest =>
      match _parse_audit_log_row row rep with
      | (rep', Raise e) =>
          fetch_rows rest (report_warning parse_error_message row (Some e) rep')
      | (rep', Return entry) =>
          let '(rep'', entries) := fetch_rows rest rep' in
          (rep'', entry :: entries)
      end
  end.

Definition fetch_audit_log (config : SnowflakeQueriesExtractorConfig)
    : M (list PreparsedQuery) :=
  audit_log_query <~ lift (_build_enriched_audit_log_query
                             (window_start_time (window config))
                             (window_end_time (window config))
                             (window_bucket_duration (window config))
                             (Some (deny_usernames config))) ;;
  let resp := connection_query audit_log_query in
  fun rep => let '(rep', entries) := fetch_rows resp rep in (rep', Return entries).

End Driver.

(** ** Well-formed rows (spec section 3, Raw Audit Row)

    Executable checks that a decoded row has the shape of the data model:
    every array element is an object with the documented fields. *)

Definition is_str (r : result pyval) : bool :=
  match r with
  | Return (PyStr _) => true
  | _ => false
  end.

Definition is_return {A} (r : result A) : bool :=
  match r with
  | Return _ => true
  | Raise _ => false
  end.

(** [{objectName, objectDomain, columnName}]. *)
Definition well_formed_source (src : pyval) : bool :=
  is_str (py_getitem src "objectDomain")
  && is_str (py_getitem src "objectName")
  && is_str (py_getitem src "columnName").

(** [{columnName, directSources: [...]}]. *)
Definition well_formed_modified_column (col : pyval) : bool :=
  is_str (py_getitem col "columnName")
  && match py_getitem col "directSources" with
     | Return (PyList sources) => forallb well_formed_source sources
     | _ => false
     end.

Definition well_formed_accessed_column (col : pyval) : bool :=
  is_str (py_getitem col "columnName").

(** [{objectName, columns: [...]}], with the columns checked by [column_ok]. *)
Definition well_formed_object (column_ok : pyval -> bool) (obj : pyval) : bool :=
  is_str (py_getitem obj "objectName")
  && match py_getitem obj "columns" with
     | Return (PyList cols) => forallb column_ok cols
     | _ => false
     end.

Definition well_formed_accessed : pyval -> bool :=
  well_formed_object well_formed_accessed_column.

Definition well_formed_modified : pyval -> bool :=
  well_formed_object well_formed_modified_column.

(** The [columns] array of an object ([[]] when there is none). *)
Definition columns_of (obj : pyval) : list pyval :=
  match py_getitem obj "columns" with
  | Return (PyList cols) => cols
  | _ => []
  end.

Section RowShape.
Context `{!SnowflakeIdentifierMixin, !SnowflakeQuery, !Runtime}.

(** [res[key]] once the first loop of the parser has run. *)
Definition row_field (row : Row) (key : string) : result pyval :=
  res <- normalize_row row ∅ ;;
  dict_getitem res key.

(** The identifier an access-history object resolves to. *)
Definition resolved_identifier (obj : pyval) : result string :=
  name <- py_getitem obj "objectName" ;;
  dataset_urn_of name.

(** What the cursor hands over for an ARRAY column: NULL, or the JSON text
    of an array. *)
Inductive array_column : pyval -> option (list pyval) -> Prop :=
| array_null : array_column PyNone None
| array_text text elems :
    text ≠ "" ->
    json_decode text = Some (PyList elems) ->
    array_column (PyStr text) (Some elems).

(** The scalar columns the parser reads are there and of the expected type. *)
Definition scalar_fields_ok (row : Row) : bool :=
  match row_field row "user_name" with
  | Return (PyStr user_name) => is_return (CorpUserUrn user_name)
  | _ => false
  end
  && match row_field row "query_start_time" with
     | Return (PyDatetime _) => true
     | _ => false
     end
  && is_str (row_field row "query_type")
  && is_return (row_field row "query_fingerprint")
  && is_return (row_field row "query_text")
  && is_return (row_field row "query_count")
  && is_return (row_field row "session_id").

(** [row] decodes to the accessed objects [accessed] and the modified
    objects [modified], all well formed. *)
Definition well_formed_row (row : Row) (accessed modified : list pyval) : Prop :=
  row_field row "direct_objects_accessed" = Return (PyList accessed)
  ∧ row_field row "objects_modified" = Return (PyList modified)
  ∧ forallb well_formed_accessed accessed = true
  ∧ forallb well_formed_modified modified = true
  ∧ scalar_fields_ok row = true.

(** Every object resolves to a non-empty identifier (dataset urns are). *)
Definition resolve_nonempty (objs : list pyval) : bool :=
  forallb (fun obj =>
             match resolved_identifier obj with
             | Return urn => negb (String.eqb urn "")
             | Raise _ => false
             end) objs.

(** How often the loop over [objects_modified] finds [downstream] already
    set, entering with [downstream]. *)
Fixpoint downstream_warnings (objs : list pyval) (downstream : option string)
    : nat :=
  match objs with
  | [] => 0
  | obj :: rest =>
      ((if truthy_opt_str downstream then 1 else 0)
       + downstream_warnings rest
           (match resolved_identifier obj with
            | Return urn => Some urn
            | Raise _ => None
            end))%nat
  end.

(** A source the comprehension keeps has a table-or-view domain. *)
Definition has_table_view_domain (src : pyval) : Prop :=
  ∃ domain,
    py_getitem src "objectDomain" = Return (PyStr domain)
    ∧ domain ∈ ACCESS_HISTORY_TABLE_VIEW_DOMAINS.

(** The lineage edge the parser builds for one modified column: the
    table-or-view sources of the column, resolved, in order. *)
Definition source_ref (src : pyval) (ref : ColumnRef) : Prop :=
  ∃ name column,
    py_getitem src "objectName" = Return (PyStr name)
    ∧ py_getitem src "columnName" = Return (PyStr column)
    ∧ ref = mk_ColumnRef
              (gen_dataset_urn (get_dataset_identifier_from_qualified_name name))
              (snowflake_identifier column).

Definition column_edge (downstream : string) (col : pyval)
    (edge : ColumnLineageInfo) : Prop :=
  ∃ column sources,
    py_getitem col "columnName" = Return (PyStr column)
    ∧ bindR (py_getitem col "directSources") py_iter = Return sources
    ∧ cli_downstream edge
      = mk_DownstreamColumnRef (Some downstream) (snowflake_identifier column)
    ∧ Forall2 source_ref (List.filter table_view_domain sources) (cli_upstreams edge).

(** What one run of the parser on [row] reports and returns, starting from
    an empty report. *)
Definition parser_warnings (row : Row) : list StructuredWarning :=
  warnings (fst (_parse_audit_log_row row empty_report)).

Definition parse_outcome (row : Row) : result PreparsedQuery :=
  snd (_parse_audit_log_row row empty_report).

(** Spec section 4.4, per row: a row that fails to parse contributes one
    warning carrying the row and the exception and no record; a row that
    parses contributes its record. *)
Definition row_warnings (row : Row) : list StructuredWarning :=
  parser_warnings row ++
  match parse_outcome row with
  | Raise e => [mk_warning parse_error_message row (Some e)]
  | Return _ => []
  end.

Definition row_entries (row : Row) : list PreparsedQuery :=
  match parse_outcome row with
  | Return entry => [entry]
  | Raise _ => []
  end.

End RowShape.
(** ** The extraction driver, continued *)

(** The aggregator and the work units it produces belong to
    [sql_parsing_aggregator] and [source_helpers]; what it is given is
    recorded as the list of records added, oldest first, and
    [auto_workunit(self.aggregator.gen_metadata())] is a function of them. *)
Class SqlParsingAggregator := {
  MetadataWorkUnit : Type;
  gen_workunits : list PreparsedQuery -> list MetadataWorkUnit }.

(** What [get_workunits_internal] reads and writes: the structured report,
    [self.report.window], the records held by [audit_log.sqlite] under the
    local temp path ([None]: the file does not exist), and the records added
    to the aggregator. Which paths are directories does not change while
    the extractor runs; it is read from the runtime. *)
Record ExtractorState := mk_state {
  st_report : SourceReport;
  st_window : option BaseTimeWindowConfig;
  st_audit_log : option (list PreparsedQuery);
  st_aggregator : list PreparsedQuery }.

Section Extractor.
Context `{!SnowflakeIdentifierMixin, !SnowflakeQuery, !Runtime,
          !SnowflakeConnection, !SqlParsingAggregator}.

Definition progress_message (i : nat) : string :=
  "Processed " +:+ string_of_Z (Z.of_nat i) +:+ " audit log rows".

(** The loop of [fetch_audit_log] once more, now with the index [i] of
    [enumerate] and the lines it sends to [logger.info]. *)
Fixpoint fetch_rows_logged (i : nat) (resp : list Row) (rep : SourceReport)
    (log : list string) : SourceReport * list string * list PreparsedQuery :=
  match resp with
  | [] => (rep, log, [])
  | row :: rest =>
      let log :=
        if Nat.eqb (i mod 1000) 0 then log ++ [progress_message i] else log in
      match _parse_audit_log_row row rep with
      | (rep', Raise e) =>
          fetch_rows_logged (S i) rest
            (report_warning parse_error_message row (Some e) rep') log
      | (rep', Return entry) =>
          let '(rep'', log', entries) := fetch_rows_logged (S i) rest rep' log in
          (rep'', log', entry :: entries)
      end
  end.

(** The [local_temp_path] property: the configured path, which has to be a
    directory, or else a new temporary directory. A [Path] is truthy
    whatever it holds. *)
Definition local_temp_path (config : SnowflakeQueriesExtractorConfig)
    : result string :=
  match config_local_temp_path config with
  | Some path => if is_dir path then Return path else Raise AssertionError
  | None => Return mkdtemp
  end.

(** [get_workunits_internal]. The window is recorded and the local temp
    path resolved. A cached audit log is replayed; otherwise the file is
    created, the audit log fetched and every entry appended to it. Either
    way the records of the file are then added to the aggregator, in order,
    and its work units are yielded. *)
Definition get_workunits_internal (config : SnowflakeQueriesExtractorConfig)
    (st : ExtractorState) : ExtractorState * result (list MetadataWorkUnit) :=
  let window := Some (window config) in
  match local_temp_path config with
  | Raise e =>
      (mk_state (st_report st) window (st_audit_log st) (st_aggregator st),
       Raise e)
  | Return _ =>
      match st_audit_log st with
      | Some queries =>
          let aggregator := st_aggregator st ++ queries in
          (mk_state (st_report st) window (Some queries) aggregator,
           Return (gen_workunits aggregator))
      | None =>
          match fetch_audit_log config (st_report st) with
          | (rep, Return queries) =>
              let aggregator := st_aggregator st ++ queries in
              (mk_state rep window (Some queries) aggregator,
               Return (gen_workunits aggregator))
          | (rep, Raise e) =>
              (mk_state rep window (Some []) (st_aggregator st), Raise e)
          end
      end
  end.

End Extractor.

(** ** Column usage *)

(** The set [columns] the first loop of the parser collects for one
    accessed object: the normalised names of its columns. *)
Definition accessed_columns `{!SnowflakeIdentifierMixin} (obj : pyval)
    (columns : gset string) : Prop :=
  ∃ cols names,
    bindR (py_getitem obj "columns") py_iter = Return cols
    ∧ Forall2 (fun col name => py_getitem col "columnName" = Return (PyStr name))
        cols names
    ∧ columns = list_to_set (map snowflake_identifier names).

(** The labels [SNOWFLAKE_QUERY_TYPE_MAPPING] sends to a type other than
    [UNKNOWN]. *)
Definition classified_labels : list string :=
  [ "INSERT"; "UPDATE"; "DELETE"; "CREATE"; "CREATE_TABLE"; "CREATE_VIEW";
    "CREATE_TABLE_AS_SELECT"; "MERGE" ].

(** ** Deduplication: the row numbered one *)

(** Of the rows of one partition, in scan order, the first of those with
    the latest start time. *)
Fixpoint first_latest (rows : list AuditQuery.fingerprinted_row)
    : option AuditQuery.fingerprinted_row :=
  match rows with
  | [] => None
  | r :: rest =>
      match first_latest rest with
      | Some w =>
          if AuditQuery.fq_start_time r <? AuditQuery.fq_start_time w
          then Some w else Some r
      | None => Some r
      end
  end.

(** [sum] of the [query_count] column. *)
Definition total_query_count (rows : list AuditQuery.deduplicated_row) : nat :=
  list_sum (map AuditQuery.dq_query_count rows).

(** ** Reference collaborators and sample data

    Concrete stand-ins for the collaborators, used to run the definitions
    above on sample rows. *)

Module Sample.

(** *** JSON text *)

Definition ascii_dquote : ascii := ascii_of_nat 34.
Definition ascii_backslash : ascii := ascii_of_nat 92.

Definition is_space (c : ascii) : bool :=
  let n := nat_of_ascii c in
  Nat.eqb n 32 || Nat.eqb n 10 || Nat.eqb n 9 || Nat.eqb n 13.

Definition is_digit (c : ascii) : bool :=
  let n := nat_of_ascii c in
  Nat.leb 48 n && Nat.leb n 57.

Fixpoint skip_space (s : string) : string :=
  match s with
  | String c rest => if is_space c then skip_space rest else s
  | EmptyString => EmptyString
  end.

(** The characters up to the closing quote, and what follows it. *)
Fixpoint read_string (s : string) : option (string * string) :=
  match s with
  | EmptyString => None
  | String c rest =>
      if Ascii.eqb c ascii_dquote then Some (EmptyString, rest)
      else if Ascii.eqb c ascii_backslash then
        match rest with
        | String e rest' =>
            if Ascii.eqb e ascii_dquote || Ascii.eqb e ascii_backslash
            then match read_string rest' with
                 | Some (str, r) => Some (String e str, r)
                 | None => None
                 end
            else None
        | EmptyString => None
        end
      else match read_string rest with
           | Some (str, r) => Some (String c str, r)
           | None => None
           end
  end.

Fixpoint read_digits (s : string) (acc : Z) : Z * string :=
  match s with
  | String c rest =>
      if is_digit c
      then read_digits rest (10 * acc + Z.of_nat (nat_of_ascii c - 48))
      else (acc, s)
  | EmptyString => (acc, s)
  end.

Fixpoint strip_prefix (p s : string) : option string :=
  match p, s with
  | EmptyString, _ => Some s
  | String a p', String b s' => if Ascii.eqb a b then strip_prefix p' s' else None
  | _, EmptyString => None
  end.

Fixpoint read_value (fuel : nat) (s : string) : option (pyval * string) :=
  match fuel with
  | O => None
  | S fuel =>
      match skip_space s with
      | EmptyString => None
      | String c rest =>
          if Ascii.eqb c ascii_dquote then
            match read_string rest with
            | Some (str, r) => Some (PyStr str, r)
            | None => None
            end
          else if Ascii.eqb c "[" then
            match strip_prefix "]" (skip_space rest) with
            | Some r => Some (PyList [], r)
            | None => read_elements fuel rest []
            end
          else if Ascii.eqb c "{" then
            match strip_prefix "}" (skip_space rest) with
            | Some r => Some (PyDict [], r)
            | None => read_members fuel rest []
            end
          else if Ascii.eqb c "-" then
            match rest with
            | String d _ =>
                if is_digit d
                then let '(n, r) := read_digits rest 0 in Some (PyInt (- n), r)
                else None
            | EmptyString => None
            end
          else if is_digit c then
            let '(n, r) := read_digits (String c rest) 0 in Some (PyInt n, r)
          else
            match strip_prefix "null" (String c rest),
                  strip_prefix "true" (String c rest),
                  strip_prefix "false" (String c rest) with
            | Some r, _, _ => Some (PyNone, r)
            | _, Some r, _ => Some (PyBool true, r)
            | _, _, Some r => Some (PyBool false, r)
            | _, _, _ => None
            end
      end
  end
with read_elements (fuel : nat) (s : string) (acc : list pyval)
    : option (pyval * string) :=
  match fuel with
  | O => None
  | S fuel =>
      match read_value fuel s with
      | Some (v, r) =>
          match skip_space r with
          | String c r' =>
              if Ascii.eqb c "," then read_elements fuel r' (acc ++ [v])
              else if Ascii.eqb c "]" then Some (PyList (acc ++ [v]), r')
              else None
          | EmptyString => None
          end
      | None => None
      end
  end
with read_members (fuel : nat) (s : string) (acc : list (string * pyval))
    : option (pyval * string) :=
  match fuel with
  | O => None
  | S fuel =>
      match strip_prefix (String ascii_dquote EmptyString) (skip_space s) with
      | Some r =>
          match read_string r with
          | Some (key, r) =>
              match strip_prefix ":" (skip_space r) with
              | Some r =>
                  match read_value fuel r with
                  | Some (v, r) =>
                      match skip_space r with
                      | String c r' =>
                          if Ascii.eqb c ","
                          then read_members fuel r' (acc ++ [(key, v)])
                          else if Ascii.eqb c "}"
                          then Some (PyDict (acc ++ [(key, v)]), r')
                          else None
                      | EmptyString => None
                      end
                  | None => None
                  end
              | None => None
              end
          | None => None
          end
      | None => None
      end
  end.

(** A decoder for the JSON the access history uses: objects, arrays,
    strings, integers and the three literals. *)
Definition decode (s : string) : option pyval :=
  match read_value (2 * String.length s + 2) s with
  | Some (v, r) =>
      match skip_space r with
      | EmptyString => Some v
      | String _ _ => None
      end
  | None => None
  end.

Fixpoint escape (s : string) : string :=
  match s with
  | EmptyString => EmptyString
  | String c rest =>
      if Ascii.eqb c ascii_dquote || Ascii.eqb c ascii_backslash
      then String ascii_backslash (String c (escape rest))
      else String c (escape rest)
  end.

Definition quoted (s : string) : string := dquote +:+ escape s +:+ dquote.

(** The JSON text of a value, as the warehouse renders an array column. *)
Fixpoint json_text (v : pyval) : string :=
  match v with
  | PyNone | PyDatetime _ => "null"
  | PyBool true => "true"
  | PyBool false => "false"
  | PyInt n => string_of_Z n
  | PyStr s => quoted s
  | PyList xs => "[" +:+ String.concat ", " (map json_text xs) +:+ "]"
  | PyDict kvs =>
      "{" +:+ String.concat ", "
                ((fix members (kvs : list (string * pyval)) : list string :=
                    match kvs with
                    | [] => []
                    | (k, x) :: rest =>
                        (quoted k +:+ ": " +:+ json_text x) :: members rest
                    end) kvs)
          +:+ "}"
  end.

(** *** Collaborators *)

Fixpoint strip_quotes (s : string) : string :=
  match s with
  | EmptyString => EmptyString
  | String c rest =>
      if Ascii.eqb c ascii_dquote then strip_quotes rest
      else String c (strip_quotes rest)
  end.

Definition identifiers : SnowflakeIdentifierMixin := {|
  snowflake_identifier := lower;
  cleanup_qualified_name := strip_quotes;
  gen_dataset_urn := fun name =>
    "urn:li:dataset:(urn:li:dataPlatform:snowflake," +:+ name +:+ ",PROD)" |}.

Definition domains : SnowflakeQuery := {|
  ACCESS_HISTORY_TABLE_VIEW_DOMAINS :=
    {[ "Table"; "External table"; "View"; "Materialized view" ]};
  ACCESS_HISTORY_TABLE_VIEW_DOMAINS_FILTER :=
    "('Table','External table','View','Materialized view')" |}.

(** The sample data is ASCII text; the only directory is [/var/datahub]. *)
Definition runtime : Runtime := {|
  json_decode := decode;
  CorpUserUrn := fun username =>
    if String.eqb username "" then Raise InvalidUrnError
    else Return ("urn:li:corpuser:" +:+ username);
  str_upper := upper;
  str_upper_ascii := fun _ _ => eq_refl;
  is_dir := fun path => String.eqb path "/var/datahub";
  mkdtemp := "/tmp/tmpk3v9q2" |}.

(** [DATE_TRUNC] on epoch milliseconds; the month needs the day of the
    month of the proleptic Gregorian calendar. *)
Definition day_millis : Z := 86400000.

Definition day_of_month (days : Z) : Z :=
  let z := days + 719468 in
  let era := z / 146097 in
  let doe := z - era * 146097 in
  let yoe := (doe - doe / 1460 + doe / 36524 - doe / 146096) / 365 in
  let doy := doe - (365 * yoe + yoe / 4 - yoe / 100) in
  let mp := (5 * doy + 2) / 153 in
  doy - (153 * mp + 2) / 5 + 1.

Definition warehouse : Warehouse := {|
  date_trunc_utc := fun part t =>
    match part with
    | BucketDuration.HOUR => t - t mod 3600000
    | BucketDuration.DAY => t - t mod day_millis
    | BucketDuration.MONTH =>
        let days := t / day_millis in
        (days - (day_of_month days - 1)) * day_millis
    end |}.

(** *** Sample access-history objects and rows *)

Definition source (name domain column : string) : pyval :=
  PyDict [("columnName", PyStr column); ("objectDomain", PyStr domain);
          ("objectName", PyStr name)].

Definition accessed_column (column : string) : pyval :=
  PyDict [("columnName", PyStr column)].

Definition modified_column (column : string) (sources : list pyval) : pyval :=
  PyDict [("columnName", PyStr column); ("directSources", PyList sources)].

Definition object (name domain : string) (columns : list pyval) : pyval :=
  PyDict [("columns", PyList columns); ("objectDomain", PyStr domain);
          ("objectName", PyStr name)].

(** A row of the enriched audit query whose two array columns hold
    [accessed] and [modified]. *)
Definition audit_row (accessed modified : pyval) : Row :=
  [ ("BUCKET_START_TIME", PyDatetime (mk_datetime 1710504000000000 0));
    ("QUERY_ID", PyStr "01b2c3d4-0000-1111-0000-000000000001");
    ("QUERY_FINGERPRINT", PyStr "f1a9");
    ("QUERY_COUNT", PyInt 1);
    ("SESSION_ID", PyInt 42);
    ("QUERY_START_TIME", PyDatetime (mk_datetime 1710504123456000 (-420)));
    ("QUERY_DURATION", PyInt 930);
    ("QUERY_TEXT", PyStr "INSERT INTO DB.SCH.T SELECT X FROM DB.SCH.S");
    ("QUERY_TYPE", PyStr "INSERT");
    ("DEFAULT_DB", PyStr "DB");
    ("DEFAULT_SCHEMA", PyStr "SCH");
    ("ROWS_INSERTED", PyInt 10);
    ("ROWS_UPDATED", PyInt 0);
    ("ROWS_DELETED", PyInt 0);
    ("USER_NAME", PyStr "ALICE");
    ("ROLE_NAME", PyStr "ETL");
    ("DIRECT_OBJECTS_ACCESSED", accessed);
    ("OBJECTS_MODIFIED", modified) ].

(** The same with the arrays as JSON text, as the cursor delivers them. *)
Definition json_row (accessed modified : list pyval) : Row :=
  audit_row (PyStr (json_text (PyList accessed)))
            (PyStr (json_text (PyList modified))).

Definition table_s : pyval :=
  object "DB.SCH.S" "Table" [accessed_column "X"].

Definition table_t : pyval :=
  object "DB.SCH.T" "Table"
    [modified_column "A" [source "DB.SCH.S" "Table" "X"]].

Definition table_u : pyval :=
  object "DB.SCH.U" "Table"
    [modified_column "B" [source "DB.SCH.S" "Table" "X"];
     modified_column "C" [source "@DB.SCH.STAGE" "Stage" "Y"]].

Definition table_v : pyval :=
  object "DB.SCH.V" "Table" [].

Definition urn_s : string :=
  "urn:li:dataset:(urn:li:dataPlatform:snowflake,db.sch.s,PROD)".

Definition urn_u : string :=
  "urn:li:dataset:(urn:li:dataPlatform:snowflake,db.sch.u,PROD)".

(** The row of the scenario in spec section 8. *)
Definition row_insert : Row := json_row [table_s] [table_t].

(** One modified table, one of whose columns is loaded from a stage. *)
Definition row_stage : Row := json_row [table_s] [table_u].

Definition row_two : Row := json_row [table_s] [table_t; table_u].

Definition row_three : Row := json_row [table_s] [table_t; table_u; table_v].

(** The same table read twice. *)
Definition row_twice : Row := json_row [table_s; table_s] [].

Definition row_empty : Row := json_row [] [].

(** [DIRECT_OBJECTS_ACCESSED] is NULL. *)
Definition row_null : Row := audit_row PyNone (PyStr "[]").

(** Not JSON at all. *)
Definition row_garbled : Row := audit_row (PyStr "[{") (PyStr "[]").

Definition edges_stage : list ColumnLineageInfo :=
  [ mk_ColumnLineageInfo (mk_DownstreamColumnRef (Some urn_u) "b")
      [mk_ColumnRef urn_s "x"];
    mk_ColumnLineageInfo (mk_DownstreamColumnRef (Some urn_u) "c") [] ].

(** What the parser returns for [row_stage]. *)
Definition entry_stage : PreparsedQuery := {|
  query_id := PyStr "f1a9";
  query_text := PyStr "INSERT INTO DB.SCH.T SELECT X FROM DB.SCH.S";
  upstreams := [urn_s];
  downstream := Some urn_u;
  column_lineage := Some edges_stage;
  column_usage := {[ urn_s := {[ "x" ]} ]};
  confidence_score := 1;
  query_count := PyInt 1;
  user := "urn:li:corpuser:ALICE";
  timestamp := mk_datetime 1710504123456000 0;
  session_id := PyInt 42;
  query_type := QueryType.INSERT |}.

(** *** Sample warehouse tables *)

(** The window 2024-03-15 00:00 UTC to 2024-03-16 00:00 UTC. *)
Definition window_start : datetime := mk_datetime 1710460800000000 0.
Definition window_end : datetime := mk_datetime 1710547200000000 0.

(** A successful query of [query_history]. *)
Definition query (id : string) (start_time : Z) (user_name hash : string)
    : AuditQuery.query_history_row :=
  AuditQuery.mk_query_history_row id start_time "SUCCESS" user_name hash
    42 930 "INSERT INTO DB.SCH.T SELECT X FROM DB.SCH.S" "INSERT"
    (Some "DB") (Some "SCH") (Some 10) (Some 0) (Some 0) "ETL".

(** Two runs of the same statement, at 12:00 and 12:15 UTC. *)
Definition query_1200 : AuditQuery.query_history_row :=
  query "q-1200" 1710504000000 "ALICE" "f1a9".

Definition query_1215 : AuditQuery.query_history_row :=
  query "q-1215" 1710504900000 "ALICE" "f1a9".

Definition access (id : string) (start_time : Z) (user_name : string)
    (accessed modified : list pyval) : AuditQuery.access_history_row :=
  AuditQuery.mk_access_history_row id start_time user_name accessed modified.

Definition stage_y : pyval := object "@DB.SCH.STAGE" "Stage" [].

(** Twenty-one tables written by one statement. *)
Definition many_tables : list pyval :=
  map (fun n => object ("DB.SCH.T" +:+ string_of_Z (Z.of_nat n)) "Table" [])
    (seq 0 21).

(** A query run by a user whose name is spelled in lower case. *)
Definition query_lower : AuditQuery.query_history_row :=
  query "q-lower" 1710504000000 "svc_etl" "77aa".

Definition query_upper : AuditQuery.query_history_row :=
  query "q-upper" 1710504000000 "SVC_ETL" "77ab".

(** *** More sample rows and a sample run *)

Definition without_column (name : string) (row : Row) : Row :=
  List.filter (fun kv => negb (String.eqb (fst kv) name)) row.

(** [row_empty] with one of the array columns removed. *)
Definition row_without_accessed : Row :=
  without_column "DIRECT_OBJECTS_ACCESSED" row_empty.

Definition row_without_modified : Row :=
  without_column "OBJECTS_MODIFIED" row_empty.

(** [row_insert] with the accessed objects under a lower-case key. *)
Definition row_lower_key : Row :=
  map (fun kv =>
         if String.eqb (fst kv) "DIRECT_OBJECTS_ACCESSED"
         then ("direct_objects_accessed", snd kv) else kv)
    row_insert.

(** A cursor that returns three rows, the second of them not JSON. *)
Definition connection : SnowflakeConnection := {|
  connection_query := fun _ => [row_insert; row_garbled; row_stage] |}.

(** Another warehouse, with nothing to return. *)
Definition silent_connection : SnowflakeConnection := {|
  connection_query := fun _ => [] |}.

(** An aggregator whose work units are the downstream datasets it saw. *)
Definition aggregator : SqlParsingAggregator := {|
  MetadataWorkUnit := option string;
  gen_workunits := map downstream |}.

Definition config : SnowflakeQueriesExtractorConfig :=
  mk_config (mk_window window_start window_end BucketDuration.DAY) ["svc_etl"]
    (Some "/var/datahub").

(** The same with a local temp path that is not a directory. *)
Definition config_without_directory : SnowflakeQueriesExtractorConfig :=
  mk_config (mk_window window_start window_end BucketDuration.DAY) ["svc_etl"]
    (Some "/var/datahub/audit.log").

(** A fresh extractor in a directory without an audit log. *)
Definition fresh_state : ExtractorState := mk_state empty_report None None [].

End Sample.


(** * Properties *)

(** ** Reasoning about the two effects *)

Lemma bindR_Return_inv {A B} (m : result A) (k : A -> result B) (b : B) :
  bindR m k = Return b -> ∃ a, m = Return a ∧ k a = Return b.
Proof. destruct m as [a|e]; simpl; [eauto | discriminate]. Qed.

Lemma bindM_Return_inv {A B} (m : M A) (k : A -> M B) rep rep' (b : B) :
  bindM m k rep = (rep', Return b) ->
  ∃ a rep1, m rep = (rep1, Return a) ∧ k a rep1 = (rep', Return b).
Proof.
  unfold bindM. destruct (m rep) as [rep1 [a|e]]; [eauto | discriminate].
Qed.

Lemma lift_Return_inv {A} (m : result A) rep rep' (a : A) :
  lift m rep = (rep', Return a) -> rep' = rep ∧ m = Return a.
Proof. unfold lift. intros [= -> ->]. auto. Qed.

Lemma bindM_lift {A B} (m : result A) (k : A -> M B) rep :
  bindM (lift m) k rep =
  match m with
  | Return a => k a rep
  | Raise e => (rep, Raise e)
  end.
Proof. unfold bindM, lift. destruct m; reflexivity. Qed.

Ltac inv_bindR H :=
  let a := fresh "v" in
  let Ha := fresh "Hv" in
  apply bindR_Return_inv in H as (a & Ha & H).

Ltac inv_result :=
  repeat match goal with
  | H : bindR _ _ = Return _ |- _ => inv_bindR H
  | H : Return _ = Return _ |- _ => injection H as ?; subst
  | H : Raise _ = Return _ |- _ => discriminate H
  | H : as_str ?v = Return _ |- _ =>
      destruct v; simpl in H; try discriminate H
  end.

Section ParserProperties.
Context {mixin : SnowflakeIdentifierMixin} {consts : SnowflakeQuery}
        {runtime : Runtime} {connection : SnowflakeConnection}.

Lemma dataset_urn_of_inv v urn :
  dataset_urn_of v = Return urn ->
  ∃ name, v = PyStr name
          ∧ urn = gen_dataset_urn (get_dataset_identifier_from_qualified_name name).
Proof. unfold dataset_urn_of. intros H. inv_result. eauto. Qed.

Lemma column_identifier_of_inv v column :
  column_identifier_of v = Return column ->
  ∃ name, v = PyStr name ∧ column = snowflake_identifier name.
Proof. unfold column_identifier_of. intros H. inv_result. eauto. Qed.

(** The first loop appends one resolved identifier per accessed object. *)
Lemma accessed_loop_upstreams objs :
  ∀ ups cu ups' cu',
    accessed_loop objs ups cu = Return (ups', cu') ->
    ∃ urns, Forall2 (fun obj urn => resolved_identifier obj = Return urn) objs urns
            ∧ ups' = ups ++ urns.
Proof.
  induction objs as [|obj rest IH]; simpl; intros ups cu ups' cu' H.
  - injection H as <- <-. exists []. split; [constructor | by rewrite app_nil_r].
  - inv_result.
    apply IH in H as (urns & Hall & ->).
    exists (v0 :: urns). split.
    + constructor; [| exact Hall]. unfold resolved_identifier. by rewrite Hv.
    + by rewrite <- app_assoc.
Qed.

(** The comprehension keeps exactly the table-or-view sources. *)
Lemma direct_sources_refs_filter sources :
  ∀ refs, direct_sources_refs sources = Return refs ->
          Forall2 source_ref (List.filter table_view_domain sources) refs.
Proof.
  induction sources as [|src rest IH]; simpl; intros refs H.
  - injection H as <-. constructor.
  - inv_bindR H. inv_bindR H.
    assert (Hkeep : table_view_domain src = v0).
    { unfold table_view_domain. rewrite Hv.
      destruct v; simpl in Hv0; try discriminate Hv0;
        by injection Hv0 as <-. }
    rewrite Hkeep. destruct v0.
    + inv_bindR H. inv_bindR H. inv_bindR H. inv_bindR H. inv_bindR H.
      injection H as <-.
      apply dataset_urn_of_inv in Hv2 as (name & -> & ->).
      apply column_identifier_of_inv in Hv4 as (column & -> & ->).
      constructor; [| by apply IH].
      exists name, column. auto.
    + by apply IH.
Qed.

Lemma modified_columns_loop_edges downstream cols :
  ∀ acc edges,
    modified_columns_loop downstream cols acc = Return edges ->
    ∃ new, Forall2 (column_edge downstream) cols new ∧ edges = acc ++ new.
Proof.
  induction cols as [|col rest IH]; simpl; intros acc edges H.
  - injection H as <-. exists []. split; [constructor | by rewrite app_nil_r].
  - inv_bindR H. inv_bindR H. inv_bindR H. inv_bindR H. inv_bindR H.
    apply column_identifier_of_inv in Hv0 as (column & -> & ->).
    apply IH in H as (new & Hall & ->).
    eexists (_ :: new). split; [| by rewrite <- app_assoc].
    constructor; [| exact Hall].
    exists column, v2. simpl. repeat split; try done.
    + by rewrite Hv1.
    + by apply direct_sources_refs_filter.
Qed.

Ltac step_lift H name :=
  rewrite bindM_lift in H;
  match type of H with
  | (match ?m with _ => _ end) = _ =>
      destruct m as [name|] eqn:?; [|discriminate H]
  end.

(** What the loop over [objects_modified] leaves in [downstream] and
    [column_lineage]: the last object wins. *)
Lemma modified_loop_last row objs :
  ∀ d0 cl0 rep rep' d cl,
    modified_loop row objs d0 cl0 rep = (rep', Return (d, cl)) ->
    match last objs with
    | None => d = d0 ∧ cl = cl0
    | Some obj =>
        ∃ urn cols edges,
          resolved_identifier obj = Return urn
          ∧ bindR (py_getitem obj "columns") py_iter = Return cols
          ∧ d = Some urn ∧ cl = Some edges
          ∧ Forall2 (column_edge urn) cols edges
    end.
Proof.
  induction objs as [|obj rest IH]; simpl; intros d0 cl0 rep rep' d cl Hrun.
  - unfold retM in Hrun. by simplify_eq.
  - apply bindM_Return_inv in Hrun as (_ & rep1 & _ & Hrun).
    step_lift Hrun name. step_lift Hrun urn. step_lift Hrun cols.
    step_lift Hrun cols'. step_lift Hrun edges.
    rename select (py_getitem obj "objectName" = _) into Hname.
    rename select (py_getitem obj "columns" = _) into Hcols.
    rename select (py_iter _ = _) into Hiter.
    rename select (modified_columns_loop _ _ _ = _) into Hedges.
    apply IH in Hrun. rewrite last_cons.
    destruct (last rest) as [obj'|]; [exact Hrun|].
    destruct Hrun as [-> ->].
    apply modified_columns_loop_edges in Hedges as (new & Hall & ->).
    exists urn, cols', new. repeat split; try done.
    + unfold resolved_identifier. by rewrite Hname.
    + by rewrite Hcols.
Qed.

(** On well-formed input the loops run to the end. *)
Lemma direct_sources_refs_total sources :
  forallb well_formed_source sources = true ->
  ∃ refs, direct_sources_refs sources = Return refs.
Proof.
  induction sources as [|src rest IH]; simpl; intros Hwf; [eauto|].
  apply andb_prop in Hwf as [Hsrc Hrest].
  destruct (IH Hrest) as [refs Hrefs].
  unfold well_formed_source, is_str in Hsrc.
  destruct (py_getitem src "objectDomain") as [[]|]; try discriminate.
  destruct (py_getitem src "objectName") as [[]|]; try discriminate.
  destruct (py_getitem src "columnName") as [[]|]; try discriminate.
  simpl. case_bool_decide; simpl; rewrite Hrefs; simpl; eauto.
Qed.

Lemma modified_columns_loop_total downstream cols :
  forallb well_formed_modified_column cols = true ->
  ∀ acc, ∃ edges, modified_columns_loop downstream cols acc = Return edges.
Proof.
  induction cols as [|col rest IH]; simpl; intros Hwf acc; [eauto|].
  apply andb_prop in Hwf as [Hcol Hrest].
  unfold well_formed_modified_column, is_str in Hcol.
  destruct (py_getitem col "columnName") as [[]|]; try discriminate.
  destruct (py_getitem col "directSources") as [[]|]; try discriminate.
  simpl in Hcol. apply direct_sources_refs_total in Hcol as [refs Hrefs].
  simpl. rewrite Hrefs. simpl. by apply IH.
Qed.

Lemma accessed_columns_loop_total cols :
  forallb well_formed_accessed_column cols = true ->
  ∀ acc, ∃ columns, accessed_columns_loop cols acc = Return columns.
Proof.
  induction cols as [|col rest IH]; simpl; intros Hwf acc; [eauto|].
  apply andb_prop in Hwf as [Hcol Hrest].
  unfold well_formed_accessed_column, is_str in Hcol.
  destruct (py_getitem col "columnName") as [[]|]; try discriminate.
  simpl. by apply IH.
Qed.

Lemma accessed_loop_total objs :
  forallb well_formed_accessed objs = true ->
  ∀ ups cu, ∃ ups' cu', accessed_loop objs ups cu = Return (ups', cu').
Proof.
  induction objs as [|obj rest IH]; simpl; intros Hwf ups cu; [eauto|].
  apply andb_prop in Hwf as [Hobj Hrest].
  unfold well_formed_accessed, well_formed_object, is_str in Hobj.
  destruct (py_getitem obj "objectName") as [[]|]; try discriminate.
  destruct (py_getitem obj "columns") as [[]|]; try discriminate.
  simpl in Hobj.
  destruct (accessed_columns_loop_total _ Hobj ∅) as [columns Hcolumns].
  simpl. rewrite Hcolumns. simpl. by apply IH.
Qed.

Lemma well_formed_modified_resolves obj :
  well_formed_modified obj = true ->
  ∃ name cols,
    py_getitem obj "objectName" = Return (PyStr name)
    ∧ py_getitem obj "columns" = Return (PyList cols)
    ∧ columns_of obj = cols
    ∧ forallb well_formed_modified_column cols = true
    ∧ resolved_identifier obj
      = Return (gen_dataset_urn (get_dataset_identifier_from_qualified_name name)).
Proof.
  unfold well_formed_modified, well_formed_object, is_str, resolved_identifier,
    columns_of.
  destruct (py_getitem obj "objectName") as [[]|]; try discriminate.
  destruct (py_getitem obj "columns") as [[]|]; try discriminate.
  simpl. intros Hcols. eauto 10.
Qed.

Lemma modified_loop_total row objs :
  forallb well_formed_modified objs = true ->
  ∀ d0 cl0 rep,
    ∃ d cl,
      modified_loop row objs d0 cl0 rep
      = (add_warnings rep
           (repeat (mk_warning multiple_downstream_message row None)
              (downstream_warnings objs d0)),
         Return (d, cl)).
Proof.
  induction objs as [|obj rest IH]; simpl; intros Hwf d0 cl0 rep.
  - exists d0, cl0. unfold retM, add_warnings. simpl.
    rewrite app_nil_r. by destruct rep.
  - apply andb_prop in Hwf as [Hobj Hrest].
    apply well_formed_modified_resolves in Hobj
      as (name & cols & Hname & Hcols & _ & Hwfc & Hres).
    rewrite Hres.
    destruct (modified_columns_loop_total
                (gen_dataset_urn (get_dataset_identifier_from_qualified_name name))
                cols Hwfc []) as [edges Hedges].
    destruct (IH Hrest
                (Some (gen_dataset_urn
                         (get_dataset_identifier_from_qualified_name name)))
                (Some edges)
                (if truthy_opt_str d0
                 then report_warning multiple_downstream_message row None rep
                 else rep)) as (d & cl & Hrun).
    exists d, cl.
    unfold bindM at 1.
    destruct (truthy_opt_str d0); simpl.
    all: rewrite !bindM_lift, Hname; simpl.
    all: rewrite !bindM_lift, Hcols; simpl.
    all: rewrite !bindM_lift; simpl.
    all: rewrite !bindM_lift, Hedges, Hrun.
    all: unfold add_warnings, report_warning; simpl.
    all: by rewrite <- ?app_assoc.
Qed.
Ltac run_lift Heq := rewrite bindM_lift, Heq; cbv beta iota.

Lemma forallb_last {A} (f : A -> bool) (l : list A) (x : A) :
  forallb f l = true -> last l = Some x -> f x = true.
Proof.
  intros Hall Hlast. rewrite forallb_forall in Hall. apply Hall.
  apply list_elem_of_In. by apply last_Some_elem_of.
Qed.

(** The parser on a well-formed row: it returns a record, having reported
    one warning for every modified object it met with [downstream]
    already set; [upstreams] follows the accessed objects, [downstream] and
    [column_lineage] follow the last modified object. *)
Lemma parse_well_formed row accessed modified rep :
  well_formed_row row accessed modified ->
  ∃ entry,
    _parse_audit_log_row row rep
    = (add_warnings rep
         (repeat (mk_warning multiple_downstream_message row None)
            (downstream_warnings modified None)),
       Return entry)
    ∧ Forall2 (fun obj urn => resolved_identifier obj = Return urn)
        accessed (upstreams entry)
    ∧ match last modified with
      | None => downstream entry = None ∧ column_lineage entry = None
      | Some obj =>
          ∃ urn edges,
            resolved_identifier obj = Return urn
            ∧ downstream entry = Some urn
            ∧ column_lineage entry = Some edges
            ∧ Forall2 (column_edge urn) (columns_of obj) edges
      end.
Proof.
  intros (Hdoa & Hom & Hacc & Hmod & Hsc).
  unfold scalar_fields_ok, row_field in *.
  destruct (normalize_row row ∅) as [res|] eqn:Hres; [|discriminate].
  simpl in *.
  destruct (dict_getitem res "user_name") as [[| | |user_name| | |]|] eqn:Huser;
    try discriminate.
  destruct (CorpUserUrn user_name) as [user|] eqn:Hurn; [|discriminate].
  destruct (dict_getitem res "query_start_time") as [[| | | |t| |]|] eqn:Htime;
    try discriminate.
  destruct (dict_getitem res "query_type") as [[| | |qt| | |]|] eqn:Htype;
    try discriminate.
  destruct (dict_getitem res "query_fingerprint") as [fp|] eqn:Hfp;
    [|discriminate].
  destruct (dict_getitem res "query_text") as [text|] eqn:Htext; [|discriminate].
  destruct (dict_getitem res "query_count") as [count|] eqn:Hcount;
    [|discriminate].
  destruct (dict_getitem res "session_id") as [session|] eqn:Hsession;
    [|discriminate].
  clear Hsc.
  destruct (accessed_loop_total accessed Hacc [] ∅) as (ups & cu & Hloop).
  destruct (modified_loop_total row modified Hmod None None rep)
    as (d & cl & Hrun).
  eexists. split; [|split].
  - unfold _parse_audit_log_row.
    run_lift Hres. run_lift Hdoa. run_lift Hom.
    rewrite bindM_lift. simpl py_iter. cbv beta iota.
    run_lift Hloop.
    rewrite bindM_lift. simpl py_iter. cbv beta iota.
    unfold bindM at 1. rewrite Hrun. cbv beta iota.
    run_lift Huser. rewrite bindM_lift. simpl as_str. cbv beta iota.
    run_lift Hurn. run_lift Htime. rewrite bindM_lift. cbv beta iota.
    run_lift Htype. rewrite bindM_lift. simpl query_type_get. cbv beta iota.
    run_lift Hfp. run_lift Htext. run_lift Hcount. run_lift Hsession.
    reflexivity.
  - simpl. by apply accessed_loop_upstreams in Hloop as (urns & Hall & ->).
  - simpl. apply modified_loop_last in Hrun.
    destruct (last modified) as [obj|] eqn:Hlast; [|done].
    destruct Hrun as (urn & cols & edges & Hurn' & Hcols & -> & -> & Hedges).
    exists urn, edges. repeat split; try done.
    pose proof (forallb_last _ _ _ Hmod Hlast) as Hobj.
    apply well_formed_modified_resolves in Hobj
      as (name & cols' & _ & Hcols' & <- & _ & _).
    rewrite Hcols' in Hcols. simpl in Hcols. by injection Hcols as <-.
Qed.

(** ** The report only grows, and the parser does not read it *)

Lemma add_warnings_nil rep : add_warnings rep [] = rep.
Proof. destruct rep. unfold add_warnings. simpl. by rewrite app_nil_r. Qed.

Lemma add_warnings_app rep ws ws' :
  add_warnings (add_warnings rep ws) ws' = add_warnings rep (ws ++ ws').
Proof. unfold add_warnings. simpl. by rewrite app_assoc. Qed.

Lemma appends_lift {A} (m : result A) : appends (lift m).
Proof. intros rep. unfold lift. simpl. by rewrite add_warnings_nil. Qed.

Lemma appends_retM {A} (a : A) : appends (retM a).
Proof. intros rep. unfold retM. simpl. by rewrite add_warnings_nil. Qed.

Lemma appends_warn message context exc : appends (warn message context exc).
Proof. intros rep. reflexivity. Qed.

Lemma appends_bindM {A B} (m : M A) (k : A -> M B) :
  appends m -> (∀ a, appends (k a)) -> appends (bindM m k).
Proof.
  intros Hm Hk rep. unfold bindM.
  rewrite (Hm rep).
  destruct (m empty_report) as [rep1 [a|e]] eqn:Hrun; simpl; [|done].
  rewrite (Hk a (add_warnings rep _)), (Hk a rep1).
  simpl. by rewrite add_warnings_app.
Qed.

Lemma appends_modified_loop row objs :
  ∀ d0 cl0, appends (modified_loop row objs d0 cl0).
Proof.
  induction objs as [|obj rest IH]; simpl; intros d0 cl0.
  - apply appends_retM.
  - apply appends_bindM.
    { destruct (truthy_opt_str d0); [apply appends_warn | apply appends_retM]. }
    intros _. repeat (apply appends_bindM; [apply appends_lift | intros ?]).
    apply IH.
Qed.

Lemma appends_parse row : appends (_parse_audit_log_row row).
Proof.
  unfold _parse_audit_log_row.
  repeat (apply appends_bindM; [apply appends_lift | intros ?]).
  match goal with |- appends (let '(_, _) := ?p in _) => destruct p end.
  repeat (apply appends_bindM; [apply appends_lift | intros ?]).
  apply appends_bindM; [apply appends_modified_loop | intros [? ?]].
  repeat (apply appends_bindM; [apply appends_lift | intros ?]).
  apply appends_retM.
Qed.

Lemma parse_frame row rep :
  _parse_audit_log_row row rep
  = (add_warnings rep (parser_warnings row), parse_outcome row).
Proof. apply appends_parse. Qed.

Lemma fetch_rows_flat_map resp :
  ∀ rep, fetch_rows resp rep
         = (add_warnings rep (flat_map row_warnings resp),
            flat_map row_entries resp).
Proof.
  induction resp as [|row rest IH]; simpl; intros rep.
  - by rewrite add_warnings_nil.
  - rewrite parse_frame. unfold row_warnings, row_entries.
    destruct (parse_outcome row) as [entry|e]; rewrite IH; simpl.
    + by rewrite app_nil_r, add_warnings_app.
    + f_equal. unfold report_warning, add_warnings. simpl.
      by rewrite <- !app_assoc.
Qed.

(** ** The first loop: columns are found under their lower-cased name *)

Lemma normalize_row_preserves row :
  ∀ res0 res key,
    key ∉ map (fun kv => lower (fst kv)) row ->
    normalize_row row res0 = Return res ->
    res !! key = res0 !! key.
Proof.
  induction row as [|[k v] rest IH]; simpl; intros res0 res key Hnotin Hrun.
  - by injection Hrun as <-.
  - apply not_elem_of_cons in Hnotin as [Hne Hnotin].
    inv_bindR Hrun. rewrite (IH _ _ _ Hnotin Hrun).
    by rewrite lookup_insert_ne.
Qed.

Lemma normalize_row_lookup row :
  ∀ res0 res key value,
    NoDup (map (fun kv => lower (fst kv)) row) ->
    (key, value) ∈ row ->
    normalize_row row res0 = Return res ->
    ∃ decoded,
      (if (bool_decide (key ∈ json_fields) && truthy value)%bool
       then json_loads value else Return value) = Return decoded
      ∧ res !! lower key = Some decoded.
Proof.
  induction row as [|[k v] rest IH]; simpl; intros res0 res key value Hnd Hin Hrun.
  - by apply elem_of_nil in Hin.
  - apply NoDup_cons in Hnd as [Hfresh Hnd].
    inv_bindR Hrun.
    apply elem_of_cons in Hin as [[= -> ->]|Hin].
    + exists v0. split; [done|].
      rewrite (normalize_row_preserves _ _ _ _ Hfresh Hrun).
      by rewrite lookup_insert_eq.
    + by eapply IH.
Qed.

(** ** What a successful run of the parser went through *)

Lemma parse_Return_inv row rep rep' entry :
  _parse_audit_log_row row rep = (rep', Return entry) ->
  ∃ accessed modified,
    bindR (row_field row "direct_objects_accessed") py_iter = Return accessed
    ∧ bindR (row_field row "objects_modified") py_iter = Return modified
    ∧ accessed_loop accessed [] ∅
      = Return (upstreams entry, column_usage entry)
    ∧ modified_loop row modified None None rep
      = (rep', Return (downstream entry, column_lineage entry)).
Proof.
  unfold _parse_audit_log_row, row_field. intros Hrun.
  step_lift Hrun res. step_lift Hrun doa. step_lift Hrun om.
  step_lift Hrun accessed. step_lift Hrun read. destruct read as [ups cu].
  step_lift Hrun modified.
  apply bindM_Return_inv in Hrun as ([d cl] & rep1 & Hloop & Hrun).
  do 11 (let x := fresh "x" in step_lift Hrun x).
  unfold retM in Hrun. injection Hrun as -> <-. simpl.
  exists accessed, modified.
  repeat match goal with H : _ = Return _ |- _ => rewrite H; clear H end.
  done.
Qed.

(** ** Warnings for several modified objects *)

Lemma downstream_warnings_nonempty objs :
  resolve_nonempty objs = true ->
  ∀ d0, downstream_warnings objs d0
        = (length objs - (if truthy_opt_str d0 then 0 else 1))%nat.
Proof.
  induction objs as [|obj rest IH]; simpl; intros Hne d0; [done|].
  apply andb_prop in Hne as [Hobj Hrest].
  destruct (resolved_identifier obj) as [urn|]; [|discriminate].
  rewrite (IH Hrest). simpl. rewrite Hobj.
  destruct (truthy_opt_str d0); lia.
Qed.

(** C1 (amended): on a well-formed row with n > 1 modified objects, all
    resolving to non-empty identifiers, the parser reports n - 1 warnings
    (one when n = 2), returns a record whose [downstream] is the resolved
    identifier of the LAST modified object and whose [column_lineage] has
    one edge per column of that last object; the driver yields the record,
    the row is not dropped. *)
Theorem parse_multiple_modified_objects row rep accessed modified obj :
  well_formed_row row accessed modified ->
  resolve_nonempty modified = true ->
  (1 < length modified)%nat ->
  last modified = Some obj ->
  ∃ entry urn edges,
    let rep' :=
      add_warnings rep
        (repeat (mk_warning multiple_downstream_message row None)
           (length modified - 1)) in
    _parse_audit_log_row row rep = (rep', Return entry)
    ∧ fetch_rows [row] rep = (rep', [entry])
    ∧ resolved_identifier obj = Return urn
    ∧ downstream entry = Some urn
    ∧ column_lineage entry = Some edges
    ∧ Forall2 (column_edge urn) (columns_of obj) edges.
Proof.
  intros Hwf Hne Hlen Hlast.
  destruct (parse_well_formed row accessed modified rep Hwf)
    as (entry & Hrun & _ & Hmod).
  rewrite Hlast in Hmod. destruct Hmod as (urn & edges & Hurn & Hd & Hcl & Hedges).
  rewrite (downstream_warnings_nonempty _ Hne None) in Hrun. simpl in Hrun.
  exists entry, urn, edges. simpl. rewrite Hrun. done.
Qed.

(** C6: on a well-formed row with exactly one modified object the parser
    returns a record and reports nothing, the driver yields exactly that
    record, [downstream] is the object's resolved identifier and
    [column_lineage] has as many edges as the object has columns. No bound
    on the number of accessed objects is needed. *)
Theorem parse_single_modified_object row rep accessed obj :
  well_formed_row row accessed [obj] ->
  ∃ entry urn edges,
    _parse_audit_log_row row rep = (rep, Return entry)
    ∧ fetch_rows [row] rep = (rep, [entry])
    ∧ resolved_identifier obj = Return urn
    ∧ downstream entry = Some urn
    ∧ column_lineage entry = Some edges
    ∧ length edges = length (columns_of obj).
Proof.
  intros Hwf.
  destruct (parse_well_formed row accessed [obj] rep Hwf)
    as (entry & Hrun & _ & Hmod).
  simpl in Hmod, Hrun. rewrite add_warnings_nil in Hrun.
  destruct Hmod as (urn & edges & Hurn & Hd & Hcl & Hedges).
  exists entry, urn, edges. simpl. rewrite Hrun.
  repeat split; try done. symmetry. by eapply Forall2_length.
Qed.

Lemma table_view_domain_true src :
  table_view_domain src = true -> has_table_view_domain src.
Proof.
  unfold table_view_domain, has_table_view_domain.
  destruct (py_getitem src "objectDomain") as [[]|]; try discriminate.
  intros Hin. apply bool_decide_eq_true in Hin. eauto.
Qed.

Lemma filter_idempotent {A} (f : A -> bool) (l : list A) :
  List.filter f (List.filter f l) = List.filter f l.
Proof.
  induction l as [|x l IH]; simpl; [done|].
  destruct (f x) eqn:Hfx; simpl; [|done]. by rewrite Hfx, IH.
Qed.

(** C7: in every record the parser produces, each edge of [column_lineage]
    comes from a column of the (last) modified object, and its [upstreams]
    are the resolved sources of that column's [directSources] that pass the
    table-or-view filter, in order: every kept source has its [objectDomain]
    in [ACCESS_HISTORY_TABLE_VIEW_DOMAINS], and filtering the kept sources
    again changes nothing. *)
Theorem column_lineage_upstreams_table_view row rep rep' entry edges :
  _parse_audit_log_row row rep = (rep', Return entry) ->
  column_lineage entry = Some edges ->
  ∃ modified obj cols,
    bindR (row_field row "objects_modified") py_iter = Return modified
    ∧ last modified = Some obj
    ∧ bindR (py_getitem obj "columns") py_iter = Return cols
    ∧ Forall2
        (fun col edge =>
           ∃ sources,
             bindR (py_getitem col "directSources") py_iter = Return sources
             ∧ let kept := List.filter table_view_domain sources in
               Forall has_table_view_domain kept
               ∧ Forall2 source_ref kept (cli_upstreams edge)
               ∧ List.filter table_view_domain kept = kept)
        cols edges.
Proof.
  intros Hrun Hcl.
  apply parse_Return_inv in Hrun as (accessed & modified & _ & Hom & _ & Hloop).
  apply modified_loop_last in Hloop.
  destruct (last modified) as [obj|] eqn:Hlast.
  - destruct Hloop as (urn & cols & edges' & _ & Hcols & _ & Hcl' & Hedges).
    rewrite Hcl in Hcl'. injection Hcl' as <-.
    exists modified, obj, cols. repeat split; try done.
    eapply Forall2_impl; [exact Hedges|].
    intros col edge (column & sources & _ & Hsources & _ & Hrefs).
    exists sources. simpl. repeat split; try done.
    + apply Forall_forall. intros src Hin.
      apply table_view_domain_true.
      apply list_elem_of_In, filter_In in Hin. tauto.
    + apply filter_idempotent.
  - destruct Hloop as [_ Hnone]. congruence.
Qed.

(** C8 (amended): in every record the parser produces, [upstreams] lists
    the resolved identifiers of the accessed objects in their order of
    appearance in [direct_objects_accessed], one per entry; an object that
    appears twice is listed twice. *)
Theorem upstreams_follow_accessed_objects row rep rep' entry :
  _parse_audit_log_row row rep = (rep', Return entry) ->
  ∃ accessed,
    bindR (row_field row "direct_objects_accessed") py_iter = Return accessed
    ∧ Forall2 (fun obj urn => resolved_identifier obj = Return urn)
        accessed (upstreams entry)
    ∧ length (upstreams entry) = length accessed.
Proof.
  intros Hrun.
  apply parse_Return_inv in Hrun as (accessed & modified & Hdoa & _ & Hloop & _).
  apply accessed_loop_upstreams in Hloop as (urns & Hall & ->).
  exists accessed. simpl. repeat split; try done.
  symmetry. by eapply Forall2_length.
Qed.
(** ** The parser's own warnings carry no exception *)

Lemma bindM_warnings {A B} (m : M A) (k : A -> M B) :
  (∀ a, appends (k a)) ->
  warnings (fst (bindM m k empty_report))
  = warnings (fst (m empty_report))
    ++ match snd (m empty_report) with
       | Return a => warnings (fst (k a empty_report))
       | Raise _ => []
       end.
Proof.
  intros Hk. unfold bindM.
  destruct (m empty_report) as [rep1 [a|e]]; simpl.
  - by rewrite (Hk a rep1).
  - by rewrite app_nil_r.
Qed.

Lemma quiet_lift {A} (m : result A) : quiet (lift m).
Proof. split; [apply appends_lift | constructor]. Qed.

Lemma quiet_retM {A} (a : A) : quiet (retM a).
Proof. split; [apply appends_retM | constructor]. Qed.

Lemma quiet_warn message context : quiet (warn message context None).
Proof. split; [apply appends_warn | repeat constructor]. Qed.

Lemma quiet_bindM {A B} (m : M A) (k : A -> M B) :
  quiet m -> (∀ a, quiet (k a)) -> quiet (bindM m k).
Proof.
  intros [Hm Hfree] Hk. split.
  - apply appends_bindM; [done | intros a; apply Hk].
  - rewrite bindM_warnings by (intros a; apply Hk).
    apply Forall_app. split; [done|].
    destruct (snd (m empty_report)) as [a|]; [apply Hk | constructor].
Qed.

Lemma quiet_modified_loop row objs :
  ∀ d0 cl0, quiet (modified_loop row objs d0 cl0).
Proof.
  induction objs as [|obj rest IH]; simpl; intros d0 cl0.
  - apply quiet_retM.
  - apply quiet_bindM.
    { destruct (truthy_opt_str d0); [apply quiet_warn | apply quiet_retM]. }
    intros _. repeat (apply quiet_bindM; [apply quiet_lift | intros ?]).
    apply IH.
Qed.

Lemma quiet_parse row : quiet (_parse_audit_log_row row).
Proof.
  unfold _parse_audit_log_row.
  repeat (apply quiet_bindM; [apply quiet_lift | intros ?]).
  match goal with |- quiet (let '(_, _) := ?p in _) => destruct p end.
  repeat (apply quiet_bindM; [apply quiet_lift | intros ?]).
  apply quiet_bindM; [apply quiet_modified_loop | intros [? ?]].
  repeat (apply quiet_bindM; [apply quiet_lift | intros ?]).
  apply quiet_retM.
Qed.

Lemma exception_free_parser_warnings row :
  exception_free (parser_warnings row).
Proof. apply quiet_parse. Qed.

Lemma filter_exception_free ws :
  exception_free ws ->
  List.filter (fun w => bool_decide (is_Some (w_exc w))) ws = [].
Proof.
  induction 1 as [|w ws Hw _ IH]; simpl; [done|].
  rewrite Hw. by rewrite bool_decide_eq_false_2 by (by intros [? ?]).
Qed.

(** C9: whatever rows the cursor returns, [fetch_audit_log] runs to the
    end. It yields, in order, the records of the rows that parse; a row
    whose parsing raises yields no record and adds, after whatever the
    parser itself had reported for it, exactly one warning carrying the row
    and the exception, the only warning for that row that carries an
    exception; the rows after it are processed all the same. *)
Theorem fetch_audit_log_skips_failing_rows config rep :
  ∃ audit_log_query,
    _build_enriched_audit_log_query
      (window_start_time (window config)) (window_end_time (window config))
      (window_bucket_duration (window config)) (Some (deny_usernames config))
    = Return audit_log_query
    ∧ let resp := connection_query audit_log_query in
      fetch_audit_log config rep
      = (add_warnings rep (flat_map row_warnings resp),
         Return (flat_map row_entries resp))
      ∧ ∀ row,
          row_entries row
          = match parse_outcome row with
            | Return entry => [entry]
            | Raise _ => []
            end
          ∧ List.filter (fun w => bool_decide (is_Some (w_exc w)))
              (row_warnings row)
            = match parse_outcome row with
              | Return _ => []
              | Raise e => [mk_warning parse_error_message row (Some e)]
              end.
Proof.
  unfold fetch_audit_log, _build_enriched_audit_log_query.
  destruct (window_bucket_duration (window config)); simpl BucketDuration.value.
  all: rewrite bool_decide_eq_true_2 by (rewrite !elem_of_cons; tauto).
  all: eexists; split; [reflexivity|]; simpl.
  all: rewrite bindM_lift, fetch_rows_flat_map; split; [reflexivity|].
  all: intros row; split; [reflexivity|].
  all: unfold row_warnings; rewrite List.filter_app.
  all: rewrite (filter_exception_free _ (exception_free_parser_warnings row)).
  all: by destruct (parse_outcome row).
Qed.

(** C10: a row whose [DIRECT_OBJECTS_ACCESSED] or [OBJECTS_MODIFIED] is
    [None] makes the parser raise (it is not decoded, and iterating it
    fails); the driver then reports the row and yields no record for it.
    A row whose two columns decode to the empty array parses, with no
    upstreams, no column usage and no downstream. Conversely, when an array
    column is NULL or the JSON text of an array, a record with no upstreams
    (no downstream) is only returned when [DIRECT_OBJECTS_ACCESSED]
    ([OBJECTS_MODIFIED]) is present and decodes to the empty array. *)
Theorem null_json_column_raises :
  (∀ row rep key,
     NoDup (map (fun kv => lower (fst kv)) row) ->
     key ∈ json_fields ->
     (key, PyNone) ∈ row ->
     ∃ e, _parse_audit_log_row row rep = (rep, Raise e)
          ∧ fetch_rows [row] rep
            = (report_warning parse_error_message row (Some e) rep, []))
  ∧ (∀ row rep,
       well_formed_row row [] [] ->
       ∃ entry, _parse_audit_log_row row rep = (rep, Return entry)
                ∧ fetch_rows [row] rep = (rep, [entry])
                ∧ upstreams entry = []
                ∧ column_usage entry = ∅
                ∧ downstream entry = None
                ∧ column_lineage entry = None)
  ∧ (∀ row rep rep' entry key value content,
       NoDup (map (fun kv => lower (fst kv)) row) ->
       (key, value) ∈ row ->
       array_column value content ->
       _parse_audit_log_row row rep = (rep', Return entry) ->
       (key = "DIRECT_OBJECTS_ACCESSED" -> upstreams entry = [] ->
        content = Some [])
       ∧ (key = "OBJECTS_MODIFIED" -> downstream entry = None ->
          content = Some [])).
Proof.
  split; [|split].
  - intros row rep key Hnd Hkey Hin.
    assert (Hraise : ∃ e, _parse_audit_log_row row rep = (rep, Raise e)).
    { unfold _parse_audit_log_row. rewrite bindM_lift.
      destruct (normalize_row row ∅) as [res|e] eqn:Hres; [|eauto].
      destruct (normalize_row_lookup _ _ _ _ _ Hnd Hin Hres)
        as (decoded & Hdec & Hlook).
      simpl in Hdec. rewrite andb_false_r in Hdec. injection Hdec as <-.
      unfold json_fields in Hkey.
      apply elem_of_union in Hkey as [Hkey|Hkey];
        apply elem_of_singleton in Hkey; subst key;
        change (lower _) with "direct_objects_accessed" in Hlook ||
        change (lower _) with "objects_modified" in Hlook.
      - rewrite bindM_lift. unfold dict_getitem at 1. rewrite Hlook.
        rewrite bindM_lift.
        destruct (dict_getitem res "objects_modified"); [|eauto].
        rewrite bindM_lift. simpl. eauto.
      - rewrite bindM_lift.
        destruct (dict_getitem res "direct_objects_accessed"); [|eauto].
        rewrite bindM_lift. unfold dict_getitem at 1. rewrite Hlook.
        rewrite bindM_lift. destruct (py_iter a); [|eauto].
        rewrite bindM_lift. destruct (accessed_loop a0 [] ∅) as [[? ?]|]; [|eauto].
        rewrite bindM_lift. simpl. eauto. }
    destruct Hraise as [e Hraise]. exists e. simpl. by rewrite Hraise.
  - intros row rep Hwf.
    destruct (parse_well_formed row [] [] rep Hwf) as (entry & Hrun & Hups & Hd & Hcl).
    simpl in Hrun. rewrite add_warnings_nil in Hrun.
    exists entry. simpl. rewrite Hrun. apply Forall2_nil_inv_l in Hups.
    repeat split; try done.
    apply parse_Return_inv in Hrun as (accessed & ? & Hdoa & _ & Hloop & _).
    destruct Hwf as (Hdoa' & _). rewrite Hdoa' in Hdoa. simpl in Hdoa.
    injection Hdoa as <-. simpl in Hloop. by injection Hloop as _ <-.
  - intros row rep rep' entry key value content Hnd Hin Hcontent Hrun.
    apply parse_Return_inv in Hrun as (accessed & modified & Hdoa & Hom & Hacc & Hloop).
    unfold row_field in Hdoa, Hom.
    destruct (normalize_row row ∅) as [res|] eqn:Hres; [|discriminate].
    simpl in Hdoa, Hom.
    destruct (normalize_row_lookup _ _ _ _ _ Hnd Hin Hres)
      as (decoded & Hdec & Hlook).
    assert (Hdecoded : key ∈ json_fields ->
              match content with
              | None => decoded = PyNone
              | Some elems => decoded = PyList elems
              end).
    { intros Hkey. destruct Hcontent as [|text elems Hne Hjson].
      - simpl in Hdec. rewrite andb_false_r in Hdec. by injection Hdec as <-.
      - rewrite bool_decide_eq_true_2 in Hdec by done. simpl in Hdec.
        apply String.eqb_neq in Hne. rewrite Hne in Hdec. simpl in Hdec.
        rewrite Hjson in Hdec. by injection Hdec as <-. }
    split; intros -> Hzero.
    + change (lower _) with "direct_objects_accessed" in Hlook.
      unfold dict_getitem in Hdoa. rewrite Hlook in Hdoa. simpl in Hdoa.
      specialize (Hdecoded ltac:(unfold json_fields; set_solver)).
      destruct content as [elems|]; subst decoded; [|discriminate].
      simpl in Hdoa. injection Hdoa as <-.
      apply accessed_loop_upstreams in Hacc as (urns & Hall & Hups).
      simpl in Hups. rewrite Hzero in Hups. subst urns.
      apply Forall2_nil_inv_r in Hall. by subst.
    + change (lower _) with "objects_modified" in Hlook.
      unfold dict_getitem in Hom. rewrite Hlook in Hom. simpl in Hom.
      specialize (Hdecoded ltac:(unfold json_fields; set_solver)).
      destruct content as [elems|]; subst decoded; [|discriminate].
      simpl in Hom. injection Hom as <-.
      apply modified_loop_last in Hloop.
      destruct (last elems) as [obj|] eqn:Hlast.
      * destruct Hloop as (urn & ? & ? & _ & _ & Hd & _). congruence.
      * apply last_None in Hlast. by subst.
Qed.

End ParserProperties.

(** ** The parser and the driver on sample rows *)

Section ParserWitnesses.
#[local] Existing Instance Sample.identifiers.
#[local] Existing Instance Sample.domains.
#[local] Existing Instance Sample.runtime.
Import Sample.

Ltac compute_row_shape :=
  unfold well_formed_row; repeat split; vm_compute; reflexivity.

Lemma parse_multiple_modified_objects_witness :
  well_formed_row row_three [table_s] [table_t; table_u; table_v]
  ∧ resolve_nonempty [table_t; table_u; table_v] = true
  ∧ (1 < length [table_t; table_u; table_v])%nat
  ∧ last [table_t; table_u; table_v] = Some table_v
  ∧ ∃ entry urn edges,
      let rep' :=
        add_warnings empty_report
          (repeat (mk_warning multiple_downstream_message row_three None)
             (length [table_t; table_u; table_v] - 1)) in
      _parse_audit_log_row row_three empty_report = (rep', Return entry)
      ∧ fetch_rows [row_three] empty_report = (rep', [entry])
      ∧ resolved_identifier table_v = Return urn
      ∧ downstream entry = Some urn
      ∧ column_lineage entry = Some edges
      ∧ Forall2 (column_edge urn) (columns_of table_v) edges.
Proof.
  assert (Hwf : well_formed_row row_three [table_s] [table_t; table_u; table_v])
    by compute_row_shape.
  assert (Hne : resolve_nonempty [table_t; table_u; table_v] = true)
    by (vm_compute; reflexivity).
  assert (Hlen : (1 < length [table_t; table_u; table_v])%nat) by (simpl; lia).
  assert (Hlast : last [table_t; table_u; table_v] = Some table_v)
    by reflexivity.
  repeat split; try assumption.
  exact (parse_multiple_modified_objects row_three empty_report
           [table_s] [table_t; table_u; table_v] table_v Hwf Hne Hlen Hlast).
Defined.

(** C1 as the specification states it fails: with two modified objects
    the record's [downstream] is the second one, not the first, and its
    [column_lineage] has the two edges of the second object; with three
    modified objects two warnings are reported, not one. *)
Lemma first_modified_object_does_not_win :
  (∃ entry,
     _parse_audit_log_row row_two empty_report
     = (add_warnings empty_report
          [mk_warning multiple_downstream_message row_two None],
        Return entry)
     ∧ resolved_identifier table_t
       = Return "urn:li:dataset:(urn:li:dataPlatform:snowflake,db.sch.t,PROD)"
     ∧ downstream entry
       = Some "urn:li:dataset:(urn:li:dataPlatform:snowflake,db.sch.u,PROD)"
     ∧ (length <$> column_lineage entry) = Some 2%nat
     ∧ length (columns_of table_t) = 1%nat)
  ∧ length (parser_warnings row_three) = 2%nat.
Proof.
  split; [|vm_compute; reflexivity].
  destruct (_parse_audit_log_row row_two empty_report) as [rep' [entry|e]] eqn:Hrun.
  - exists entry. revert Hrun. vm_compute. intros [= <- <-]. repeat split.
  - revert Hrun. vm_compute. discriminate.
Qed.

Lemma parse_single_modified_object_witness :
  well_formed_row row_insert [table_s] [table_t]
  ∧ ∃ entry urn edges,
      _parse_audit_log_row row_insert empty_report = (empty_report, Return entry)
      ∧ fetch_rows [row_insert] empty_report = (empty_report, [entry])
      ∧ resolved_identifier table_t = Return urn
      ∧ downstream entry = Some urn
      ∧ column_lineage entry = Some edges
      ∧ length edges = length (columns_of table_t).
Proof.
  assert (Hwf : well_formed_row row_insert [table_s] [table_t])
    by compute_row_shape.
  split; [exact Hwf|].
  exact (parse_single_modified_object row_insert empty_report
           [table_s] table_t Hwf).
Defined.

Lemma column_lineage_upstreams_table_view_witness :
  _parse_audit_log_row row_stage empty_report = (empty_report, Return entry_stage)
  ∧ column_lineage entry_stage = Some edges_stage
  ∧ ∃ modified obj cols,
      bindR (row_field row_stage "objects_modified") py_iter = Return modified
      ∧ last modified = Some obj
      ∧ bindR (py_getitem obj "columns") py_iter = Return cols
      ∧ Forall2
          (fun col edge =>
             ∃ sources,
               bindR (py_getitem col "directSources") py_iter = Return sources
               ∧ let kept := List.filter table_view_domain sources in
                 Forall has_table_view_domain kept
                 ∧ Forall2 source_ref kept (cli_upstreams edge)
                 ∧ List.filter table_view_domain kept = kept)
          cols edges_stage.
Proof.
  assert (Hrun : _parse_audit_log_row row_stage empty_report
                 = (empty_report, Return entry_stage))
    by (vm_compute; reflexivity).
  assert (Hcl : column_lineage entry_stage = Some edges_stage) by reflexivity.
  repeat split; try assumption.
  exact (column_lineage_upstreams_table_view row_stage empty_report
           empty_report entry_stage edges_stage Hrun Hcl).
Defined.

Lemma upstreams_follow_accessed_objects_witness :
  _parse_audit_log_row row_stage empty_report = (empty_report, Return entry_stage)
  ∧ ∃ accessed,
      bindR (row_field row_stage "direct_objects_accessed") py_iter
      = Return accessed
      ∧ Forall2 (fun obj urn => resolved_identifier obj = Return urn)
          accessed (upstreams entry_stage)
      ∧ length (upstreams entry_stage) = length accessed.
Proof.
  assert (Hrun : _parse_audit_log_row row_stage empty_report
                 = (empty_report, Return entry_stage))
    by (vm_compute; reflexivity).
  split; [exact Hrun|].
  exact (upstreams_follow_accessed_objects row_stage empty_report
           empty_report entry_stage Hrun).
Defined.

(** C8 as the specification states it fails: an object accessed twice is
    listed twice in [upstreams]. *)
Lemma upstreams_keep_duplicates :
  ∃ entry,
    _parse_audit_log_row row_twice empty_report = (empty_report, Return entry)
    ∧ upstreams entry
      = [ "urn:li:dataset:(urn:li:dataPlatform:snowflake,db.sch.s,PROD)";
          "urn:li:dataset:(urn:li:dataPlatform:snowflake,db.sch.s,PROD)" ]
    ∧ ¬ NoDup (upstreams entry).
Proof.
  destruct (_parse_audit_log_row row_twice empty_report)
    as [rep' [entry|e]] eqn:Hrun.
  - exists entry. revert Hrun. vm_compute. intros [= <- <-].
    repeat split. intros Hnd. apply NoDup_cons in Hnd as [Hnotin _].
    apply Hnotin. constructor.
  - revert Hrun. vm_compute. discriminate.
Qed.

Lemma null_json_column_raises_witness :
  NoDup (map (fun kv => lower (fst kv)) row_null)
  ∧ "DIRECT_OBJECTS_ACCESSED" ∈ json_fields
  ∧ ("DIRECT_OBJECTS_ACCESSED", PyNone) ∈ row_null
  ∧ well_formed_row row_empty [] []
  ∧ (∃ e, _parse_audit_log_row row_null empty_report = (empty_report, Raise e)
          ∧ fetch_rows [row_null] empty_report
            = (report_warning parse_error_message row_null (Some e)
                 empty_report, []))
  ∧ (∃ entry,
       _parse_audit_log_row row_empty empty_report = (empty_report, Return entry)
       ∧ fetch_rows [row_empty] empty_report = (empty_report, [entry])
       ∧ upstreams entry = []
       ∧ column_usage entry = ∅
       ∧ downstream entry = None
       ∧ column_lineage entry = None)
  ∧ array_column (PyStr (json_text (PyList [table_s]))) (Some [table_s])
  ∧ ("DIRECT_OBJECTS_ACCESSED", PyStr (json_text (PyList [table_s]))) ∈ row_stage
  ∧ upstreams entry_stage ≠ [].
Proof.
  assert (Hnd : NoDup (map (fun kv => lower (fst kv)) row_null)).
  { apply (bool_decide_unpack _). vm_compute. exact I. }
  assert (Hkey : "DIRECT_OBJECTS_ACCESSED" ∈ json_fields).
  { apply (bool_decide_unpack _). vm_compute. exact I. }
  assert (Hin : ("DIRECT_OBJECTS_ACCESSED", PyNone) ∈ row_null).
  { apply list_elem_of_In. vm_compute. tauto. }
  assert (Hwf : well_formed_row row_empty [] []) by compute_row_shape.
  assert (Hnd' : NoDup (map (fun kv => lower (fst kv)) row_stage)).
  { apply (bool_decide_unpack _). vm_compute. exact I. }
  assert (Harray : array_column (PyStr (json_text (PyList [table_s])))
                     (Some [table_s])).
  { constructor; [vm_compute; discriminate | vm_compute; reflexivity]. }
  assert (Hin' : ("DIRECT_OBJECTS_ACCESSED", PyStr (json_text (PyList [table_s])))
                 ∈ row_stage).
  { apply list_elem_of_In. vm_compute. tauto. }
  assert (Hrun : _parse_audit_log_row row_stage empty_report
                 = (empty_report, Return entry_stage))
    by (vm_compute; reflexivity).
  destruct null_json_column_raises as (Hnull & Hempty & Honly).
  split; [exact Hnd|]. split; [exact Hkey|]. split; [exact Hin|].
  split; [exact Hwf|].
  split; [exact (Hnull row_null empty_report "DIRECT_OBJECTS_ACCESSED"
                   Hnd Hkey Hin)|].
  split; [exact (Hempty row_empty empty_report Hwf)|].
  split; [exact Harray|]. split; [exact Hin'|].
  intros Hzero.
  discriminate (proj1 (Honly row_stage empty_report empty_report entry_stage
                         _ _ _ Hnd' Hin' Harray Hrun) eq_refl Hzero).
Defined.

(** The scenario of spec section 8. *)
Example parse_row_insert :
  match parse_outcome row_insert with
  | Return entry =>
      downstream entry
      = Some "urn:li:dataset:(urn:li:dataPlatform:snowflake,db.sch.t,PROD)"
      ∧ upstreams entry = [urn_s]
      ∧ column_lineage entry
        = Some [mk_ColumnLineageInfo
                  (mk_DownstreamColumnRef
                     (Some "urn:li:dataset:(urn:li:dataPlatform:snowflake,db.sch.t,PROD)")
                     "a")
                  [mk_ColumnRef urn_s "x"]]
      ∧ query_type entry = QueryType.INSERT
      ∧ confidence_score entry = 1
  | Raise _ => False
  end.
Proof. vm_compute. repeat split. Qed.

Example query_type_copy_unknown :
  query_type_get (PyStr "COPY") = Return QueryType.UNKNOWN
  ∧ query_type_get (PyStr "SHOW") = Return QueryType.UNKNOWN
  ∧ query_type_get (PyStr "MERGE") = Return QueryType.MERGE.
Proof. repeat split. Qed.

(** Four rows, the second not JSON and the third with a NULL array: two
    records, two warnings, and the fourth row is still parsed. *)
Example fetch_rows_skips_two_rows :
  let run := fetch_rows [row_insert; row_garbled; row_null; row_stage]
               empty_report in
  map downstream (snd run)
  = [Some "urn:li:dataset:(urn:li:dataPlatform:snowflake,db.sch.t,PROD)";
     Some urn_u]
  ∧ warnings (fst run)
    = [mk_warning parse_error_message row_garbled (Some JSONDecodeError);
       mk_warning parse_error_message row_null (Some TypeError)].
Proof. vm_compute. split; reflexivity. Qed.

End ParserWitnesses.

(** ** The enriched audit query *)

Section AuditQueryProperties.
Context {consts : SnowflakeQuery} {warehouse : Warehouse} {runtime : Runtime}.
Import AuditQuery.



(** Every row of the result joins a deduplicated query with the filtered
    view of an access-history row of the same query id. *)
Lemma enriched_audit_log_rows start_millis end_millis bucket deny qh ah out :
  In out (enriched_audit_log start_millis end_millis bucket deny qh ah) ->
  ∃ q a,
    In q (deduplicated_queries bucket
            (fingerprinted_queries start_millis end_millis deny qh))
    ∧ In a ah
    ∧ filtered_where a = true
    ∧ ah_query_id a = dq_query_id q
    ∧ out = join_row q (filtered_select a).
Proof.
  unfold enriched_audit_log, query_access_history, filtered_access_history,
    raw_access_history.
  intros Hin. apply in_flat_map in Hin as (q & Hq & Hin).
  apply in_map_iff in Hin as (fa & <- & Hfa).
  apply filter_In in Hfa as [Hfa Hid].
  apply in_map_iff in Hfa as (a & <- & Ha).
  apply filter_In in Ha as [Ha Hwhere].
  apply filter_In in Ha as [Ha _].
  apply String.eqb_eq in Hid. simpl in Hid.
  exists q, a. auto.
Qed.

(** C2 (amended): whatever the window, the denylist and the tables, every
    row the query returns holds the table-or-view objects of
    [direct_objects_accessed] cut to the first 20, and ALL the table-or-view
    objects of [objects_modified]: that array is filtered by domain but not
    truncated. Nothing is reported for the objects cut off. *)
Theorem audit_query_caps_accessed_objects_only
    start_time end_time bucket deny qh ah :
  Forall
    (fun out =>
       ∃ a,
         In a ah
         ∧ ah_query_id a = QUERY_ID out
         ∧ DIRECT_OBJECTS_ACCESSED out
           = firstn 20 (List.filter table_view_domain (ah_direct_objects_accessed a))
         ∧ (length (DIRECT_OBJECTS_ACCESSED out) <= 20)%nat
         ∧ OBJECTS_MODIFIED out
           = List.filter table_view_domain (ah_objects_modified a))
    (run_enriched_audit_log_query start_time end_time bucket deny qh ah).
Proof.
  apply List.Forall_forall. intros out Hin.
  apply enriched_audit_log_rows in Hin as (q & a & _ & Ha & _ & Hid & ->).
  exists a. simpl. repeat split; try done.
  unfold array_slice_from_0. apply firstn_le_length.
Qed.

(** C4 (amended): [filtered_access_history] drops an access-history row
    exactly when both of its arrays are empty as stored, BEFORE the domain
    filter is applied; every other row is kept, each independently of the
    rows around it. A row whose arrays hold only objects outside the
    table-or-view domains is therefore kept, with both arrays empty after
    filtering. *)
Theorem filtered_access_history_drops_raw_empty before a after :
  filtered_access_history (before ++ a :: after)
  = filtered_access_history before
    ++ (if decide (ah_direct_objects_accessed a = [] ∧ ah_objects_modified a = [])
        then [] else [filtered_select a])
    ++ filtered_access_history after
  ∧ (Forall (fun o => table_view_domain o = false) (ah_direct_objects_accessed a) ->
     Forall (fun o => table_view_domain o = false) (ah_objects_modified a) ->
     fa_direct_objects_accessed (filtered_select a) = []
     ∧ fa_objects_modified (filtered_select a) = []).
Proof.
  split.
  - unfold filtered_access_history. rewrite List.filter_app, List.map_app. simpl.
    f_equal.
    assert (Hwhere : filtered_where a
                     = negb (bool_decide (ah_direct_objects_accessed a = []
                                          ∧ ah_objects_modified a = []))).
    { unfold filtered_where.
      destruct (ah_direct_objects_accessed a), (ah_objects_modified a);
        first [ by rewrite bool_decide_eq_true_2
              | by rewrite bool_decide_eq_false_2 by (by intros [? ?]) ]. }
    rewrite Hwhere. by case_bool_decide; case_decide.
  - intros Hdoa Hom. unfold filtered_select, array_slice_from_0. simpl.
    assert (Hnone : ∀ l, Forall (fun o => table_view_domain o = false) l ->
                         List.filter table_view_domain l = []).
    { induction 1 as [|o l Ho _ IH]; simpl; [done|]. by rewrite Ho. }
    rewrite (Hnone _ Hdoa), (Hnone _ Hom). by rewrite firstn_nil.
Qed.

(** The text of the user filter. *)
Lemma users_filter_clause_nonempty user users :
  users_filter_clause (Some (user :: users))
  = "user_name NOT IN ("
    +:+ String.concat ","
          (map (fun u => "'" +:+ str_upper u +:+ "'") (user :: users))
    +:+ ")".
Proof. reflexivity. Qed.

Lemma map_str_upper_ascii (users : list string) :
  Forall (fun u => is_ascii u = true) users ->
  map str_upper users = map upper users.
Proof.
  induction 1 as [|u us Hu _ IH]; simpl; [done|].
  by rewrite (str_upper_ascii u Hu), IH.
Qed.

(** C5 (amended): for a non-empty denylist the text returned by the
    builder carries the clause [user_name NOT IN ('U1','U2',...)], listing
    the entries as [str.upper()] gives them (for ASCII entries: with the
    letters a-z in upper case), in both the query-history and the
    access-history subquery. The entries are spliced unescaped: provided no
    upper-cased entry holds a single quote or a backslash, the clause
    compares [user_name] as stored with the upper-cased entries, and a user
    is excluded exactly when the name equals some entry in upper case. So
    the spelling of the entry does not matter but the spelling of the user
    name does. *)
Theorem users_filter_upper_cases_denylist
    start_time end_time bucket user users :
  let deny := Some (user :: users) in
  let clause :=
    "user_name NOT IN ("
    +:+ String.concat ","
          (map (fun u => "'" +:+ str_upper u +:+ "'") (user :: users))
    +:+ ")" in
  let time_bucket_size := BucketDuration.value bucket in
  let start_millis := timestamp_millis start_time in
  let end_millis := timestamp_millis end_time in
  (_build_enriched_audit_log_query start_time end_time bucket deny
   = Return (unlines (audit_query_lines start_millis end_millis clause
                        time_bucket_size))
   ∧ In ("        AND " +:+ clause)
        (fingerprinted_queries_sql start_millis end_millis clause)
   ∧ In ("        AND " +:+ clause)
        (raw_access_history_sql start_millis end_millis clause)
   ∧ (Forall (fun u => is_ascii u = true) (user :: users) ->
      map str_upper (user :: users) = map upper (user :: users)))
  ∧ (plain_denylist deny = true ->
     (∀ name, users_filter deny name = false
              ↔ In name (map str_upper (user :: users)))
     ∧ (∀ qh r, In r (fingerprinted_queries start_millis end_millis deny qh) ->
                ¬ In (qh_user_name (fq_source r))
                    (map str_upper (user :: users)))
     ∧ (∀ ah dq a,
          In a (raw_access_history start_millis end_millis deny ah dq) ->
          ¬ In (ah_user_name a) (map str_upper (user :: users)))).
Proof.
  intros deny clause time_bucket_size start_millis end_millis.
  assert (Hfilter : ∀ name,
             users_filter deny name = false
             ↔ In name (map str_upper (user :: users))).
  { intros name. unfold users_filter, deny.
    rewrite negb_false_iff, bool_decide_eq_true. apply list_elem_of_In. }
  assert (Hclause : py_or clause "TRUE" = clause) by reflexivity.
  split; [split_and!|intros _; split_and!].
  - unfold _build_enriched_audit_log_query.
    rewrite bool_decide_eq_true_2; [reflexivity|].
    destruct bucket; simpl; rewrite !elem_of_cons; tauto.
  - unfold fingerprinted_queries_sql. rewrite Hclause. simpl. tauto.
  - unfold raw_access_history_sql. rewrite Hclause. simpl. tauto.
  - apply map_str_upper_ascii.
  - apply Hfilter.
  - intros qh r Hin Hdenied. apply Hfilter in Hdenied.
    unfold fingerprinted_queries in Hin.
    apply in_map_iff in Hin as (h & <- & Hin).
    apply filter_In in Hin as [_ Hkeep]. simpl fq_source in Hdenied.
    unfold deny in *. rewrite Hdenied in Hkeep.
    by rewrite andb_false_r in Hkeep.
  - intros ah dq a Hin Hdenied. apply Hfilter in Hdenied.
    unfold raw_access_history in Hin.
    apply filter_In in Hin as [_ Hkeep].
    unfold deny in *. rewrite Hdenied in Hkeep.
    by rewrite andb_false_r, ?andb_false_l in Hkeep.
Qed.

(** ** Deduplication *)


Section Deduplication.
Variable bucket : BucketDuration.t.
Variable key : Z * string.

Local Abbreviation member := (in_partition bucket key).
Local Abbreviation member_row := (fun d => in_partition bucket key (dq_query d)).

Lemma in_partition_key r :
  member r = true -> partition_key bucket r = key.
Proof. unfold in_partition. apply bool_decide_eq_true. Qed.

Lemma deduplicate_cons before r rest :
  deduplicate bucket before (r :: rest)
  = (let earlier := List.filter (in_partition bucket (partition_key bucket r)) before in
     let later := List.filter (in_partition bucket (partition_key bucket r)) rest in
     let ahead_earlier :=
       List.filter (fun r' => fq_start_time r <=? fq_start_time r') earlier in
     let ahead_later :=
       List.filter (fun r' => fq_start_time r <? fq_start_time r') later in
     if Nat.eqb (1 + length ahead_earlier + length ahead_later) 1
     then [mk_deduplicated_row r (bucket_of bucket r)
             (length earlier + 1 + length later)]
     else [])
    ++ deduplicate bucket (before ++ [r]) rest.
Proof. reflexivity. Qed.




End Deduplication.

Lemma deduplicate_bucket bucket after :
  ∀ before q,
    In q (deduplicate bucket before after) ->
    dq_bucket_start_time q = bucket_of bucket (dq_query q).
Proof.
  induction after as [|r rest IH]; intros before q Hin; [destruct Hin|].
  rewrite deduplicate_cons in Hin. apply in_app_or in Hin as [Hin|Hin].
  - cbv zeta in Hin.
    match type of Hin with In _ (if ?c then _ else _) => destruct c end;
      [|destruct Hin].
    destruct Hin as [<-|[]]. reflexivity.
  - by eapply IH.
Qed.



End AuditQueryProperties.

(** ** The enriched audit query on sample tables *)

Section AuditQueryWitnesses.
#[local] Existing Instance Sample.domains.
#[local] Existing Instance Sample.warehouse.
#[local] Existing Instance Sample.runtime.

(** The doubles at work: from 2038-01-19 on, an instant on a whole
    millisecond can come out one millisecond early; the sample window is
    not affected. *)
Example timestamp_millis_in_doubles :
  timestamp_millis (mk_datetime 2147483648002000 0) = 2147483648001
  ∧ timestamp_millis (mk_datetime 2147483648002500 0) = 2147483648002
  ∧ timestamp_millis (mk_datetime 1710504000000000 0) = 1710504000000
  ∧ timestamp_millis (mk_datetime (-1500) 0) = -1.
Proof. split_and!; vm_compute; reflexivity. Qed.
Import AuditQuery Sample.

(** C2 as the specification states it fails: a statement that read and
    wrote twenty-one tables comes out with twenty of them in
    [DIRECT_OBJECTS_ACCESSED] and all twenty-one in [OBJECTS_MODIFIED]. *)
Lemma objects_modified_not_truncated :
  map (fun out => (length (DIRECT_OBJECTS_ACCESSED out),
                   length (OBJECTS_MODIFIED out)))
    (run_enriched_audit_log_query window_start window_end BucketDuration.HOUR
       None [query_1200]
       [access "q-1200" 1710504000000 "ALICE" many_tables many_tables])
  = [(20%nat, 21%nat)].
Proof. vm_compute. reflexivity. Qed.



(** C4 as the specification states it fails: a row whose only object is a
    stage is not dropped; it comes out with both arrays empty. *)
Lemma stage_only_row_is_kept :
  table_view_domain stage_y = false
  ∧ map (fun out => (QUERY_ID out, DIRECT_OBJECTS_ACCESSED out,
                     OBJECTS_MODIFIED out))
      (run_enriched_audit_log_query window_start window_end
         BucketDuration.HOUR None [query_1200]
         [access "q-1200" 1710504000000 "ALICE" [stage_y] []])
    = [("q-1200", [], [])].
Proof. split; vm_compute; reflexivity. Qed.

Lemma filtered_access_history_drops_raw_empty_witness :
  let a := access "q-1200" 1710504000000 "ALICE" [stage_y] [] in
  Forall (fun o => table_view_domain o = false) (ah_direct_objects_accessed a)
  ∧ Forall (fun o => table_view_domain o = false) (ah_objects_modified a)
  ∧ fa_direct_objects_accessed (filtered_select a) = []
  ∧ fa_objects_modified (filtered_select a) = [].
Proof.
  intros a.
  assert (Hdoa : Forall (fun o => table_view_domain o = false)
                   (ah_direct_objects_accessed a)).
  { repeat constructor. }
  assert (Hom : Forall (fun o => table_view_domain o = false)
                  (ah_objects_modified a)).
  { constructor. }
  exact (conj Hdoa (conj Hom
           (proj2 (filtered_access_history_drops_raw_empty [] a []) Hdoa Hom))).
Defined.

(** C5 as the specification states it fails: with [SVC_ETL] denied, the
    query of the user spelled [svc_etl] still comes out; only the user
    spelled [SVC_ETL] is excluded. *)
Lemma lower_case_user_not_excluded :
  lower "SVC_ETL" = "svc_etl"
  ∧ map (fun out => (QUERY_ID out, USER_NAME out))
      (run_enriched_audit_log_query window_start window_end
         BucketDuration.HOUR (Some ["SVC_ETL"]) [query_lower; query_upper]
         [access "q-lower" 1710504000000 "svc_etl" [table_s] [];
          access "q-upper" 1710504000000 "SVC_ETL" [table_s] []])
    = [("q-lower", "svc_etl")].
Proof. split; vm_compute; reflexivity. Qed.

Lemma users_filter_upper_cases_denylist_witness :
  plain_denylist (Some ["svc_etl"; "Loader"]) = true
  ∧ In "SVC_ETL" (map str_upper ["svc_etl"; "Loader"])
  ∧ users_filter (Some ["svc_etl"; "Loader"]) "SVC_ETL" = false
  ∧ users_filter (Some ["svc_etl"; "Loader"]) "svc_etl" = true.
Proof.
  assert (Hplain : plain_denylist (Some ["svc_etl"; "Loader"]) = true)
    by (vm_compute; reflexivity).
  pose proof (proj1 (proj2 (users_filter_upper_cases_denylist
                              window_start window_end BucketDuration.HOUR
                              "svc_etl" ["Loader"]) Hplain))
    as Hfilter.
  assert (Hin : In "SVC_ETL" (map str_upper ["svc_etl"; "Loader"]))
    by (vm_compute; tauto).
  exact (conj Hplain (conj Hin (conj (proj2 (Hfilter "SVC_ETL") Hin) eq_refl))).
Defined.

End AuditQueryWitnesses.

(** * Further properties of the parser *)

Set Warnings "-clear-no-such-hyp".

Ltac step_lift H name :=
  rewrite bindM_lift in H;
  match type of H with
  | (match ?m with _ => _ end) = _ =>
      destruct m as [name|] eqn:?; [|discriminate H]
  end.

Section ParserExtras.
Context {mixin : SnowflakeIdentifierMixin} {consts : SnowflakeQuery}
        {runtime : Runtime}.

Lemma accessed_columns_loop_names cols :
  ∀ acc columns,
    accessed_columns_loop cols acc = Return columns ->
    ∃ names,
      Forall2 (fun col name => py_getitem col "columnName" = Return (PyStr name))
        cols names
      ∧ columns = acc ∪ list_to_set (map snowflake_identifier names).
Proof.
  induction cols as [|col rest IH]; simpl; intros acc columns Hrun.
  - injection Hrun as <-. exists []. split; [constructor | set_solver].
  - inv_bindR Hrun. inv_bindR Hrun.
    apply column_identifier_of_inv in Hv0 as (name & -> & ->).
    apply IH in Hrun as (names & Hall & ->).
    exists (name :: names). split; [by constructor | set_solver].
Qed.

(** What the first loop leaves in [column_usage]. *)
Lemma accessed_loop_usage objs :
  ∀ ups cu ups' cu',
    accessed_loop objs ups cu = Return (ups', cu') ->
    ∃ urns,
      Forall2 (fun obj urn => resolved_identifier obj = Return urn) objs urns
      ∧ ups' = ups ++ urns
      ∧ dom cu' = dom cu ∪ list_to_set urns
      ∧ (∀ urn, urn ∉ urns -> cu' !! urn = cu !! urn)
      ∧ (∀ before obj after urn,
           objs = before ++ obj :: after ->
           resolved_identifier obj = Return urn ->
           Forall (fun o => resolved_identifier o ≠ Return urn) after ->
           ∃ columns, accessed_columns obj columns ∧ cu' !! urn = Some columns).
Proof.
  induction objs as [|obj rest IH]; simpl; intros ups cu ups' cu' Hrun.
  - injection Hrun as <- <-. exists [].
    split_and!; [constructor | by rewrite app_nil_r | set_solver | done |].
    intros [|? ?] ? ? ? Heq; discriminate Heq.
  - inv_bindR Hrun. inv_bindR Hrun. inv_bindR Hrun. inv_bindR Hrun.
    inv_bindR Hrun.
    rename v0 into urn0, v1 into cols0, v2 into cols, v3 into columns.
    assert (Hres : resolved_identifier obj = Return urn0).
    { unfold resolved_identifier. by rewrite Hv. }
    apply accessed_columns_loop_names in Hv3 as (names & Hnames & Hcolumns).
    rewrite union_empty_l_L in Hcolumns.
    apply IH in Hrun as (urns & Hall & -> & Hdom & Hkeep & Hlast).
    exists (urn0 :: urns). split_and!.
    + by constructor.
    + by rewrite <- app_assoc.
    + rewrite Hdom, dom_insert_L. set_solver.
    + intros urn Hnotin. apply not_elem_of_cons in Hnotin as [Hne Hnotin].
      rewrite (Hkeep urn Hnotin). by rewrite lookup_insert_ne.
    + intros before obj' after urn Heq Hres' Hafter.
      destruct before as [|b before]; simpl in Heq.
      * injection Heq as <- <-.
        rewrite Hres in Hres'. injection Hres' as <-.
        exists columns. split.
        -- exists cols, names. split; [|done]. by rewrite Hv1.
        -- rewrite Hkeep; [by rewrite lookup_insert_eq|].
           intros Hin. apply list_elem_of_lookup in Hin as [i Hi].
           destruct (Forall2_lookup_r _ _ _ _ _ Hall Hi) as (o & Ho & Hor).
           rewrite Forall_forall in Hafter.
           apply (Hafter o); [|done].
           apply list_elem_of_lookup. eauto.
      * injection Heq as <- ->. by eapply Hlast.
Qed.

(** X1: a well-formed row with no modified object parses without a
    warning; the record has neither [downstream] nor [column_lineage], and
    its [upstreams] and [column_usage] are still filled from the accessed
    objects. *)
Theorem parse_no_modified_object row rep accessed :
  well_formed_row row accessed [] ->
  ∃ entry,
    _parse_audit_log_row row rep = (rep, Return entry)
    ∧ downstream entry = None
    ∧ column_lineage entry = None
    ∧ Forall2 (fun obj urn => resolved_identifier obj = Return urn)
        accessed (upstreams entry)
    ∧ dom (column_usage entry) = list_to_set (upstreams entry).
Proof.
  intros Hwf.
  destruct (parse_well_formed row accessed [] rep Hwf)
    as (entry & Hrun & Hups & Hd & Hcl).
  simpl in Hrun. rewrite add_warnings_nil in Hrun.
  exists entry. split_and!; try done.
  apply parse_Return_inv in Hrun as (accessed' & ? & _ & _ & Hloop & _).
  apply accessed_loop_usage in Hloop as (urns & _ & Hu & Hdom & _).
  simpl in Hu. rewrite Hdom, Hu, dom_empty_L. set_solver.
Qed.

(** X2: in every record the parser produces, [column_usage] has exactly the
    datasets of [upstreams] as keys, and maps the dataset of an accessed
    object to the normalised column names of that object, provided no later
    accessed object resolves to the same dataset: a later entry for the
    same dataset replaces the columns of an earlier one. *)
Theorem column_usage_follows_upstreams row rep rep' entry :
  _parse_audit_log_row row rep = (rep', Return entry) ->
  ∃ accessed,
    bindR (row_field row "direct_objects_accessed") py_iter = Return accessed
    ∧ dom (column_usage entry) = list_to_set (upstreams entry)
    ∧ ∀ before obj after urn,
        accessed = before ++ obj :: after ->
        resolved_identifier obj = Return urn ->
        Forall (fun o => resolved_identifier o ≠ Return urn) after ->
        ∃ columns,
          accessed_columns obj columns
          ∧ column_usage entry !! urn = Some columns.
Proof.
  intros Hrun.
  apply parse_Return_inv in Hrun as (accessed & ? & Hdoa & _ & Hloop & _).
  apply accessed_loop_usage in Hloop as (urns & _ & Hu & Hdom & _ & Hlast).
  exists accessed. split_and!; [done| |done].
  simpl in Hu. rewrite Hdom, Hu, dom_empty_L. set_solver.
Qed.

(** X3: in every record the parser produces, [query_id] is the row's query
    fingerprint (not its [QUERY_ID]), [query_text], [query_count] and
    [session_id] are the row's columns unchanged, [confidence_score] is 1,
    [timestamp] is the row's start time at the same instant with a zero UTC
    offset, [user] is the corp-user urn of the row's user name and
    [query_type] the classification of the row's query type. *)
Theorem record_scalar_fields row rep rep' entry :
  _parse_audit_log_row row rep = (rep', Return entry) ->
  row_field row "query_fingerprint" = Return (query_id entry)
  ∧ row_field row "query_text" = Return (query_text entry)
  ∧ row_field row "query_count" = Return (query_count entry)
  ∧ row_field row "session_id" = Return (session_id entry)
  ∧ confidence_score entry = 1
  ∧ (∃ t, row_field row "query_start_time" = Return (PyDatetime t)
          ∧ dt_instant (timestamp entry) = dt_instant t
          ∧ dt_utcoffset (timestamp entry) = 0)
  ∧ (∃ user_name, row_field row "user_name" = Return (PyStr user_name)
                  ∧ CorpUserUrn user_name = Return (user entry))
  ∧ (∃ label, row_field row "query_type" = Return label
              ∧ query_type_get label = Return (query_type entry)).
Proof.
  unfold _parse_audit_log_row, row_field. intros Hrun.
  step_lift Hrun res. step_lift Hrun doa. step_lift Hrun om.
  step_lift Hrun accessed. step_lift Hrun read. destruct read as [ups cu].
  step_lift Hrun modified.
  apply bindM_Return_inv in Hrun as ([d cl] & rep1 & _ & Hrun).
  step_lift Hrun user_name. step_lift Hrun name. step_lift Hrun urn.
  step_lift Hrun start. step_lift Hrun time. step_lift Hrun label.
  step_lift Hrun type. step_lift Hrun fingerprint. step_lift Hrun text.
  step_lift Hrun count. step_lift Hrun session.
  unfold retM in Hrun. injection Hrun as _ <-. simpl.
  destruct user_name; try discriminate.
  destruct start; try discriminate.
  repeat match goal with H : as_str _ = Return _ |- _ =>
    simpl in H; injection H as <- end.
  repeat match goal with H : Return (astimezone_utc _) = Return _ |- _ =>
    injection H as <- end.
  split_and!; eauto.
Qed.

(** ** Rows the parser rejects *)

Lemma normalize_row_present row :
  ∀ res0 res key,
    normalize_row row res0 = Return res ->
    is_Some (res0 !! key) ∨ key ∈ map (fun kv => lower (fst kv)) row ->
    is_Some (res !! key).
Proof.
  induction row as [|[k v] rest IH]; simpl; intros res0 res key Hrun Hkey.
  - injection Hrun as <-. destruct Hkey as [?|Hin]; [done|].
    by apply elem_of_nil in Hin.
  - inv_bindR Hrun. apply (IH _ _ _ Hrun).
    destruct Hkey as [Hsome|Hin].
    + left. destruct (decide (lower k = key)) as [->|Hne].
      * rewrite lookup_insert_eq. eauto.
      * by rewrite lookup_insert_ne.
    + apply elem_of_cons in Hin as [->|Hin]; [|by right].
      left. rewrite lookup_insert_eq. eauto.
Qed.

(** X4: a row with no [DIRECT_OBJECTS_ACCESSED] column under any spelling
    makes the parser raise, with nothing reported; when the JSON columns it
    does have decode, the exception is the [KeyError] of
    [direct_objects_accessed]. The same holds for [objects_modified] when
    only that column is missing. *)
Theorem missing_array_column_raises row rep :
  ("direct_objects_accessed" ∉ map (fun kv => lower (fst kv)) row ->
   ∃ e, _parse_audit_log_row row rep = (rep, Raise e)
        ∧ (is_return (normalize_row row ∅) = true ->
           e = KeyError "direct_objects_accessed"))
  ∧ ("direct_objects_accessed" ∈ map (fun kv => lower (fst kv)) row ->
     "objects_modified" ∉ map (fun kv => lower (fst kv)) row ->
     ∃ e, _parse_audit_log_row row rep = (rep, Raise e)
          ∧ (is_return (normalize_row row ∅) = true ->
             e = KeyError "objects_modified")).
Proof.
  split.
  - intros Hmissing. unfold _parse_audit_log_row. rewrite bindM_lift.
    destruct (normalize_row row ∅) as [res|e] eqn:Hres.
    + rewrite bindM_lift. unfold dict_getitem.
      rewrite (normalize_row_preserves _ _ _ _ Hmissing Hres), lookup_empty.
      eauto.
    + exists e. split; [done|discriminate].
  - intros Hpresent Hmissing. unfold _parse_audit_log_row. rewrite bindM_lift.
    destruct (normalize_row row ∅) as [res|e] eqn:Hres.
    + destruct (normalize_row_present _ _ _ "direct_objects_accessed" Hres)
        as [doa Hdoa]; [by right|].
      rewrite bindM_lift. unfold dict_getitem at 1. rewrite Hdoa.
      rewrite bindM_lift. unfold dict_getitem.
      rewrite (normalize_row_preserves _ _ _ _ Hmissing Hres), lookup_empty.
      eauto.
    + exists e. split; [done|discriminate].
Qed.

Lemma normalize_row_undecodable row :
  ∀ res0 key text,
    (key, PyStr text) ∈ row ->
    key ∈ json_fields ->
    text ≠ "" ->
    json_decode text = None ->
    ∃ e, normalize_row row res0 = Raise e
         ∧ (e = JSONDecodeError ∨ e = TypeError).
Proof.
  induction row as [|[k v] rest IH]; simpl;
    intros res0 key text Hin Hkey Hne Hjson.
  - by apply elem_of_nil in Hin.
  - apply elem_of_cons in Hin as [[= <- <-]|Hin].
    + rewrite bool_decide_eq_true_2 by done. simpl.
      apply String.eqb_neq in Hne. rewrite Hne. simpl. rewrite Hjson. simpl.
      eauto.
    + destruct (bool_decide (k ∈ json_fields) && truthy v)%bool.
      * unfold json_loads. destruct v; simpl; eauto.
        destruct (json_decode s); simpl; eauto.
      * simpl. eauto.
Qed.

(** X5: when a JSON column holds text that does not decode, the parser
    raises before anything is reported ([JSONDecodeError], or the
    [TypeError] of an earlier JSON column that is not text), and the driver
    turns the row into one warning and no record. *)
Theorem undecodable_json_column_raises row rep key text :
  (key, PyStr text) ∈ row ->
  key ∈ json_fields ->
  text ≠ "" ->
  json_decode text = None ->
  ∃ e, (e = JSONDecodeError ∨ e = TypeError)
       ∧ _parse_audit_log_row row rep = (rep, Raise e)
       ∧ fetch_rows [row] rep
         = (report_warning parse_error_message row (Some e) rep, []).
Proof.
  intros Hin Hkey Hne Hjson.
  destruct (normalize_row_undecodable row ∅ key text Hin Hkey Hne Hjson)
    as (e & Hraise & He).
  assert (Hrun : _parse_audit_log_row row rep = (rep, Raise e)).
  { unfold _parse_audit_log_row. by rewrite bindM_lift, Hraise. }
  exists e. simpl. by rewrite Hrun.
Qed.

(** X6: the two JSON columns are recognised by their exact upper-case
    names. Under any other spelling the text of [direct_objects_accessed]
    is not decoded; the parser then iterates over its characters and
    raises, so no record is produced. *)
Theorem misspelled_json_column_raises row rep key text :
  NoDup (map (fun kv => lower (fst kv)) row) ->
  (key, PyStr text) ∈ row ->
  lower key = "direct_objects_accessed" ->
  key ≠ "DIRECT_OBJECTS_ACCESSED" ->
  text ≠ "" ->
  ∃ e, _parse_audit_log_row row rep = (rep, Raise e).
Proof.
  intros Hnd Hin Hlower Hkey Hne.
  unfold _parse_audit_log_row. rewrite bindM_lift.
  destruct (normalize_row row ∅) as [res|e] eqn:Hres; [|eauto].
  destruct (normalize_row_lookup _ _ _ _ _ Hnd Hin Hres)
    as (decoded & Hdec & Hlook).
  assert (Hnot : key ∉ json_fields).
  { unfold json_fields. intros Hj.
    apply elem_of_union in Hj as [Hj|Hj]; apply elem_of_singleton in Hj.
    - done.
    - subst key. discriminate Hlower. }
  rewrite bool_decide_eq_false_2 in Hdec by done. simpl in Hdec.
  injection Hdec as <-. rewrite Hlower in Hlook.
  rewrite bindM_lift. unfold dict_getitem at 1. rewrite Hlook.
  rewrite bindM_lift.
  destruct (dict_getitem res "objects_modified"); [|eauto].
  rewrite bindM_lift. simpl py_iter. cbv beta iota.
  destruct text as [|c text]; [done|]. simpl. eauto.
Qed.

(** ** What the parser reports *)

Lemma modified_loop_warnings row objs :
  ∀ d0 cl0 rep,
    ∃ k,
      fst (modified_loop row objs d0 cl0 rep)
      = add_warnings rep
          (repeat (mk_warning multiple_downstream_message row None) k)
      ∧ (k <= length objs - (if truthy_opt_str d0 then 0 else 1))%nat.
Proof.
  induction objs as [|obj rest IH]; simpl; intros d0 cl0 rep.
  - exists 0%nat. unfold retM. simpl. by rewrite add_warnings_nil.
  - unfold bindM at 1.
    set (rep0 := if truthy_opt_str d0
                 then report_warning multiple_downstream_message row None rep
                 else rep).
    assert (Hfirst :
      (if truthy_opt_str d0
       then warn multiple_downstream_message row None
       else retM tt) rep = (rep0, Return tt)).
    { unfold rep0. by destruct (truthy_opt_str d0). }
    rewrite Hfirst.
    assert (Hstop : ∃ k,
      rep0 = add_warnings rep
               (repeat (mk_warning multiple_downstream_message row None) k)
      ∧ (k <= S (length rest) - (if truthy_opt_str d0 then 0 else 1))%nat).
    { unfold rep0. destruct (truthy_opt_str d0).
      - exists 1%nat. split; [reflexivity|lia].
      - exists 0%nat. split; [by rewrite add_warnings_nil|lia]. }
    repeat (rewrite bindM_lift;
            match goal with
            | |- context [match ?m with Return _ => _ | Raise _ => _ end] =>
                destruct m; [|exact Hstop]
            end).
    match goal with
    | |- context [modified_loop row rest (Some ?d) ?cl rep0] =>
        destruct (IH (Some d) cl rep0) as (k & -> & Hk)
    end.
    unfold rep0. destruct (truthy_opt_str d0).
    + exists (S k). split; [|destruct (truthy_opt_str _); lia].
      unfold add_warnings, report_warning. simpl. by rewrite <- app_assoc.
    + exists k. split; [done|destruct (truthy_opt_str _); lia].
Qed.

(** X7: whatever the row, the only warnings the parser itself reports are
    those about several downstream entities, each with the row as context
    and no exception; there are fewer of them than the row has modified
    objects, so a row with at most one modified object is parsed (or
    rejected) without any. *)
Theorem parser_reports_only_multiple_downstream row :
  ∃ k,
    parser_warnings row
    = repeat (mk_warning multiple_downstream_message row None) k
    ∧ (k = 0%nat
       ∨ ∃ modified,
           bindR (row_field row "objects_modified") py_iter = Return modified
           ∧ (k < length modified)%nat).
Proof.
  unfold parser_warnings, _parse_audit_log_row.
  assert (Hnone : ∀ e : exn, ∃ k,
            warnings (fst (empty_report, @Raise PreparsedQuery e))
            = repeat (mk_warning multiple_downstream_message row None) k
            ∧ (k = 0%nat
               ∨ ∃ modified,
                   bindR (row_field row "objects_modified") py_iter
                   = Return modified
                   ∧ (k < length modified)%nat)).
  { intros e. exists 0%nat. split; [reflexivity|by left]. }
  rewrite bindM_lift.
  destruct (normalize_row row ∅) as [res|e] eqn:Hres; [|apply Hnone].
  rewrite bindM_lift.
  destruct (dict_getitem res "direct_objects_accessed") as [doa|e];
    [|apply Hnone].
  rewrite bindM_lift.
  destruct (dict_getitem res "objects_modified") as [om|e] eqn:Hom0;
    [|apply Hnone].
  rewrite bindM_lift. destruct (py_iter doa) as [accessed|e]; [|apply Hnone].
  rewrite bindM_lift.
  destruct (accessed_loop accessed [] ∅) as [[ups cu]|e]; [|apply Hnone].
  rewrite bindM_lift. destruct (py_iter om) as [modified|e] eqn:Hom;
    [|apply Hnone].
  assert (Hfield : bindR (row_field row "objects_modified") py_iter
                   = Return modified).
  { unfold row_field. rewrite Hres. simpl. rewrite Hom0. simpl. exact Hom. }
  clear Hnone. unfold bindM at 1.
  destruct (modified_loop_warnings row modified None None empty_report)
    as (k & Hfst & Hk).
  destruct (modified_loop row modified None None empty_report)
    as [rep1 outcome].
  simpl in Hfst. subst rep1.
  assert (Hdone : ∀ r : result PreparsedQuery, ∃ k0,
            warnings
              (fst (add_warnings empty_report
                      (repeat (mk_warning multiple_downstream_message row None) k),
                    r))
            = repeat (mk_warning multiple_downstream_message row None) k0
            ∧ (k0 = 0%nat
               ∨ ∃ modified0,
                   bindR (row_field row "objects_modified") py_iter
                   = Return modified0
                   ∧ (k0 < length modified0)%nat)).
  { intros r. exists k. split; [reflexivity|].
    destruct k; [by left|]. right. exists modified. simpl in Hk.
    split; [done|lia]. }
  destruct outcome as [[d cl]|e]; [|apply Hdone].
  repeat (rewrite bindM_lift;
          match goal with
          | |- context [match ?m with Return _ => _ | Raise _ => _ end] =>
              destruct m; [|apply Hdone]
          end).
  apply Hdone.
Qed.

(** X8: a text label always classifies, and it classifies as [UNKNOWN]
    exactly when it is not one of the eight labels the mapping sends
    elsewhere; [COPY] and [TRUNCATE_TABLE] are treated like any unlisted
    label. *)
Theorem query_type_unknown_unless_listed label :
  ∃ q, query_type_get (PyStr label) = Return q
       ∧ (q = QueryType.UNKNOWN ↔ label ∉ classified_labels).
Proof.
  unfold query_type_get, classified_labels, SNOWFLAKE_QUERY_TYPE_MAPPING.
  cbn [mapping_lookup].
  repeat match goal with
  | |- context [String.eqb ?a label] =>
      destruct (String.eqb_spec a label) as [<-|?]
  end; simpl; eexists; (split; [reflexivity|]); split.
  all: first
    [ discriminate
    | intros _; reflexivity
    | intros _; apply (bool_decide_unpack _); vm_compute; exact I
    | intros Hnotin; exfalso; apply Hnotin;
      apply (bool_decide_unpack _); vm_compute; exact I
    | intros _; rewrite !not_elem_of_cons; split_and!;
      first [ congruence | apply not_elem_of_nil ] ].
Qed.

End ParserExtras.

(** * Further properties of the extraction driver *)

Section DriverExtras.
Context {mixin : SnowflakeIdentifierMixin} {consts : SnowflakeQuery}
        {runtime : Runtime} {aggregator : SqlParsingAggregator}.

(** X9: every row of the cursor ends up as exactly one record or as exactly
    one warning that carries an exception, so the records yielded and those
    warnings together number as many as the rows. *)
Theorem fetch_rows_accounts_for_every_row resp rep :
  ∃ ws,
    fst (fetch_rows resp rep) = add_warnings rep ws
    ∧ (length (snd (fetch_rows resp rep))
       + length (List.filter (fun w => bool_decide (is_Some (w_exc w))) ws)
       = length resp)%nat.
Proof.
  rewrite fetch_rows_flat_map. exists (flat_map row_warnings resp).
  split; [reflexivity|]. simpl.
  induction resp as [|row rest IH]; simpl; [done|].
  rewrite List.filter_app, !length_app. unfold row_warnings at 1.
  rewrite List.filter_app, length_app.
  rewrite (filter_exception_free _ (exception_free_parser_warnings row)).
  unfold row_entries at 1. destruct (parse_outcome row); simpl; lia.
Qed.

(** X10: reading the cursor in two stretches, the second starting from the
    report the first left, yields the same records in the same order and
    the same report as reading it in one go. *)
Theorem fetch_rows_app first second rep :
  fetch_rows (first ++ second) rep
  = (fst (fetch_rows second (fst (fetch_rows first rep))),
     snd (fetch_rows first rep)
     ++ snd (fetch_rows second (fst (fetch_rows first rep)))).
Proof.
  rewrite !fetch_rows_flat_map. simpl.
  by rewrite !flat_map_app, add_warnings_app.
Qed.

Lemma fetch_rows_logged_spec resp :
  ∀ i rep log,
    fetch_rows_logged i resp rep log
    = (fst (fetch_rows resp rep),
       log ++ map progress_message
                (List.filter (fun j => Nat.eqb (j mod 1000) 0)
                   (seq i (length resp))),
       snd (fetch_rows resp rep)).
Proof.
  induction resp as [|row rest IH]; intros i rep log;
    cbn [fetch_rows_logged fetch_rows length seq List.filter].
  - cbn [map fst snd]. by rewrite app_nil_r.
  - destruct (Nat.eqb (i mod 1000) 0); cbn [map];
      destruct (_parse_audit_log_row row rep) as [rep' [entry|e]];
      rewrite IH; try destruct (fetch_rows rest rep') as [rep'' entries];
      cbn [fst snd]; by rewrite <- ?app_assoc.
Qed.

Lemma multiples_below (n : nat) :
  length (List.filter (fun j => Nat.eqb (j mod 1000) 0) (seq 0 n))
  = ((n + 999) / 1000)%nat.
Proof.
  induction n as [|n IH]; [reflexivity|].
  rewrite seq_S, List.filter_app, length_app, IH.
  cbn [List.filter Nat.add length].
  set (q := (n / 1000)%nat). set (r := (n mod 1000)%nat).
  assert (Hn : n = (1000 * q + r)%nat) by apply Nat.div_mod_eq.
  assert (Hr : (r < 1000)%nat) by (apply Nat.mod_upper_bound; lia).
  assert (E1 : ((n + 999) / 1000
                = q + (if Nat.eqb r 0 then 0 else 1))%nat).
  { symmetry. destruct (Nat.eqb_spec r 0);
      [ apply Nat.div_unique with (r := 999%nat)
      | apply Nat.div_unique with (r := (r - 1)%nat) ]; lia. }
  assert (E2 : (S (n + 999) / 1000 = q + 1)%nat).
  { symmetry. apply Nat.div_unique with (r := r); lia. }
  replace ((S n + 999) / 1000)%nat with (S (n + 999) / 1000)%nat
    by reflexivity.
  rewrite E1, E2. destruct (Nat.eqb_spec r 0); cbn [length]; lia.
Qed.

(** X11: the progress lines do not change what [fetch_audit_log] yields or
    reports; one line is logged before each row whose index is a multiple
    of 1000, that is [ceil(n / 1000)] lines for [n] rows, the first of them
    before the first row. *)
Theorem fetch_rows_logs_every_thousand resp rep :
  ∃ log,
    fetch_rows_logged 0 resp rep []
    = (fst (fetch_rows resp rep), log, snd (fetch_rows resp rep))
    ∧ log = map progress_message
              (List.filter (fun j => Nat.eqb (j mod 1000) 0)
                 (seq 0 (length resp)))
    ∧ length log = ((length resp + 999) / 1000)%nat.
Proof.
  eexists. split; [apply fetch_rows_logged_spec|].
  split; [reflexivity|]. simpl. by rewrite length_map, multiples_below.
Qed.

(** [fetch_audit_log] run to the end. *)
Lemma fetch_audit_log_run {connection : SnowflakeConnection} config rep :
  ∃ audit_log_query,
    _build_enriched_audit_log_query
      (window_start_time (window config)) (window_end_time (window config))
      (window_bucket_duration (window config)) (Some (deny_usernames config))
    = Return audit_log_query
    ∧ fetch_audit_log config rep
      = (add_warnings rep
           (flat_map row_warnings (connection_query audit_log_query)),
         Return (flat_map row_entries (connection_query audit_log_query))).
Proof.
  unfold fetch_audit_log, _build_enriched_audit_log_query.
  destruct (window_bucket_duration (window config)); simpl BucketDuration.value.
  all: rewrite bool_decide_eq_true_2 by (rewrite !elem_of_cons; tauto).
  all: eexists; split; [reflexivity|]; simpl.
  all: by rewrite bindM_lift, fetch_rows_flat_map.
Qed.

(** X12: [get_workunits_internal] records the window and resolves the local
    temp path before anything else. When the configured path is not a
    directory it raises [AssertionError] there: nothing is fetched or
    reported, nothing is added to the aggregator and no audit log file is
    left. When no path is configured, or the configured path is a
    directory, and no audit log is cached, it does not fail: it adds to the
    aggregator exactly the records of the rows that parse, in cursor order,
    leaves the same records in the audit log file, and reports what the
    rows' parsing reports. *)
Theorem get_workunits_fetches_when_not_cached
    {connection : SnowflakeConnection} config st :
  st_audit_log st = None ->
  (∀ path,
     config_local_temp_path config = Some path ->
     is_dir path = false ->
     get_workunits_internal config st
     = (mk_state (st_report st) (Some (window config)) None (st_aggregator st),
        Raise AssertionError))
  ∧ ((∀ path, config_local_temp_path config = Some path -> is_dir path = true) ->
     ∃ audit_log_query,
       _build_enriched_audit_log_query
         (window_start_time (window config)) (window_end_time (window config))
         (window_bucket_duration (window config))
         (Some (deny_usernames config))
       = Return audit_log_query
       ∧ let resp := connection_query audit_log_query in
         let queries := flat_map row_entries resp in
         get_workunits_internal config st
         = (mk_state
              (add_warnings (st_report st) (flat_map row_warnings resp))
              (Some (window config)) (Some queries)
              (st_aggregator st ++ queries),
            Return (gen_workunits (st_aggregator st ++ queries)))).
Proof.
  intros Hnone. split.
  - intros path Hpath Hdir.
    unfold get_workunits_internal, local_temp_path.
    by rewrite Hpath, Hdir, Hnone.
  - intros Hdir.
    destruct (fetch_audit_log_run config (st_report st))
      as (sql & Hsql & Hfetch).
    exists sql. split; [exact Hsql|]. simpl.
    unfold get_workunits_internal, local_temp_path.
    destruct (config_local_temp_path config) as [path|].
    + by rewrite (Hdir path eq_refl), Hnone, Hfetch.
    + by rewrite Hnone, Hfetch.
Qed.

(** X13: a second run that finds the audit log of a first run replays it:
    with a fresh aggregator it yields the work units of the first run, adds
    the same records, reports nothing, and does so whatever the warehouse
    connection would answer. *)
Theorem get_workunits_replays_cached_audit_log
    (first_connection second_connection : SnowflakeConnection)
    config st st' :
  st_audit_log st = None ->
  st_aggregator st = [] ->
  st_audit_log st'
  = st_audit_log
      (fst (@get_workunits_internal mixin consts runtime first_connection
              aggregator config st)) ->
  st_aggregator st' = [] ->
  let first_run :=
    @get_workunits_internal mixin consts runtime first_connection aggregator
      config st in
  let second_run :=
    @get_workunits_internal mixin consts runtime second_connection aggregator
      config st' in
  snd second_run = snd first_run
  ∧ st_aggregator (fst second_run) = st_aggregator (fst first_run)
  ∧ st_audit_log (fst second_run) = st_audit_log (fst first_run)
  ∧ st_report (fst second_run) = st_report st'.
Proof.
  intros Hnone Hfresh Hlog Hfresh' first_run second_run.
  destruct (local_temp_path config) as [path|e] eqn:Hpath.
  2:{ unfold first_run, second_run, get_workunits_internal in *.
      rewrite Hpath in *. simpl in *. by rewrite Hfresh, Hfresh'. }
  destruct (@fetch_audit_log_run first_connection config (st_report st))
    as (sql & _ & Hfetch).
  assert (Hfirst :
    @get_workunits_internal mixin consts runtime first_connection aggregator
      config st
    = (mk_state
         (add_warnings (st_report st)
            (flat_map row_warnings (@connection_query first_connection sql)))
         (Some (window config))
         (Some (flat_map row_entries (@connection_query first_connection sql)))
         (st_aggregator st
          ++ flat_map row_entries (@connection_query first_connection sql)),
       Return (gen_workunits
                 (st_aggregator st
                  ++ flat_map row_entries
                       (@connection_query first_connection sql))))).
  { unfold get_workunits_internal. by rewrite Hpath, Hnone, Hfetch. }
  unfold first_run, second_run in *.
  rewrite Hfirst in *. simpl in Hlog.
  unfold get_workunits_internal at 1 2 3 4.
  rewrite Hpath, Hlog, Hfresh, Hfresh'.
  simpl. done.
Qed.

End DriverExtras.

(** * Further properties of the enriched audit query *)

Section AuditQueryExtras.
Context {consts : SnowflakeQuery} {warehouse : Warehouse} {runtime : Runtime}.
Import AuditQuery.

Lemma filter_all {A} (f : A -> bool) (l : list A) :
  List.forallb f l = true -> List.filter f l = l.
Proof.
  induction l as [|x l IH]; simpl; [done|].
  intros Hall. apply andb_prop in Hall as [-> Hall]. by rewrite IH.
Qed.

Lemma filter_filter_implied {A} (f g : A -> bool) (l : list A) :
  (∀ x, f x = true -> g x = true) ->
  List.filter f (List.filter g l) = List.filter f l.
Proof.
  intros Himp. induction l as [|x l IH]; simpl; [done|].
  destruct (g x) eqn:Hg; simpl; rewrite IH; [done|].
  destruct (f x) eqn:Hf; [|done]. apply Himp in Hf. congruence.
Qed.

Lemma filter_nil_existsb {A} (f : A -> bool) (l : list A) :
  Nat.eqb (length (List.filter f l)) 0 = negb (existsb f l).
Proof.
  induction l as [|x l IH]; simpl; [done|]. by destruct (f x).
Qed.

(** Deduplication looks at one partition at a time: keeping the rows whose
    partition satisfies [Q] commutes with it. *)
Lemma deduplicate_restrict bucket (Q : Z * string -> bool) after :
  ∀ before,
    List.filter (fun d => Q (partition_key bucket (dq_query d)))
      (deduplicate bucket before after)
    = deduplicate bucket
        (List.filter (fun r => Q (partition_key bucket r)) before)
        (List.filter (fun r => Q (partition_key bucket r)) after).
Proof.
  induction after as [|r rest IH]; intros before; [reflexivity|].
  rewrite deduplicate_cons, List.filter_app, IH, List.filter_app.
  cbn [List.filter].
  destruct (Q (partition_key bucket r)) eqn:HQ.
  - rewrite deduplicate_cons. f_equal. cbv zeta.
    assert (Himp : ∀ x, in_partition bucket (partition_key bucket r) x = true ->
                        Q (partition_key bucket x) = true).
    { intros x Hx. apply in_partition_key in Hx. by rewrite Hx. }
    rewrite !(filter_filter_implied _ _ _ Himp).
    match goal with
    | |- List.filter _ (if ?c then _ else _) = _ => destruct c
    end; simpl; [|done]. by rewrite HQ.
  - rewrite app_nil_r. simpl.
    match goal with
    | |- List.filter _ (if ?c then _ else _) ++ _ = _ => destruct c
    end; simpl; [|done]. by rewrite HQ.
Qed.

Lemma first_latest_latest rows w :
  first_latest rows = Some w ->
  In w rows ∧ ∀ r, In r rows -> fq_start_time r <= fq_start_time w.
Proof.
  revert w. induction rows as [|r rest IH]; simpl; intros w Hw; [discriminate|].
  destruct (first_latest rest) as [w'|] eqn:Hrest.
  - destruct (IH w' eq_refl) as [Hin Hmax].
    destruct (fq_start_time r <? fq_start_time w') eqn:Hlt;
      injection Hw as <-.
    + split; [by right|]. intros x [<-|Hx]; [lia|by apply Hmax].
    + split; [by left|]. intros x [<-|Hx]; [lia|].
      specialize (Hmax x Hx). lia.
  - injection Hw as <-. split; [by left|].
    destruct rest; [|simpl in Hrest; destruct (first_latest rest);
                      [destruct (_ <? _)|]; discriminate].
    intros x [<-|[]]. lia.
Qed.

Lemma first_latest_None rows : first_latest rows = None ↔ rows = [].
Proof.
  destruct rows as [|r rest]; simpl; [done|].
  destruct (first_latest rest); [destruct (_ <? _)|]; done.
Qed.

(** All rows in one partition: the first of the latest is kept, unless a
    row scanned before started at least as late. *)
Lemma deduplicate_one_partition bucket key rows :
  ∀ before,
    List.forallb (in_partition bucket key) before = true ->
    List.forallb (in_partition bucket key) rows = true ->
    deduplicate bucket before rows
    = match first_latest rows with
      | None => []
      | Some w =>
          if existsb (fun b => fq_start_time w <=? fq_start_time b) before
          then []
          else [mk_deduplicated_row w (fst key)
                  (length before + length rows)]
      end.
Proof.
  induction rows as [|r rest IH]; intros before Hbefore Hrows; [reflexivity|].
  cbn [List.forallb] in Hrows. apply andb_prop in Hrows as [Hr Hrest].
  pose proof (in_partition_key _ _ _ Hr) as Hkey.
  rewrite deduplicate_cons. cbv zeta. rewrite Hkey.
  rewrite (filter_all _ _ Hbefore), (filter_all _ _ Hrest).
  assert (Hbucket : bucket_of bucket r = fst key) by (by rewrite <- Hkey).
  rewrite Hbucket.
  rewrite IH; [|by rewrite forallb_app; simpl; rewrite Hbefore, Hr|done].
  rewrite length_app. cbn [length first_latest].
  replace (Nat.eqb
             (1 + length (List.filter
                            (fun r' => fq_start_time r <=? fq_start_time r')
                            before)
                + length (List.filter
                            (fun r' => fq_start_time r <? fq_start_time r')
                            rest)) 1)
    with (negb (existsb (fun b => fq_start_time r <=? fq_start_time b) before)
          && negb (existsb (fun r' => fq_start_time r <? fq_start_time r') rest))%bool.
  2:{ rewrite <- !filter_nil_existsb.
      destruct (length (List.filter _ before)), (length (List.filter _ rest));
        reflexivity. }
  destruct (first_latest rest) as [w|] eqn:Hw.
  - destruct (first_latest_latest _ _ Hw) as [Hin Hmax].
    rewrite existsb_app. cbn [existsb]. rewrite orb_false_r.
    destruct (fq_start_time r <? fq_start_time w) eqn:Hlt.
    + assert (Hlater : existsb (fun r' => fq_start_time r <? fq_start_time r')
                         rest = true).
      { apply existsb_exists. exists w. split; [exact Hin|exact Hlt]. }
      rewrite Hlater, andb_false_r. simpl.
      assert (Hle : (fq_start_time w <=? fq_start_time r) = false) by lia.
      rewrite Hle, orb_false_r.
      replace (length before + 1 + length rest)%nat
        with (length before + S (length rest))%nat by lia.
      done.
    + assert (Hlater : existsb (fun r' => fq_start_time r <? fq_start_time r')
                         rest = false).
      { apply not_true_is_false. intros Hex.
        apply existsb_exists in Hex as (x & Hx & Hxlt).
        specialize (Hmax x Hx). lia. }
      rewrite Hlater, andb_true_r.
      assert (Hle : (fq_start_time w <=? fq_start_time r) = true) by lia.
      rewrite Hle, orb_true_r, app_nil_r.
      destruct (existsb _ before); simpl; [done|].
      do 2 f_equal; lia.
  - apply first_latest_None in Hw. subst rest. simpl.
    rewrite andb_true_r, app_nil_r.
    destruct (existsb _ before); simpl; [done|]. do 2 f_equal; lia.
Qed.

(** The rows of one partition that [deduplicated_queries] keeps. *)
Lemma deduplicated_queries_partition bucket fingerprinted key :
  List.filter (fun d => in_partition bucket key (dq_query d))
    (deduplicated_queries bucket fingerprinted)
  = match first_latest (List.filter (in_partition bucket key) fingerprinted) with
    | Some w =>
        [mk_deduplicated_row w (fst key)
           (length (List.filter (in_partition bucket key) fingerprinted))]
    | None => []
    end.
Proof.
  assert (Hrestrict :
    List.filter (fun d => in_partition bucket key (dq_query d))
      (deduplicated_queries bucket fingerprinted)
    = deduplicate bucket [] (List.filter (in_partition bucket key) fingerprinted))
    by exact (deduplicate_restrict bucket (fun k => bool_decide (k = key))
                fingerprinted []).
  rewrite Hrestrict.
  rewrite (deduplicate_one_partition bucket key); [done|done|].
  apply forallb_forall. intros x Hx. by apply filter_In in Hx as [_ Hx].
Qed.

(** X14: whatever rows [deduplicated_queries] is given, each bucket and
    fingerprint that occurs among them is represented by exactly one row,
    no other by any: that row is the first, in scan order, of the rows of
    the partition with the latest start time, its [query_count] is the size
    of the partition, and its [bucket_start_time] is the bucket. *)
Theorem deduplicated_queries_one_per_partition bucket fingerprinted key :
  let partition := List.filter (in_partition bucket key) fingerprinted in
  List.filter (fun d => in_partition bucket key (dq_query d))
    (deduplicated_queries bucket fingerprinted)
  = match first_latest partition with
    | Some w => [mk_deduplicated_row w (fst key) (length partition)]
    | None => []
    end
  ∧ (first_latest partition = None ↔ partition = [])
  ∧ (∀ w, first_latest partition = Some w ->
          In w partition
          ∧ ∀ r, In r partition -> fq_start_time r <= fq_start_time w).
Proof.
  intros partition. split; [|split].
  - apply deduplicated_queries_partition.
  - apply first_latest_None.
  - apply first_latest_latest.
Qed.

Lemma list_sum_filter_split {A} (f : A -> bool) (g : A -> nat) (l : list A) :
  list_sum (map g l)
  = (list_sum (map g (List.filter f l))
     + list_sum (map g (List.filter (fun x => negb (f x)) l)))%nat.
Proof.
  induction l as [|x l IH]; simpl; [done|].
  destruct (f x); simpl; lia.
Qed.

(** X15: the [query_count]s of [deduplicated_queries] add up to the number
    of rows it was given: every query is counted, and counted once. *)
Theorem deduplicated_queries_count_every_query bucket fingerprinted :
  total_query_count (deduplicated_queries bucket fingerprinted)
  = length fingerprinted.
Proof.
  remember (length fingerprinted) as n eqn:Hn.
  revert fingerprinted Hn.
  induction n as [n IH] using lt_wf_ind. intros fq Hn.
  destruct fq as [|r0 rest]; [by subst|].
  set (fq := r0 :: rest) in *.
  set (key := partition_key bucket r0).
  unfold total_query_count.
  rewrite (list_sum_filter_split
             (fun d => in_partition bucket key (dq_query d))).
  rewrite (deduplicated_queries_partition bucket fq key).
  assert (Hr0 : in_partition bucket key r0 = true).
  { unfold in_partition, key. by apply bool_decide_eq_true. }
  destruct (first_latest (List.filter (in_partition bucket key) fq))
    as [w|] eqn:Hw.
  2:{ apply first_latest_None in Hw. unfold fq in Hw. simpl in Hw.
      rewrite Hr0 in Hw. discriminate. }
  cbn [map list_sum dq_query_count].
  assert (Hrestrict :
    List.filter (fun d => negb (in_partition bucket key (dq_query d)))
      (deduplicated_queries bucket fq)
    = deduplicated_queries bucket
        (List.filter (fun r => negb (in_partition bucket key r)) fq))
    by exact (deduplicate_restrict bucket
                (fun k => negb (bool_decide (k = key))) fq []).
  rewrite Hrestrict.
  pose proof (List.filter_length (in_partition bucket key) fq) as Hlen.
  fold (total_query_count
          (deduplicated_queries bucket
             (List.filter (fun r => negb (in_partition bucket key r)) fq))).
  rewrite (IH (length (List.filter
                         (fun r => negb (in_partition bucket key r)) fq)));
    [unfold list_sum; cbn [fold_right]; lia| |reflexivity].
  assert (Hpos : (0 < length (List.filter (in_partition bucket key) fq))%nat).
  { unfold fq. simpl. rewrite Hr0. simpl. lia. }
  lia.
Qed.

(** ** What reaches the result *)

Lemma deduplicate_from_input bucket after :
  ∀ before q,
    In q (deduplicate bucket before after) ->
    In (dq_query q) after ∧ (1 <= dq_query_count q)%nat.
Proof.
  induction after as [|r rest IH]; intros before q Hin; [destruct Hin|].
  rewrite deduplicate_cons in Hin. apply in_app_or in Hin as [Hin|Hin].
  - cbv zeta in Hin.
    match type of Hin with In _ (if ?c then _ else _) => destruct c end;
      [|destruct Hin].
    destruct Hin as [<-|[]]. simpl. split; [by left|lia].
  - destruct (IH _ _ Hin) as [Hq Hcount]. split; [by right|done].
Qed.

Lemma filter_table_view_domain (l : list pyval) :
  Forall (fun o => table_view_domain o = true) (List.filter table_view_domain l).
Proof.
  apply List.Forall_forall. intros o Hin. by apply filter_In in Hin as [_ Ho].
Qed.

Lemma Forall_firstn {A} (P : A -> Prop) (n : nat) (l : list A) :
  Forall P l -> Forall P (firstn n l).
Proof.
  intros Hall. revert n. induction Hall as [|x l Hx _ IH]; intros [|n]; simpl;
    constructor; auto.
Qed.

(** X16: for a denylist whose upper-cased entries hold neither a single
    quote nor a backslash, every row the query returns stems from a
    successful query of [query_history] that started inside the window and
    whose user passes the user filter, joined on the query id with an
    [access_history] row that lies inside the window and passes the user
    filter too; its start time is that of the query, its bucket the
    truncation of that start time, its [query_count] is at least 1, and
    every object left in its two arrays is of a table-or-view domain. *)
Theorem audit_query_rows_are_qualified
    start_time end_time bucket deny qh ah :
  plain_denylist deny = true ->
  let start_millis := timestamp_millis start_time in
  let end_millis := timestamp_millis end_time in
  Forall
    (fun out =>
       (∃ h a,
          In h qh ∧ In a ah
          ∧ QUERY_ID out = qh_query_id h
          ∧ ah_query_id a = qh_query_id h
          ∧ qh_execution_status h = "SUCCESS"
          ∧ users_filter deny (qh_user_name h) = true
          ∧ users_filter deny (ah_user_name a) = true
          ∧ start_millis <= ah_query_start_time a < end_millis
          ∧ QUERY_START_TIME out = qh_start_time h
          ∧ QUERY_FINGERPRINT out = qh_query_parameterized_hash h
          ∧ USER_NAME out = qh_user_name h)
       ∧ start_millis <= QUERY_START_TIME out < end_millis
       ∧ BUCKET_START_TIME out = date_trunc_utc bucket (QUERY_START_TIME out)
       ∧ (1 <= QUERY_COUNT out)%nat
       ∧ Forall (fun o => table_view_domain o = true)
           (DIRECT_OBJECTS_ACCESSED out)
       ∧ Forall (fun o => table_view_domain o = true) (OBJECTS_MODIFIED out))
    (run_enriched_audit_log_query start_time end_time bucket deny qh ah).
Proof.
  intros _ start_millis end_millis. apply List.Forall_forall. intros out Hin.
  unfold run_enriched_audit_log_query, enriched_audit_log,
    query_access_history, filtered_access_history, raw_access_history in Hin.
  fold start_millis end_millis in Hin.
  apply in_flat_map in Hin as (q & Hq & Hin).
  apply in_map_iff in Hin as (fa & <- & Hfa).
  apply filter_In in Hfa as [Hfa Hid].
  apply in_map_iff in Hfa as (a & <- & Ha).
  apply filter_In in Ha as [Ha _].
  apply filter_In in Ha as [Ha Hkeep].
  apply String.eqb_eq in Hid. simpl in Hid.
  apply andb_prop in Hkeep as [Hkeep _].
  apply andb_prop in Hkeep as [Hwin Huser].
  pose proof (deduplicate_bucket _ _ _ _ Hq) as Hbucket.
  apply deduplicate_from_input in Hq as [Hq Hcount].
  unfold fingerprinted_queries in Hq.
  apply in_map_iff in Hq as (h & Hh & Hin).
  apply filter_In in Hin as [Hin Hpass].
  apply andb_prop in Hpass as [Hpass Huser'].
  apply andb_prop in Hpass as [Hwin' Hstatus].
  apply String.eqb_eq in Hstatus.
  unfold in_window in Hwin, Hwin'.
  unfold dq_query_id in Hid. rewrite <- Hh in Hid, Hbucket. simpl in Hid.
  simpl. rewrite <- Hh. simpl.
  split_and!; try done; try lia.
  - exists h, a. split_and!; try done; lia.
  - unfold array_slice_from_0. apply Forall_firstn, filter_table_view_domain.
  - apply filter_table_view_domain.
Qed.

(** X17: with no denylist, or an empty one, the builder writes the
    always-true predicate in both subqueries, the two texts are the same,
    and no query is excluded for its user: [fingerprinted_queries] keeps
    every successful query of the window. *)
Theorem empty_denylist_filters_nobody start_time end_time bucket :
  let start_millis := timestamp_millis start_time in
  let end_millis := timestamp_millis end_time in
  _build_enriched_audit_log_query start_time end_time bucket None
  = Return (unlines (audit_query_lines start_millis end_millis ""
                       (BucketDuration.value bucket)))
  ∧ _build_enriched_audit_log_query start_time end_time bucket (Some [])
    = _build_enriched_audit_log_query start_time end_time bucket None
  ∧ In "        AND TRUE" (fingerprinted_queries_sql start_millis end_millis "")
  ∧ In "        AND TRUE" (raw_access_history_sql start_millis end_millis "")
  ∧ (∀ qh ah,
       run_enriched_audit_log_query start_time end_time bucket (Some []) qh ah
       = run_enriched_audit_log_query start_time end_time bucket None qh ah)
  ∧ (∀ qh h,
       In h qh ->
       start_millis <= qh_start_time h < end_millis ->
       qh_execution_status h = "SUCCESS" ->
       In (mk_fingerprinted_row h (qh_query_parameterized_hash h))
          (fingerprinted_queries start_millis end_millis None qh)).
Proof.
  intros start_millis end_millis. split_and!.
  - unfold _build_enriched_audit_log_query.
    rewrite bool_decide_eq_true_2; [reflexivity|].
    destruct bucket; simpl; rewrite !elem_of_cons; tauto.
  - reflexivity.
  - simpl. tauto.
  - simpl. tauto.
  - reflexivity.
  - intros qh h Hin Hwin Hstatus. unfold fingerprinted_queries.
    apply in_map_iff. exists h. split; [reflexivity|].
    apply filter_In. split; [done|].
    unfold in_window, users_filter. rewrite Hstatus. simpl.
    rewrite andb_true_r. apply andb_true_intro. split; lia.
Qed.

(** X18: a window whose end, in the milliseconds the builder computes, is
    no later than its start selects nothing, for a denylist whose
    upper-cased entries hold neither a single quote nor a backslash. *)
Theorem empty_window_returns_nothing start_time end_time bucket deny qh ah :
  plain_denylist deny = true ->
  timestamp_millis end_time <= timestamp_millis start_time ->
  run_enriched_audit_log_query start_time end_time bucket deny qh ah = [].
Proof.
  intros _ Hempty.
  unfold run_enriched_audit_log_query, enriched_audit_log.
  assert (Hnone : fingerprinted_queries (timestamp_millis start_time)
                    (timestamp_millis end_time) deny qh = []).
  { unfold fingerprinted_queries.
    assert (Hfilter : ∀ l : list query_history_row,
              List.filter
                (fun r => in_window (timestamp_millis start_time)
                            (timestamp_millis end_time) (qh_start_time r)
                          && String.eqb (qh_execution_status r) "SUCCESS"
                          && users_filter deny (qh_user_name r)) l = []).
    { induction l as [|r l IH]; simpl; [done|].
      assert (Hout : in_window (timestamp_millis start_time)
                       (timestamp_millis end_time) (qh_start_time r) = false).
      { unfold in_window. apply andb_false_iff. lia. }
      by rewrite Hout. }
    by rewrite Hfilter. }
  rewrite Hnone. reflexivity.
Qed.

Lemma ascii_upper_idempotent c : ascii_upper (ascii_upper c) = ascii_upper c.
Proof.
  destruct c as [[] [] [] [] [] [] [] []]; vm_compute; reflexivity.
Qed.

Lemma upper_idempotent s : upper (upper s) = upper s.
Proof.
  induction s as [|c s IH]; simpl; [done|].
  by rewrite ascii_upper_idempotent, IH.
Qed.

Lemma ascii_upper_is_ascii c :
  Nat.ltb (nat_of_ascii c) 128 = true ->
  Nat.ltb (nat_of_ascii (ascii_upper c)) 128 = true.
Proof.
  destruct c as [[] [] [] [] [] [] [] []]; vm_compute; congruence.
Qed.

Lemma upper_is_ascii s : is_ascii s = true -> is_ascii (upper s) = true.
Proof.
  induction s as [|c s IH]; simpl; [done|].
  intros Hs. apply andb_prop in Hs as [Hc Hs].
  by rewrite (ascii_upper_is_ascii c Hc), IH.
Qed.

(** [str.upper()] leaves ASCII text in upper case as it is. *)
Lemma str_upper_upper s :
  is_ascii s = true -> str_upper (upper s) = str_upper s.
Proof.
  intros Hs.
  rewrite (str_upper_ascii (upper s)) by by apply upper_is_ascii.
  by rewrite (str_upper_ascii s Hs), upper_idempotent.
Qed.

(** X19: a denylist of ASCII entries, none with a single quote or a
    backslash, only matters through its entries in upper case: writing the
    letters of the entries in upper case beforehand changes neither the
    text the builder returns nor the rows the query selects. *)
Theorem denylist_spelling_is_irrelevant
    start_time end_time bucket users qh ah :
  Forall (fun u => is_ascii u = true) users ->
  plain_denylist (Some users) = true ->
  _build_enriched_audit_log_query start_time end_time bucket
    (Some (map upper users))
  = _build_enriched_audit_log_query start_time end_time bucket (Some users)
  ∧ run_enriched_audit_log_query start_time end_time bucket
      (Some (map upper users)) qh ah
    = run_enriched_audit_log_query start_time end_time bucket (Some users) qh ah.
Proof.
  intros Hascii _.
  assert (Hmap : map str_upper (map upper users) = map str_upper users).
  { rewrite List.map_map. induction Hascii as [|u us Hu _ IH]; simpl; [done|].
    by rewrite (str_upper_upper u Hu), IH. }
  assert (Hfilter : ∀ name,
            users_filter (Some (map upper users)) name
            = users_filter (Some users) name).
  { intros name. unfold users_filter.
    destruct users as [|u us]; [reflexivity|].
    change (map upper (u :: us)) with (upper u :: map upper us) at 1.
    change (upper u :: map upper us) with (map upper (u :: us)).
    by rewrite Hmap. }
  split.
  - unfold _build_enriched_audit_log_query. do 2 f_equal.
    unfold users_filter_clause.
    destruct users as [|u us]; [reflexivity|].
    change (map upper (u :: us)) with (upper u :: map upper us) at 1.
    cbv zeta. do 3 f_equal.
    rewrite <- !(List.map_map str_upper (fun u => "'" +:+ u +:+ "'")).
    change (upper u :: map upper us) with (map upper (u :: us)).
    by rewrite Hmap.
  - unfold run_enriched_audit_log_query, enriched_audit_log.
    assert (Hfq : fingerprinted_queries (timestamp_millis start_time)
                    (timestamp_millis end_time) (Some (map upper users)) qh
                  = fingerprinted_queries (timestamp_millis start_time)
                      (timestamp_millis end_time) (Some users) qh).
    { unfold fingerprinted_queries. f_equal. apply List.filter_ext.
      intros r. by rewrite Hfilter. }
    rewrite Hfq. cbv zeta. f_equal. f_equal.
    unfold raw_access_history. apply List.filter_ext.
    intros a. by rewrite Hfilter.
Qed.

End AuditQueryExtras.

(** * The further properties on sample data *)

Section ExtrasWitnesses.
#[local] Existing Instance Sample.identifiers.
#[local] Existing Instance Sample.domains.
#[local] Existing Instance Sample.runtime.
#[local] Existing Instance Sample.warehouse.
#[local] Existing Instance Sample.aggregator.
Import AuditQuery Sample.

Lemma parse_no_modified_object_witness :
  well_formed_row row_twice [table_s; table_s] []
  ∧ ∃ entry,
      _parse_audit_log_row row_twice empty_report = (empty_report, Return entry)
      ∧ downstream entry = None
      ∧ column_lineage entry = None
      ∧ Forall2 (fun obj urn => resolved_identifier obj = Return urn)
          [table_s; table_s] (upstreams entry)
      ∧ dom (column_usage entry) = list_to_set (upstreams entry).
Proof.
  assert (Hwf : well_formed_row row_twice [table_s; table_s] []).
  { unfold well_formed_row. split_and!; vm_compute; reflexivity. }
  exact (conj Hwf (parse_no_modified_object row_twice empty_report
                     [table_s; table_s] Hwf)).
Defined.

Lemma column_usage_follows_upstreams_witness :
  _parse_audit_log_row row_stage empty_report = (empty_report, Return entry_stage)
  ∧ ∃ accessed,
      bindR (row_field row_stage "direct_objects_accessed") py_iter
      = Return accessed
      ∧ dom (column_usage entry_stage) = list_to_set (upstreams entry_stage)
      ∧ ∀ before obj after urn,
          accessed = before ++ obj :: after ->
          resolved_identifier obj = Return urn ->
          Forall (fun o => resolved_identifier o ≠ Return urn) after ->
          ∃ columns,
            accessed_columns obj columns
            ∧ column_usage entry_stage !! urn = Some columns.
Proof.
  assert (Hrun : _parse_audit_log_row row_stage empty_report
                 = (empty_report, Return entry_stage))
    by (vm_compute; reflexivity).
  exact (conj Hrun (column_usage_follows_upstreams row_stage empty_report
                      empty_report entry_stage Hrun)).
Defined.

Lemma record_scalar_fields_witness :
  _parse_audit_log_row row_stage empty_report = (empty_report, Return entry_stage)
  ∧ row_field row_stage "query_fingerprint" = Return (query_id entry_stage)
  ∧ row_field row_stage "query_text" = Return (query_text entry_stage)
  ∧ row_field row_stage "query_count" = Return (query_count entry_stage)
  ∧ row_field row_stage "session_id" = Return (session_id entry_stage)
  ∧ confidence_score entry_stage = 1
  ∧ (∃ t, row_field row_stage "query_start_time" = Return (PyDatetime t)
          ∧ dt_instant (timestamp entry_stage) = dt_instant t
          ∧ dt_utcoffset (timestamp entry_stage) = 0)
  ∧ (∃ user_name, row_field row_stage "user_name" = Return (PyStr user_name)
                  ∧ CorpUserUrn user_name = Return (user entry_stage))
  ∧ (∃ label, row_field row_stage "query_type" = Return label
              ∧ query_type_get label = Return (query_type entry_stage)).
Proof.
  assert (Hrun : _parse_audit_log_row row_stage empty_report
                 = (empty_report, Return entry_stage))
    by (vm_compute; reflexivity).
  exact (conj Hrun (record_scalar_fields row_stage empty_report
                      empty_report entry_stage Hrun)).
Defined.

Lemma missing_array_column_raises_witness :
  ("direct_objects_accessed"
     ∉ map (fun kv => lower (fst kv)) row_without_accessed)
  ∧ is_return (normalize_row row_without_accessed ∅) = true
  ∧ _parse_audit_log_row row_without_accessed empty_report
    = (empty_report, Raise (KeyError "direct_objects_accessed"))
  ∧ "direct_objects_accessed"
      ∈ map (fun kv => lower (fst kv)) row_without_modified
  ∧ ("objects_modified"
       ∉ map (fun kv => lower (fst kv)) row_without_modified)
  ∧ is_return (normalize_row row_without_modified ∅) = true
  ∧ _parse_audit_log_row row_without_modified empty_report
    = (empty_report, Raise (KeyError "objects_modified")).
Proof.
  assert (H1 : "direct_objects_accessed"
               ∉ map (fun kv => lower (fst kv)) row_without_accessed).
  { apply (bool_decide_unpack _). vm_compute. exact I. }
  assert (H2 : is_return (normalize_row row_without_accessed ∅) = true)
    by (vm_compute; reflexivity).
  assert (H3 : "direct_objects_accessed"
               ∈ map (fun kv => lower (fst kv)) row_without_modified).
  { apply (bool_decide_unpack _). vm_compute. exact I. }
  assert (H4 : "objects_modified"
               ∉ map (fun kv => lower (fst kv)) row_without_modified).
  { apply (bool_decide_unpack _). vm_compute. exact I. }
  assert (H5 : is_return (normalize_row row_without_modified ∅) = true)
    by (vm_compute; reflexivity).
  destruct (proj1 (missing_array_column_raises row_without_accessed
                     empty_report) H1) as (e1 & Hrun1 & He1).
  destruct (proj2 (missing_array_column_raises row_without_modified
                     empty_report) H3 H4) as (e2 & Hrun2 & He2).
  rewrite (He1 H2) in Hrun1. rewrite (He2 H5) in Hrun2.
  exact (conj H1 (conj H2 (conj Hrun1 (conj H3 (conj H4 (conj H5 Hrun2)))))).
Defined.

Lemma undecodable_json_column_raises_witness :
  ("DIRECT_OBJECTS_ACCESSED", PyStr "[{") ∈ row_garbled
  ∧ "DIRECT_OBJECTS_ACCESSED" ∈ json_fields
  ∧ "[{" ≠ ""
  ∧ json_decode "[{" = None
  ∧ ∃ e, (e = JSONDecodeError ∨ e = TypeError)
         ∧ _parse_audit_log_row row_garbled empty_report
           = (empty_report, Raise e)
         ∧ fetch_rows [row_garbled] empty_report
           = (report_warning parse_error_message row_garbled (Some e)
                empty_report, []).
Proof.
  assert (H1 : ("DIRECT_OBJECTS_ACCESSED", PyStr "[{") ∈ row_garbled).
  { apply list_elem_of_In. vm_compute. tauto. }
  assert (H2 : "DIRECT_OBJECTS_ACCESSED" ∈ json_fields).
  { apply (bool_decide_unpack _). vm_compute. exact I. }
  assert (H3 : "[{" ≠ "") by discriminate.
  assert (H4 : json_decode "[{" = None) by (vm_compute; reflexivity).
  exact (conj H1 (conj H2 (conj H3 (conj H4
           (undecodable_json_column_raises row_garbled empty_report
              "DIRECT_OBJECTS_ACCESSED" "[{" H1 H2 H3 H4))))).
Defined.

Lemma misspelled_json_column_raises_witness :
  NoDup (map (fun kv => lower (fst kv)) row_lower_key)
  ∧ ("direct_objects_accessed", PyStr (json_text (PyList [table_s])))
      ∈ row_lower_key
  ∧ lower "direct_objects_accessed" = "direct_objects_accessed"
  ∧ "direct_objects_accessed" ≠ "DIRECT_OBJECTS_ACCESSED"
  ∧ json_text (PyList [table_s]) ≠ ""
  ∧ ∃ e, _parse_audit_log_row row_lower_key empty_report
         = (empty_report, Raise e).
Proof.
  assert (H1 : NoDup (map (fun kv => lower (fst kv)) row_lower_key)).
  { apply (bool_decide_unpack _). vm_compute. exact I. }
  assert (H2 : ("direct_objects_accessed",
                PyStr (json_text (PyList [table_s]))) ∈ row_lower_key).
  { apply list_elem_of_In. vm_compute. tauto. }
  assert (H3 : lower "direct_objects_accessed" = "direct_objects_accessed")
    by reflexivity.
  assert (H4 : "direct_objects_accessed" ≠ "DIRECT_OBJECTS_ACCESSED")
    by discriminate.
  assert (H5 : json_text (PyList [table_s]) ≠ "")
    by (vm_compute; discriminate).
  exact (conj H1 (conj H2 (conj H3 (conj H4 (conj H5
           (misspelled_json_column_raises row_lower_key empty_report
              "direct_objects_accessed" _ H1 H2 H3 H4 H5)))))).
Defined.

Lemma get_workunits_fetches_when_not_cached_witness :
  st_audit_log fresh_state = None
  ∧ config_local_temp_path config_without_directory
    = Some "/var/datahub/audit.log"
  ∧ is_dir "/var/datahub/audit.log" = false
  ∧ @get_workunits_internal identifiers domains runtime connection aggregator
      config_without_directory fresh_state
    = (mk_state empty_report (Some (window config_without_directory)) None [],
       Raise AssertionError)
  ∧ (∀ path, config_local_temp_path config = Some path -> is_dir path = true)
  ∧ ∃ audit_log_query,
      _build_enriched_audit_log_query
        (window_start_time (window config)) (window_end_time (window config))
        (window_bucket_duration (window config)) (Some (deny_usernames config))
      = Return audit_log_query
      ∧ let resp := @connection_query connection audit_log_query in
        let queries := flat_map row_entries resp in
        @get_workunits_internal identifiers domains runtime connection
          aggregator config fresh_state
        = (mk_state
             (add_warnings (st_report fresh_state) (flat_map row_warnings resp))
             (Some (window config)) (Some queries)
             (st_aggregator fresh_state ++ queries),
           Return (gen_workunits (st_aggregator fresh_state ++ queries))).
Proof.
  assert (Hdir : ∀ path,
             config_local_temp_path config = Some path -> is_dir path = true).
  { intros path Hpath. injection Hpath as <-. reflexivity. }
  exact (conj eq_refl (conj eq_refl (conj eq_refl
           (conj
              (proj1 (@get_workunits_fetches_when_not_cached identifiers
                        domains runtime aggregator connection
                        config_without_directory fresh_state eq_refl)
                 "/var/datahub/audit.log" eq_refl eq_refl)
              (conj Hdir
                 (proj2 (@get_workunits_fetches_when_not_cached identifiers
                           domains runtime aggregator connection config
                           fresh_state eq_refl) Hdir)))))).
Defined.

Lemma get_workunits_replays_cached_audit_log_witness :
  let first_run :=
    @get_workunits_internal identifiers domains runtime connection aggregator
      config fresh_state in
  let st' := mk_state empty_report None (st_audit_log (fst first_run)) [] in
  let second_run :=
    @get_workunits_internal identifiers domains runtime silent_connection
      aggregator config st' in
  st_audit_log fresh_state = None
  ∧ st_aggregator fresh_state = []
  ∧ snd second_run = snd first_run
  ∧ st_aggregator (fst second_run) = st_aggregator (fst first_run)
  ∧ st_audit_log (fst second_run) = st_audit_log (fst first_run)
  ∧ st_report (fst second_run) = st_report st'.
Proof.
  intros first_run st' second_run.
  exact (conj eq_refl (conj eq_refl
           (get_workunits_replays_cached_audit_log connection silent_connection
              config fresh_state st' eq_refl eq_refl eq_refl eq_refl))).
Defined.

Lemma deduplicated_queries_one_per_partition_witness :
  let r1 := mk_fingerprinted_row query_1200 "f1a9" in
  let r2 := mk_fingerprinted_row query_1215 "f1a9" in
  let r3 := mk_fingerprinted_row query_upper "77ab" in
  let key := partition_key BucketDuration.HOUR r1 in
  first_latest (List.filter (in_partition BucketDuration.HOUR key) [r1; r3; r2])
  = Some r2
  ∧ List.filter
      (fun d => in_partition BucketDuration.HOUR key (dq_query d))
      (deduplicated_queries BucketDuration.HOUR [r1; r3; r2])
    = [mk_deduplicated_row r2 (fst key) 2].
Proof.
  intros r1 r2 r3 key.
  assert (Hfirst : first_latest
                     (List.filter (in_partition BucketDuration.HOUR key)
                        [r1; r3; r2]) = Some r2)
    by (vm_compute; reflexivity).
  split; [exact Hfirst|].
  pose proof (proj1 (deduplicated_queries_one_per_partition
                       BucketDuration.HOUR [r1; r3; r2] key)) as Hone.
  cbv zeta in Hone. rewrite Hfirst in Hone. exact Hone.
Defined.

Lemma empty_denylist_filters_nobody_witness :
  In query_lower [query_lower; query_upper]
  ∧ timestamp_millis window_start <= qh_start_time query_lower
    < timestamp_millis window_end
  ∧ qh_execution_status query_lower = "SUCCESS"
  ∧ In (mk_fingerprinted_row query_lower
          (qh_query_parameterized_hash query_lower))
       (fingerprinted_queries (timestamp_millis window_start)
          (timestamp_millis window_end) None [query_lower; query_upper]).
Proof.
  assert (H1 : In query_lower [query_lower; query_upper]) by (left; reflexivity).
  assert (H2 : timestamp_millis window_start <= qh_start_time query_lower
               < timestamp_millis window_end) by (vm_compute; split; congruence).
  assert (H3 : qh_execution_status query_lower = "SUCCESS") by reflexivity.
  pose proof (empty_denylist_filters_nobody window_start window_end
                BucketDuration.HOUR) as Hthm.
  cbv zeta in Hthm. destruct Hthm as (_ & _ & _ & _ & _ & Hkeep).
  exact (conj H1 (conj H2 (conj H3
           (Hkeep [query_lower; query_upper] query_lower H1 H2 H3)))).
Defined.

Lemma audit_query_rows_are_qualified_witness :
  let deny := Some ["svc_etl"] in
  let qh := [query_lower; query_upper] in
  let ah := [access "q-lower" 1710504000000 "svc_etl" [table_s] [];
             access "q-upper" 1710504000000 "SVC_ETL" [table_s] []] in
  let start_millis := timestamp_millis window_start in
  let end_millis := timestamp_millis window_end in
  plain_denylist deny = true
  ∧ map QUERY_ID
      (run_enriched_audit_log_query window_start window_end
         BucketDuration.HOUR deny qh ah)
    = ["q-lower"]
  ∧ Forall
      (fun out =>
         (∃ h a,
            In h qh ∧ In a ah
            ∧ QUERY_ID out = qh_query_id h
            ∧ ah_query_id a = qh_query_id h
            ∧ qh_execution_status h = "SUCCESS"
            ∧ users_filter deny (qh_user_name h) = true
            ∧ users_filter deny (ah_user_name a) = true
            ∧ start_millis <= ah_query_start_time a < end_millis
            ∧ QUERY_START_TIME out = qh_start_time h
            ∧ QUERY_FINGERPRINT out = qh_query_parameterized_hash h
            ∧ USER_NAME out = qh_user_name h)
         ∧ start_millis <= QUERY_START_TIME out < end_millis
         ∧ BUCKET_START_TIME out
           = date_trunc_utc BucketDuration.HOUR (QUERY_START_TIME out)
         ∧ (1 <= QUERY_COUNT out)%nat
         ∧ Forall (fun o => table_view_domain o = true)
             (DIRECT_OBJECTS_ACCESSED out)
         ∧ Forall (fun o => table_view_domain o = true) (OBJECTS_MODIFIED out))
      (run_enriched_audit_log_query window_start window_end
         BucketDuration.HOUR deny qh ah).
Proof.
  intros deny qh ah start_millis end_millis.
  assert (Hplain : plain_denylist deny = true) by (vm_compute; reflexivity).
  assert (Hrows : map QUERY_ID
                    (run_enriched_audit_log_query window_start window_end
                       BucketDuration.HOUR deny qh ah)
                  = ["q-lower"]) by (vm_compute; reflexivity).
  exact (conj Hplain (conj Hrows
           (audit_query_rows_are_qualified window_start window_end
              BucketDuration.HOUR deny qh ah Hplain))).
Defined.

Lemma empty_window_returns_nothing_witness :
  plain_denylist (Some ["svc_etl"]) = true
  ∧ timestamp_millis window_start <= timestamp_millis window_end
  ∧ run_enriched_audit_log_query window_end window_start BucketDuration.HOUR
      (Some ["svc_etl"]) [query_1200; query_1215]
      [access "q-1215" 1710504900000 "ALICE" [table_s] [table_t]]
    = [].
Proof.
  assert (Hplain : plain_denylist (Some ["svc_etl"]) = true)
    by (vm_compute; reflexivity).
  assert (H1 : timestamp_millis window_start <= timestamp_millis window_end)
    by (vm_compute; congruence).
  exact (conj Hplain (conj H1
           (empty_window_returns_nothing window_end window_start
              BucketDuration.HOUR (Some ["svc_etl"]) _ _ Hplain H1))).
Defined.

Lemma denylist_spelling_is_irrelevant_witness :
  let users := ["svc_etl"; "Loader"] in
  let qh := [query_lower; query_upper] in
  let ah := [access "q-lower" 1710504000000 "svc_etl" [table_s] [];
             access "q-upper" 1710504000000 "SVC_ETL" [table_s] []] in
  Forall (fun u => is_ascii u = true) users
  ∧ plain_denylist (Some users) = true
  ∧ map upper users = ["SVC_ETL"; "LOADER"]
  ∧ _build_enriched_audit_log_query window_start window_end
      BucketDuration.HOUR (Some (map upper users))
    = _build_enriched_audit_log_query window_start window_end
        BucketDuration.HOUR (Some users)
  ∧ run_enriched_audit_log_query window_start window_end BucketDuration.HOUR
      (Some (map upper users)) qh ah
    = run_enriched_audit_log_query window_start window_end BucketDuration.HOUR
        (Some users) qh ah.
Proof.
  intros users qh ah.
  assert (Hascii : Forall (fun u => is_ascii u = true) users)
    by (repeat constructor).
  assert (Hplain : plain_denylist (Some users) = true)
    by (vm_compute; reflexivity).
  exact (conj Hascii (conj Hplain (conj eq_refl
           (denylist_spelling_is_irrelevant window_start window_end
              BucketDuration.HOUR users qh ah Hascii Hplain)))).
Defined.

End ExtrasWitnesses.
